(** * AudioTranscript: the chunked transcription pipeline of [project1.2.py]

    A shallow embedding of [safe_delete], [split_audio], [transcribe_chunk]
    and [process_long_audio].  The Python functions talk to the file system,
    to the speech-to-text service, to the clock and to the Streamlit page;
    here they are state-passing functions over a [world] that holds the file
    system and the chronological trace of what the program did, and the
    answers of the outside (decoder, temp-name supply, exporter, service,
    [os.unlink]) come from an environment [Env] that is arbitrary in every
    theorem.  The Streamlit calls, [time.sleep] and [gc.collect] are taken
    not to raise. *)

From stdpp Require Import base gmap strings list pretty.
From Stdlib Require Import ZArith Lia Ascii.

Open Scope Z_scope.

(** ** Python exceptions *)

(** The classes the [except] clauses of the source tell apart.  Only
    subclasses of [Exception] are modelled (what the external calls raise);
    [str(e)] is carried along since the source prints it. *)
Inductive exn_class :=
| PermissionError
| FileNotFoundError
| FileExistsError
| ValueError
| OtherException.

Record exn := Exn { exn_kind : exn_class; exn_str : string }.

Definition is_PermissionError (e : exn) : bool :=
  match exn_kind e with PermissionError => true | _ => false end.

(** ** Audio segments (pydub) *)

(** An [AudioSegment] is its sample data, one list element per millisecond:
    [len(audio)] is the duration in ms and slicing is by ms. *)
Record AudioSegment := mkAudio { frames : list Z }.

Definition len (a : AudioSegment) : Z := Z.of_nat (length (frames a)).

(** [audio[start:stop]] as pydub's [__getitem__] computes it for a slice
    without step: both ends are clamped to [len(self)], then the data between
    them is taken.  (Positions are non-negative at every use in the source.) *)
Definition slice (a : AudioSegment) (start stop : Z) : AudioSegment :=
  let start := Z.min start (len a) in
  let stop := Z.min stop (len a) in
  mkAudio (take (Z.to_nat (stop - start)) (drop (Z.to_nat start) (frames a))).

(** ** Observable events *)

Inductive event :=
| StWarning (msg : string)          (* st.warning(msg) *)
| StError (msg : string)            (* st.error(msg) *)
| StProgress (num den : Z)          (* progress bar set to num/den *)
| StText (msg : string)             (* status_text.text(msg) *)
| TimeSleep (secs : Z)              (* time.sleep(secs) *)
| GcCollect                         (* gc.collect() *)
| TempCreated (path : string)       (* NamedTemporaryFile made path *)
| Exported (path : string)          (* chunk.export wrote path *)
| RemoteCall (path : string)        (* a request for path reached the service *)
| Unlinked (path : string).         (* os.unlink removed path *)

(** ** The world and the environment *)

(** [fs] is the set of paths that exist, [trace] what happened so far (oldest
    first), [session_progress] is [st.session_state.progress] as a fraction.
    The four counters number the calls of [NamedTemporaryFile], [export],
    [transcribe_chunk] and [safe_delete]; they only index the environment's
    answers.  [exports] lists what [chunk.export] has written, oldest first:
    the path and the audio that went into it; [n_progress] counts the
    assignments to [st.session_state.progress]. *)
Record world := World {
  fs : gset string;
  trace : list event;
  session_progress : Z * Z;
  n_tempfile : nat;
  n_export : nat;
  n_transcribe : nat;
  n_safe_delete : nat;
  exports : list (string * AudioSegment);
  n_progress : nat
}.

(** What the outside answers.  Every call has its own key, so any behaviour
    of decoder, disk and service over a run is some [Env]. *)
Record Env := {
  (* AudioSegment.from_file(path) *)
  from_file : string -> exn + AudioSegment;
  (* the name picked by the k-th NamedTemporaryFile call, or its failure *)
  tempfile_name : nat -> exn + string;
  (* the k-th chunk.export call: None when it succeeds *)
  export_outcome : nat -> option exn;
  (* the request of attempt a of the k-th transcribe_chunk call *)
  remote : nat -> nat -> exn + string;
  (* os.unlink number a (0, 1) of the k-th safe_delete call, on a path that
     exists: None when the file is removed *)
  unlink_outcome : nat -> nat -> option exn
}.

Definition with_fs (f : gset string) (w : world) : world :=
  World f (trace w) (session_progress w)
        (n_tempfile w) (n_export w) (n_transcribe w) (n_safe_delete w) (exports w)
        (n_progress w).

Definition with_trace (t : list event) (w : world) : world :=
  World (fs w) t (session_progress w)
        (n_tempfile w) (n_export w) (n_transcribe w) (n_safe_delete w) (exports w)
        (n_progress w).

Definition with_progress (p : Z * Z) (w : world) : world :=
  World (fs w) (trace w) p
        (n_tempfile w) (n_export w) (n_transcribe w) (n_safe_delete w) (exports w)
        (n_progress w).

Definition with_n_tempfile (k : nat) (w : world) : world :=
  World (fs w) (trace w) (session_progress w)
        k (n_export w) (n_transcribe w) (n_safe_delete w) (exports w)
        (n_progress w).

Definition with_n_export (k : nat) (w : world) : world :=
  World (fs w) (trace w) (session_progress w)
        (n_tempfile w) k (n_transcribe w) (n_safe_delete w) (exports w)
        (n_progress w).

Definition with_n_transcribe (k : nat) (w : world) : world :=
  World (fs w) (trace w) (session_progress w)
        (n_tempfile w) (n_export w) k (n_safe_delete w) (exports w)
        (n_progress w).

Definition with_n_safe_delete (k : nat) (w : world) : world :=
  World (fs w) (trace w) (session_progress w)
        (n_tempfile w) (n_export w) (n_transcribe w) k (exports w)
        (n_progress w).

Definition with_exports (l : list (string * AudioSegment)) (w : world) : world :=
  World (fs w) (trace w) (session_progress w)
        (n_tempfile w) (n_export w) (n_transcribe w) (n_safe_delete w) l
        (n_progress w).

Definition with_n_progress (k : nat) (w : world) : world :=
  World (fs w) (trace w) (session_progress w)
        (n_tempfile w) (n_export w) (n_transcribe w) (n_safe_delete w) (exports w)
        k.

(** ** A state and exception monad *)

Inductive result (A : Type) :=
| Ok (a : A)
| Raise (e : exn).
Arguments Ok {A} a.
Arguments Raise {A} e.

Definition M (A : Type) : Type := world -> result A * world.

Definition ret {A} (a : A) : M A := fun w => (Ok a, w).

Definition raise {A} (e : exn) : M A := fun w => (Raise e, w).

Definition bind {A B} (m : M A) (k : A -> M B) : M B :=
  fun w =>
    match m w with
    | (Ok a, w') => k a w'
    | (Raise e, w') => (Raise e, w')
    end.

(** [try: m except e: h e]; a handler re-raises what it does not catch. *)
Definition try_except {A} (m : M A) (h : exn -> M A) : M A :=
  fun w =>
    match m w with
    | (Ok a, w') => (Ok a, w')
    | (Raise e, w') => h e w'
    end.

Declare Scope py_scope.
Delimit Scope py_scope with py.
Notation "x <- m ;; k" := (bind m (fun x => k))
  (at level 100, m at next level, right associativity) : py_scope.
Notation "m ;;; k" := (bind m (fun _ => k))
  (at level 100, right associativity) : py_scope.
Open Scope py_scope.

Definition lift {A} (r : exn + A) : M A :=
  match r with
  | inl e => raise e
  | inr a => ret a
  end.

Definition emit (e : event) : M unit :=
  fun w => (Ok tt, with_trace (trace w ++ [e]) w).

(** ** Library calls *)

Definition st_warning (msg : string) : M unit := emit (StWarning msg).
Definition st_error (msg : string) : M unit := emit (StError msg).
Definition time_sleep (secs : Z) : M unit := emit (TimeSleep secs).
Definition gc_collect : M unit := emit GcCollect.

(** The [FileNotFoundError] of [open] and [os.unlink] for a missing [path];
    its [str(e)] shows the path between quotes (as [repr] does for a path
    without quotes, backslashes or unprintable characters). *)
Definition file_not_found (path : string) : exn :=
  Exn FileNotFoundError ("[Errno 2] No such file or directory: '" +:+ path +:+ "'").

Definition os_path_exists (path : string) : M bool :=
  fun w => (Ok (bool_decide (path ∈ fs w)), w).

(** [os.unlink(path)]: a missing path raises [FileNotFoundError]; on an
    existing one the environment's [verdict] decides. *)
Definition os_unlink (verdict : option exn) (path : string) : M unit :=
  fun w =>
    if bool_decide (path ∈ fs w) then
      match verdict with
      | None =>
          (Ok tt, with_trace (trace w ++ [Unlinked path]) (with_fs (fs w ∖ {[path]}) w))
      | Some e => (Raise e, w)
      end
    else (Raise (file_not_found path), w).

(** [range(start, stop, step)] as CPython computes it: the length first,
    then item [i] is [start + i * step]; a zero step is a [ValueError]. *)
Definition range_length (start stop step : Z) : Z :=
  if 0 <? step then
    (if start <? stop then (stop - start - 1) / step + 1 else 0)
  else
    (if stop <? start then (start - stop - 1) / (- step) + 1 else 0).

Definition py_range (start stop step : Z) : exn + list Z :=
  if step =? 0 then inl (Exn ValueError "range() arg 3 must not be zero")
  else inr (map (fun i => start + Z.of_nat i * step)
                (seq 0 (Z.to_nat (range_length start stop step)))).

Section Program.

Variable E : Env.

(** ** [safe_delete] (lines 40-59) *)

Definition enter_safe_delete : M nat :=
  fun w =>
    (Ok (n_safe_delete w), with_n_safe_delete (S (n_safe_delete w)) w).

Definition safe_delete (file_path : string) : M bool :=
  k <- enter_safe_delete ;;
  try_except
    (present <- os_path_exists file_path ;;
     if present then
       (os_unlink (unlink_outcome E k 0) file_path ;;;
        ret true)
     else
       ret false)
    (fun e =>
       if is_PermissionError e then
         (gc_collect ;;;
          time_sleep 1 ;;;
          try_except
            (os_unlink (unlink_outcome E k 1) file_path ;;;
             ret true)
            (fun _ =>
               st_warning ("Couldn't delete temporary file: " +:+ file_path) ;;;
               ret false))
       else
         (st_warning ("Error deleting file: " +:+ exn_str e) ;;;
          ret false)).

(** ** [split_audio] (lines 62-70) *)

Definition split_audio (file_path : string) (chunk_minutes : Z) : M (list AudioSegment) :=
  try_except
    (audio <- lift (from_file E file_path) ;;
     let chunk_ms := chunk_minutes * 60 * 1000 in
     starts <- lift (py_range 0 (len audio) chunk_ms) ;;
     ret (map (fun i => slice audio i (i + chunk_ms)) starts))
    (fun e =>
       st_error ("Error splitting audio: " +:+ exn_str e) ;;;
       ret []).

(** ** [transcribe_chunk] (lines 72-90) *)

(** [open(chunk_file, 'rb')] *)
Definition open_rb (path : string) : M unit :=
  fun w =>
    if bool_decide (path ∈ fs w) then (Ok tt, w)
    else (Raise (file_not_found path), w).

(** [client.audio.transcriptions.create(file=(chunk_file, f.read()), ...)],
    attempt [a] of call [k]. *)
Definition transcriptions_create (k a : nat) (chunk_file : string) : M string :=
  emit (RemoteCall chunk_file) ;;;
  lift (remote E k a).

Definition enter_transcribe_chunk : M nat :=
  fun w =>
    (Ok (n_transcribe w), with_n_transcribe (S (n_transcribe w)) w).

(** One pass of the [for attempt in range(retries)] body.  [Some text] is a
    [return text] of the function, [None] falls through to the next pass. *)
Definition attempt_body (k : nat) (chunk_file : string) (retries attempt : Z)
  : M (option string) :=
  try_except
    (open_rb chunk_file ;;;
     text <- transcriptions_create k (Z.to_nat attempt) chunk_file ;;
     ret (Some text))
    (fun e =>
       if attempt <? retries - 1 then
         let wait_time := 5 * 2 ^ attempt in
         st_warning ("Retrying chunk in " +:+ pretty wait_time +:+ "s...") ;;;
         time_sleep wait_time ;;;
         ret None
       else
         st_error ("Chunk failed: " +:+ exn_str e) ;;;
         ret (Some "")).

Fixpoint for_attempts (k : nat) (chunk_file : string) (retries : Z)
    (attempts : list Z) : M string :=
  match attempts with
  | [] => ret ""
  | attempt :: rest =>
      r <- attempt_body k chunk_file retries attempt ;;
      match r with
      | Some text => ret text
      | None => for_attempts k chunk_file retries rest
      end
  end.

Definition transcribe_chunk (chunk_file : string) (retries : Z) : M string :=
  k <- enter_transcribe_chunk ;;
  attempts <- lift (py_range 0 retries 1) ;;
  for_attempts k chunk_file retries attempts.

(** ** [process_long_audio] (lines 92-124) *)

(** [tempfile.NamedTemporaryFile(suffix=..., delete=False)]: the file is
    created under a name that did not exist; when the environment offers a
    name that is taken, the call gives up with [FileExistsError]. *)
Definition NamedTemporaryFile (suffix : string) : M string :=
  fun w =>
    let w1 := with_n_tempfile (S (n_tempfile w)) w in
    match tempfile_name E (n_tempfile w) with
    | inl e => (Raise e, w1)
    | inr name =>
        let path := name +:+ suffix in
        if bool_decide (path ∈ fs w) then
          (Raise (Exn FileExistsError "No usable temporary file name found"), w1)
        else
          (Ok path, with_trace (trace w ++ [TempCreated path]) (with_fs ({[path]} ∪ fs w) w1))
    end.

(** [chunk.export(out_f, format="mp3", bitrate="64k")] writes the audio of
    [chunk] to [out_f]. *)
Definition export (chunk : AudioSegment) (out_f : string) : M unit :=
  fun w =>
    let w1 := with_n_export (S (n_export w)) w in
    match export_outcome E (n_export w) with
    | Some e => (Raise e, w1)
    | None =>
        (Ok tt, with_exports (exports w ++ [(out_f, chunk)])
                  (with_trace (trace w ++ [Exported out_f]) (with_fs ({[out_f]} ∪ fs w) w1)))
    end.

(** [st.session_state.progress = p] *)
Definition set_session_progress (p : Z * Z) : M unit :=
  fun w => (Ok tt, with_n_progress (S (n_progress w)) (with_progress p w)).

Fixpoint enumerate_from {A} (i : Z) (l : list A) : list (Z * A) :=
  match l with
  | [] => []
  | x :: rest => (i, x) :: enumerate_from (i + 1) rest
  end.

Definition enumerate {A} (l : list A) : list (Z * A) := enumerate_from 0 l.

(** The body of [for i, chunk in enumerate(chunks)] (lines 104-118); [n] is
    [len(chunks)]. *)
Definition chunk_iteration (n i : Z) (chunk : AudioSegment)
    (full_transcript : list string) : M (list string) :=
  let progress := (i + 1, n) in
  set_session_progress progress ;;;
  emit (StProgress (i + 1) n) ;;;
  emit (StText ("Processing chunk " +:+ pretty (i + 1) +:+ "/" +:+ pretty n)) ;;;
  temp_path <- NamedTemporaryFile ".mp3" ;;
  export chunk temp_path ;;;
  transcript <- transcribe_chunk temp_path 3 ;;
  let full_transcript := full_transcript ++ [transcript] in
  safe_delete temp_path ;;;
  ret full_transcript.

Fixpoint for_chunks (n : Z) (ichunks : list (Z * AudioSegment))
    (full_transcript : list string) : M (list string) :=
  match ichunks with
  | [] => ret full_transcript
  | (i, chunk) :: rest =>
      full_transcript <- chunk_iteration n i chunk full_transcript ;;
      for_chunks n rest full_transcript
  end.

Definition paragraph_separator : string :=
  String "010"%char (String "010"%char EmptyString).

(** The [try] block, lines 95-120.  [st.progress(0)] shows an empty bar;
    [st.empty()] only reserves the place of the status text. *)
Definition process_long_audio_body (file_path : string) : M string :=
  chunks <- split_audio file_path 2 ;;
  match chunks with
  | [] => ret ""
  | _ :: _ =>
      emit (StProgress 0 1) ;;;
      full_transcript <- for_chunks (Z.of_nat (length chunks)) (enumerate chunks) [] ;;
      ret (String.concat paragraph_separator full_transcript)
  end.

Definition process_long_audio (file_path : string) : M string :=
  try_except
    (process_long_audio_body file_path)
    (fun e =>
       st_error ("Processing error: " +:+ exn_str e) ;;;
       ret "").

End Program.



(** * The Streamlit page (lines 18-37 and 126-251)

    Streamlit runs the script from its first line to its last on every
    interaction.  What one run hands to the next is [st.session_state] and
    the outside world; the script's own variables and the page start afresh.
    A run is a state-passing function over a [visit]: the session state, the
    script variable [temp_path], the widgets laid out so far and the [world]
    of the pipeline.  What the pipeline draws stays in the world's trace, as
    in the pipeline: [st.error], [st.warning], and the progress bar and
    status text of [process_long_audio].  The elements the lines 126-251 lay
    out themselves are collected in [page].  The values the widgets return
    are the [inputs] of the run.  A run ends at the last line of the script
    or at an exception that no handler of the script catches ([rerun]).
    Streamlit is taken not to interrupt a run, that is, no widget is touched
    while the script is running, and the Groq client of line 15 is taken to
    be constructed. *)

(** ** [str.rsplit] and the name of the downloaded audio *)

(** [s] cut at its last [sep]: what is before it and what is after it. *)
Fixpoint cut_at_last (sep : ascii) (s : string) : option (string * string) :=
  match s with
  | EmptyString => None
  | String c rest =>
      match cut_at_last sep rest with
      | Some (before, after) => Some (String c before, after)
      | None => if Ascii.eqb c sep then Some (EmptyString, rest) else None
      end
  end.

(** [s.rsplit(sep, 1)] for a separator of one character. *)
Definition rsplit1 (sep : ascii) (s : string) : list string :=
  match cut_at_last sep s with
  | Some (before, after) => [before; after]
  | None => [s]
  end.

(** [l[0]] *)
Definition item0 (l : list string) : exn + string :=
  match l with
  | x :: _ => inr x
  | [] => inl (Exn OtherException "list index out of range")
  end.

(** Line 216: [safe_filename.rsplit('.', 1)[0] + '.mp3']. *)
Definition audio_filename_of (safe_filename : string) : exn + string :=
  match item0 (rsplit1 "."%char safe_filename) with
  | inl e => inl e
  | inr stem => inr (stem +:+ ".mp3")
  end.

(** What [extract_info] tells of a video, as far as the output template
    reads it. *)
Record info := { video_id : string; ext : string }.

(** [ydl.prepare_filename(info)] under
    ['outtmpl': 'yt_audio_%(id)s.%(ext)s'] (line 205), for an id and an
    extension that [yt_dlp] puts into a file name as they stand: an id of
    letters, digits, [-] and [_] ([youtube_id]) and an extension of letters
    and digits ([plain_ext]).  Other ids [yt_dlp] rewrites (a missing one
    becomes [NA], characters unsafe in a file name are replaced); the
    definition does not follow it there. *)
Definition prepare_filename (i : info) : string :=
  "yt_audio_" +:+ video_id i +:+ "." +:+ ext i.

(** ** The session state and the page *)

(** The values the script keeps in [st.session_state]. *)
Inductive pyval :=
| PyNone
| PyBool (b : bool)
| PyInt (n : Z)
| PyFloat (num den : Z)            (* the float num / den *)
| PyStr (s : string).

(** Truth value testing of [if v:]. *)
Definition truthy_str (s : string) : bool :=
  match s with
  | EmptyString => false
  | String _ _ => true
  end.

Definition truthy (v : pyval) : bool :=
  match v with
  | PyNone => false
  | PyBool b => b
  | PyInt n => negb (n =? 0)
  | PyFloat num _ => negb (num =? 0)
  | PyStr s => truthy_str s
  end.

Inductive widget :=
| Title (body : string)                                   (* st.title *)
| Columns (n : Z)                                         (* st.columns *)
| Subheader (body : string)                               (* st.subheader *)
| Button (label : string)                                 (* st.button *)
| FileUploader (label : string) (types : list string)     (* st.file_uploader *)
| TextInput (label placeholder : string)                  (* st.text_input *)
| Video (url : string)                                    (* st.video *)
| Spinner (text : string)                                 (* st.spinner *)
| Success (body : string)                                 (* st.success *)
| DownloadButton (label : string) (data : pyval) (file_name : string)
| TextArea (label : string) (value : pyval) (height : Z)  (* st.text_area *)
| Markdown (body : string)                                (* st.markdown *)
| Caption (body : string)                                 (* st.caption *)
| ExceptionBox (e : exn).         (* Streamlit's report of an uncaught exception *)

(** What the widgets return in one run of the script.  [audio_file] is the
    content of the uploaded file, [None] while the uploader is empty. *)
Record inputs := {
  upload_audio_clicked : bool;     (* st.button("Upload Audio File") *)
  audio_file : option string;      (* st.file_uploader(...) *)
  enter_url_clicked : bool;        (* st.button("Enter YouTube URL") *)
  url : string;                    (* st.text_input(...) *)
  transcribe_video_clicked : bool  (* st.button("Transcribe Video") *)
}.

(** What the outside answers to the handlers of one run. *)
Record Net := {
  (* tmp_file.write(audio_file.read()): None when it succeeds *)
  write_outcome : option exn;
  (* ydl.extract_info(url, download=False) *)
  extract_info : string -> exn + info;
  (* ydl.download([url]): None when the audio file has been written *)
  download_outcome : string -> option exn;
  (* st.video(data): None when the player is drawn *)
  video_outcome : string -> option exn
}.

Record visit := Visit {
  session_state : gmap string pyval;
  temp_path : option string;
  page : list widget;
  outside : world
}.

Definition with_session (s : gmap string pyval) (a : visit) : visit :=
  Visit s (temp_path a) (page a) (outside a).

Definition with_temp_path (p : option string) (a : visit) : visit :=
  Visit (session_state a) p (page a) (outside a).

Definition with_page (l : list widget) (a : visit) : visit :=
  Visit (session_state a) (temp_path a) l (outside a).

Definition with_outside (w : world) (a : visit) : visit :=
  Visit (session_state a) (temp_path a) (page a) w.

(** ** The monad of the script *)

Definition Script (X : Type) : Type := visit -> result X * visit.

Definition retS {X} (x : X) : Script X := fun a => (Ok x, a).

Definition bindS {X Y} (m : Script X) (k : X -> Script Y) : Script Y :=
  fun a =>
    match m a with
    | (Ok x, a') => k x a'
    | (Raise e, a') => (Raise e, a')
    end.

(** A call of the pipeline that assigns nothing to [st.session_state], run
    on the world of the script: every call but [process_long_audio]. *)
Definition run {X} (m : M X) : Script X :=
  fun a =>
    match m (outside a) with
    | (r, w') => (r, with_outside w' a)
    end.

(** [st.session_state.progress] as the pipeline has it. *)
Definition progress_value (w : world) : pyval :=
  PyFloat (fst (session_progress w)) (snd (session_progress w)).

(** What a call of the pipeline that took the world from [w] to [w'] has
    done to [st.session_state]: line 106 is the pipeline's one assignment
    to it, and of the values assigned the last one stays. *)
Definition assigned_progress (w w' : world) (ss : gmap string pyval)
  : gmap string pyval :=
  if bool_decide (n_progress w' = n_progress w) then ss
  else <["progress" := progress_value w']> ss.

(** A call of the pipeline with its assignments to [st.session_state]. *)
Definition run_job {X} (m : M X) : Script X :=
  fun a =>
    match m (outside a) with
    | (r, w') =>
        (r, with_session (assigned_progress (outside a) w' (session_state a))
              (with_outside w' a))
    end.

Definition liftS {X} (r : exn + X) : Script X :=
  fun a =>
    match r with
    | inl e => (Raise e, a)
    | inr x => (Ok x, a)
    end.

(** [try: body  except Exception as e: handler e  finally: final] *)
Definition try_except_finally (body : Script unit) (handler : exn -> Script unit)
    (final : Script unit) : Script unit :=
  fun a =>
    match body a with
    | (r, a1) =>
        match (match r with
               | Ok _ => (Ok tt, a1)
               | Raise e => handler e a1
               end) with
        | (r', a2) =>
            match final a2 with
            | (Ok _, a3) => (r', a3)
            | (Raise e, a3) => (Raise e, a3)
            end
        end
    end.

Declare Scope script_scope.
Delimit Scope script_scope with script.
Notation "x <- m ;; k" := (bindS m (fun x => k))
  (at level 100, m at next level, right associativity) : script_scope.
Notation "m ;;; k" := (bindS m (fun _ => k))
  (at level 100, right associativity) : script_scope.
Open Scope script_scope.

(** [st.session_state.key], [st.session_state.key = v] and
    [key in st.session_state]. *)
Definition get_state (key : string) : Script pyval :=
  fun a =>
    match session_state a !! key with
    | Some v => (Ok v, a)
    | None =>
        (Raise (Exn OtherException ("st.session_state has no attribute " +:+ key)), a)
    end.

Definition set_state (key : string) (v : pyval) : Script unit :=
  fun a => (Ok tt, with_session (<[key := v]> (session_state a)) a).

Definition in_state (key : string) : Script bool :=
  fun a => (Ok (bool_decide (is_Some (session_state a !! key))), a).

Definition get_temp_path : Script (option string) :=
  fun a => (Ok (temp_path a), a).

Definition set_temp_path (p : option string) : Script unit :=
  fun a => (Ok tt, with_temp_path p a).

(** An element that is drawn whatever it is given.  [st.download_button]
    is drawn this way although it refuses data that is neither text nor
    bytes: the script hands it a truthy [audio_result] or [yt_result], and
    these two keys hold [None] or a string in every session the script has
    built ([results_are_text]).  [st.video], which raises on some of the
    strings a user can type, is [st_video] below. *)
Definition show (x : widget) : Script unit :=
  fun a => (Ok tt, with_page (page a ++ [x]) a).

(** A button is drawn and answers whether it was clicked. *)
Definition st_button (label : string) (clicked : bool) : Script bool :=
  show (Button label) ;;;
  retS clicked.

(** [if cond: then_] *)
Definition when (cond : bool) (then_ : Script unit) : Script unit :=
  if cond then then_ else retS tt.

(** [left and not st.session_state.processing]: the flag is read only when
    [left] holds. *)
Definition and_not_processing (left : bool) : Script bool :=
  if left then
    (processing <- get_state "processing" ;;
     retS (negb (truthy processing)))
  else retS false.

(** ** Session state initialization (lines 21-37) *)

(** [if key not in st.session_state: st.session_state.key = v] *)
Definition init_state (key : string) (v : pyval) : Script unit :=
  present <- in_state key ;;
  when (negb present) (set_state key v).

Definition session_state_initialization : Script unit :=
  init_state "yt_transcribe" (PyBool false) ;;;
  init_state "aud_transcribe" (PyBool false) ;;;
  init_state "yt_result" PyNone ;;;
  init_state "audio_result" PyNone ;;;
  init_state "processing" (PyBool false) ;;;
  init_state "progress" (PyInt 0).

(** What a run of the script starts from: an empty page and [temp_path]
    unset. *)
Definition run_start (a : visit) : visit := with_page [] (with_temp_path None a).

Section Page.

Variable E : Env.
Variable net : Net.

(** ** The audio column (lines 130-176) *)

(** [tmp_file.write(audio_file.read())] *)
Definition tmp_file_write (data : string) : Script unit :=
  fun a =>
    match write_outcome net with
    | Some e => (Raise e, a)
    | None => (Ok tt, a)
    end.

(** Lines 145-166: the upload is written to a temp file, transcribed, and
    the temp file removed. *)
Definition audio_job (data : string) : Script unit :=
  set_temp_path None ;;;
  try_except_finally
    (set_state "processing" (PyBool true) ;;;
     tmp_file_name <- run (NamedTemporaryFile E ".mp3") ;;
     tmp_file_write data ;;;
     set_temp_path (Some tmp_file_name) ;;;
     result <- run_job (process_long_audio E tmp_file_name) ;;
     set_state "audio_result" (PyStr result))
    (fun e => run (st_error ("Processing error: " +:+ exn_str e)))
    (p <- get_temp_path ;;
     match p with
     | Some path =>
         when (truthy_str path) (run (safe_delete E path) ;;; retS tt)
     | None => retS tt
     end ;;;
     set_state "processing" (PyBool false)).

Definition audio_column (inp : inputs) : Script unit :=
  show (Subheader "Audio File Transcription") ;;;
  clicked <- st_button "Upload Audio File" (upload_audio_clicked inp) ;;
  when clicked
    (set_state "yt_transcribe" (PyBool false) ;;;
     set_state "aud_transcribe" (PyBool true) ;;;
     set_state "audio_result" PyNone) ;;;
  aud_transcribe <- get_state "aud_transcribe" ;;
  when (truthy aud_transcribe)
    (show (FileUploader "Select audio file" ["mp3"; "wav"; "m4a"]) ;;;
     match audio_file inp with
     | Some data =>
         go <- and_not_processing true ;;
         when go
           (audio_job data ;;;
            audio_result <- get_state "audio_result" ;;
            when (truthy audio_result) (show (Success "Audio processing complete!")))
     | None => retS tt
     end ;;;
     audio_result <- get_state "audio_result" ;;
     when (truthy audio_result)
       (data <- get_state "audio_result" ;;
        show (DownloadButton "Download Transcript" data "audio_transcript.txt") ;;;
        value <- get_state "audio_result" ;;
        show (TextArea "Transcription Result" value 300))).

(** ** The YouTube column (lines 179-246) *)

(** [st.video(data)] (line 193): the player is drawn, or the call raises, as
    it does on a string that is neither a URL nor the path of a file. *)
Definition st_video (data : string) : Script unit :=
  fun a =>
    match video_outcome net data with
    | Some e => (Raise e, a)
    | None => (Ok tt, with_page (page a ++ [Video data]) a)
    end.

(** [ydl.download([url])], which on success leaves the extracted audio under
    [audio_filename]; a download that fails is taken to leave the disk as it
    was. *)
Definition ydl_download (video_url audio_filename : string) : Script unit :=
  fun a =>
    match download_outcome net video_url with
    | Some e => (Raise e, a)
    | None =>
        (Ok tt, with_outside (with_fs ({[audio_filename]} ∪ fs (outside a)) (outside a)) a)
    end.

(** Lines 196-236: the audio of the video is downloaded unless its file is
    there already, transcribed, and the file removed. *)
Definition youtube_job (video_url : string) : Script unit :=
  set_temp_path None ;;;
  try_except_finally
    (set_state "processing" (PyBool true) ;;;
     show (Spinner "Downloading audio...") ;;;
     i <- liftS (extract_info net video_url) ;;
     let safe_filename := prepare_filename i in
     audio_filename <- liftS (audio_filename_of safe_filename) ;;
     present <- run (os_path_exists audio_filename) ;;
     when (negb present) (ydl_download video_url audio_filename) ;;;
     set_temp_path (Some audio_filename) ;;;
     result <- run_job (process_long_audio E audio_filename) ;;
     set_state "yt_result" (PyStr result))
    (fun e => run (st_error ("YouTube processing error: " +:+ exn_str e)))
    (p <- get_temp_path ;;
     match p with
     | Some path =>
         when (truthy_str path)
           (present <- run (os_path_exists path) ;;
            when present (run (safe_delete E path) ;;; retS tt))
     | None => retS tt
     end ;;;
     set_state "processing" (PyBool false)).

Definition youtube_column (inp : inputs) : Script unit :=
  show (Subheader "YouTube Video Transcription") ;;;
  clicked <- st_button "Enter YouTube URL" (enter_url_clicked inp) ;;
  when clicked
    (set_state "aud_transcribe" (PyBool false) ;;;
     set_state "yt_transcribe" (PyBool true) ;;;
     set_state "yt_result" PyNone) ;;;
  yt_transcribe <- get_state "yt_transcribe" ;;
  when (truthy yt_transcribe)
    (show (TextInput "Paste YouTube URL:" "https://www.youtube.com/watch?v=...") ;;;
     when (truthy_str (url inp))
       (st_video (url inp) ;;;
        clicked <- st_button "Transcribe Video" (transcribe_video_clicked inp) ;;
        go <- and_not_processing clicked ;;
        when go
          (youtube_job (url inp) ;;;
           yt_result <- get_state "yt_result" ;;
           when (truthy yt_result) (show (Success "YouTube processing complete!")))) ;;;
     yt_result <- get_state "yt_result" ;;
     when (truthy yt_result)
       (data <- get_state "yt_result" ;;
        show (DownloadButton "Download Transcript" data "youtube_transcript.txt") ;;;
        value <- get_state "yt_result" ;;
        show (TextArea "YouTube Transcription" value 300))).

(** ** The script *)

Definition script (inp : inputs) : Script unit :=
  show (Title "Audio & YouTube Video Transcription") ;;;
  session_state_initialization ;;;
  show (Columns 2) ;;;
  audio_column inp ;;;
  youtube_column inp ;;;
  show (Markdown "---") ;;;
  show (Caption "Note: Processing time depends on video/audio length") ;;;
  show (Caption "Temporary files are automatically cleaned up after processing").

(** One run.  The script starts from [run_start].  An exception that
    leaves it ends the run: Streamlit reports it on the page, and what the
    run has assigned to the session state stays. *)
Definition rerun (inp : inputs) : Script unit :=
  fun a =>
    match script inp (run_start a) with
    | (Ok _, a') => (Ok tt, a')
    | (Raise e, a') => (Ok tt, with_page (page a' ++ [ExceptionBox e]) a')
    end.

End Page.

(** A visit: one run per interaction, each with its inputs and its
    answers from the outside. *)
Fixpoint reruns (E : Env) (steps : list (inputs * Net)) : Script unit :=
  match steps with
  | [] => retS tt
  | (inp, net) :: rest =>
      rerun E net inp ;;;
      reruns E rest
  end.

(** The state of a first visit. *)
Definition first_visit (w : world) : visit := Visit ∅ None [] w.

Close Scope script_scope.
(** * Vocabulary of the properties *)

(** ** Splitting *)

Definition ceil_div (d c : Z) : Z := (d + c - 1) / c.

(** The value of the list comprehension of [split_audio] on a loaded source. *)
Definition windows (audio : AudioSegment) (chunk_ms : Z) : list AudioSegment :=
  map (fun i => slice audio i (i + chunk_ms))
      (map (fun i => 0 + Z.of_nat i * chunk_ms)
           (seq 0 (Z.to_nat (range_length 0 (len audio) chunk_ms)))).

(** ** Reading a trace *)

(** The two warnings of [safe_delete], told from the retry warning of
    [transcribe_chunk] by their text. *)
Definition is_delete_warning (e : event) : bool :=
  match e with
  | StWarning msg =>
      String.prefix "Couldn't delete temporary file: " msg
      || String.prefix "Error deleting file: " msg
  | _ => false
  end.

Definition delete_warnings (evs : list event) : nat :=
  length (List.filter is_delete_warning evs).

Definition is_create (e : event) : bool :=
  match e with TempCreated _ => true | _ => false end.

Definition creations (evs : list event) : nat :=
  length (List.filter is_create evs).

(** The temp files alive after [evs], starting from the set [s]. *)
Definition alive_step (s : gset string) (e : event) : gset string :=
  match e with
  | TempCreated p => {[p]} ∪ s
  | Unlinked p => s ∖ {[p]}
  | _ => s
  end.

Definition alive_after (s : gset string) (evs : list event) : gset string :=
  foldl alive_step s evs.

(** The delays slept, in order. *)
Definition sleeps (evs : list event) : list Z :=
  omap (fun e => match e with TimeSleep secs => Some secs | _ => None end) evs.

(** Events that neither create nor remove a temp file nor report a failed
    deletion. *)
Definition quiet_event (e : event) : bool :=
  match e with
  | TempCreated _ | Unlinked _ => false
  | _ => negb (is_delete_warning e)
  end.

Definition quiet (evs : list event) : Prop :=
  Forall (fun e => quiet_event e = true) evs.

(** At every instant of [evs], at most one more temp file is alive than
    deletions have failed. *)
Definition bounded (evs : list event) : Prop :=
  forall (s : gset string) (k : nat),
    (size (alive_after s (take k evs)) <= size s + 1 + delete_warnings (take k evs))%nat.

(** The trace tells what is on disk: if the files of [w] are [D] and the
    disjoint set [s], the files of [w'] are [D] and what [evs] leaves alive
    of [s]. *)
Definition on_disk (w : world) (evs : list event) (w' : world) : Prop :=
  forall D s : gset string,
    fs w = D ∪ s -> D ## s ->
    fs w' = D ∪ alive_after s evs /\ D ## alive_after s evs.

(** ** The text of a chunk *)

(** The text of the first attempt that succeeds, the empty string when none
    does. *)
Fixpoint first_text (E : Env) (k : nat) (attempts : list Z) : string :=
  match attempts with
  | [] => ""
  | a :: rest =>
      match remote E k (Z.to_nat a) with
      | inr text => text
      | inl _ => first_text E k rest
      end
  end.

(** The text [transcribe_chunk] returns for its [k]-th call with the
    default three attempts, on a file that exists. *)
Definition chunk_text (E : Env) (k : nat) : string := first_text E k [0; 1; 2].

(** ** Concrete runs *)

Definition fresh_world : world := World ∅ [] (0, 1) 0 0 0 0 [] 0.

(** A world in which one chunk file is on disk. *)
Definition chunk_on_disk : world := World {["/tmp/tmp0.mp3"]} [] (0, 1) 0 0 0 0 [] 0.

(** [ms] milliseconds of silence. *)
Definition silence (ms : Z) : AudioSegment := mkAudio (repeat 0 (Z.to_nat ms)).

Definition rate_limited : exn := Exn OtherException "rate limit exceeded".
Definition disk_full : exn := Exn OtherException "No space left on device".
Definition locked : exn := Exn PermissionError "file is used by another process".
Definition undecodable : exn := Exn OtherException "Decoding failed".

(** A recording of 150 s, a disk and a service that work. *)
Definition studio : Env := {|
  from_file := fun _ => inr (silence 150000);
  tempfile_name := fun k => inr ("/tmp/tmp" +:+ pretty k);
  export_outcome := fun _ => None;
  remote := fun k _ => inr ("part " +:+ pretty k);
  unlink_outcome := fun _ _ => None
|}.

(** The service refuses every request of call [k0]. *)
Definition service_down (k0 : nat) (E : Env) : Env := {|
  from_file := from_file E;
  tempfile_name := tempfile_name E;
  export_outcome := export_outcome E;
  remote := fun k a => if (k =? k0)%nat then inl rate_limited else remote E k a;
  unlink_outcome := unlink_outcome E
|}.

(** Export number [k0] fails. *)
Definition export_fails (k0 : nat) (E : Env) : Env := {|
  from_file := from_file E;
  tempfile_name := tempfile_name E;
  export_outcome := fun k => if (k =? k0)%nat then Some disk_full else export_outcome E k;
  remote := remote E;
  unlink_outcome := unlink_outcome E
|}.

(** The file of [safe_delete] call [k0] stays locked. *)
Definition temp_locked (k0 : nat) (E : Env) : Env := {|
  from_file := from_file E;
  tempfile_name := tempfile_name E;
  export_outcome := export_outcome E;
  remote := remote E;
  unlink_outcome := fun k a => if (k =? k0)%nat then Some locked else unlink_outcome E k a
|}.

(** The source cannot be decoded. *)
Definition unreadable (E : Env) : Env := {|
  from_file := fun _ => inl undecodable;
  tempfile_name := tempfile_name E;
  export_outcome := export_outcome E;
  remote := remote E;
  unlink_outcome := unlink_outcome E
|}.

Definition export_fails_first : Env := export_fails 0 studio.
Definition export_fails_second : Env := export_fails 1 studio.
Definition service_down_second : Env := service_down 1 studio.
Definition service_down_first : Env := service_down 0 studio.
Definition first_temp_locked : Env := temp_locked 0 studio.

#[global] Arguments transcribe_chunk : simpl never.
#[global] Arguments safe_delete : simpl never.
#[global] Arguments chunk_text : simpl never.
#[global] Arguments split_audio : simpl never.
#[global] Arguments chunk_iteration : simpl never.
#[global] Arguments windows : simpl never.

Ltac norm_world :=
  cbn [fs trace session_progress n_tempfile n_export n_transcribe n_safe_delete
       exports n_progress with_trace with_fs with_progress with_n_tempfile
       with_n_export with_n_transcribe with_n_safe_delete with_exports
       with_n_progress];
  rewrite <- ?app_assoc; cbn [app].


(** A concrete run [f = (r, snd f)], settled by computing its result alone. *)
Ltac run_result :=
  match goal with
  | |- ?f = (?r, snd ?f) =>
      let H := fresh in
      assert (H : fst f = r) by (vm_compute; reflexivity);
      rewrite <- H; apply surjective_pairing
  end.
(** ** More readings of a trace *)

Definition is_request (e : event) : bool :=
  match e with RemoteCall _ => true | _ => false end.

(** The number of requests sent to the service. *)
Definition requests (evs : list event) : nat :=
  length (List.filter is_request evs).

(** The fractions shown on the progress bar, in order. *)
Definition progress_shown (evs : list event) : list (Z * Z) :=
  omap (fun e => match e with StProgress num den => Some (num, den) | _ => None end) evs.

(** The messages of [st.error], in order. *)
Definition errors_shown (evs : list event) : list string :=
  omap (fun e => match e with StError msg => Some msg | _ => None end) evs.

(** What [transcribe_chunk] may emit for the file [p]. *)
Definition service_event (p : string) (e : event) : bool :=
  match e with
  | RemoteCall q => String.eqb q p
  | StWarning msg => String.prefix "Retrying chunk in " msg
  | TimeSleep _ | StError _ => true
  | _ => false
  end.

(** What [safe_delete] emits on a file [p] that exists, and its result: read
    off the three outcomes of [os.unlink]. *)
Definition delete_run (E : Env) (k : nat) (p : string) : bool * list event :=
  match unlink_outcome E k 0 with
  | None => (true, [Unlinked p])
  | Some e =>
      if is_PermissionError e then
        match unlink_outcome E k 1 with
        | None => (true, [GcCollect; TimeSleep 1; Unlinked p])
        | Some _ =>
            (false, [GcCollect; TimeSleep 1;
                     StWarning ("Couldn't delete temporary file: " +:+ p)])
        end
      else (false, [StWarning ("Error deleting file: " +:+ exn_str e)])
  end.

(** What the retry loop shows and sleeps after failed attempt [j] when an
    attempt remains. *)
Definition backoff (j : nat) : list event :=
  [StWarning ("Retrying chunk in " +:+ pretty (5 * 2 ^ Z.of_nat j) +:+ "s...");
   TimeSleep (5 * 2 ^ Z.of_nat j)].

(** The disk of [w] holds files of [fs0] and temp files named by the calls
    [k0 .. n_tempfile w - 1] of [NamedTemporaryFile], nothing else. *)
Definition only_temp_files (names : nat -> string) (fs0 : gset string) (k0 : nat)
    (w : world) : Prop :=
  (k0 <= n_tempfile w)%nat
  /\ forall q, q ∈ fs w ->
       q ∈ fs0 \/ exists k, (k0 <= k < n_tempfile w)%nat /\ q = names k +:+ ".mp3".


(** The first request of every call is refused, the second one answered. *)
Definition flaky : Env := {|
  from_file := from_file studio;
  tempfile_name := tempfile_name studio;
  export_outcome := export_outcome studio;
  remote := fun k a => if (a =? 0)%nat then inl rate_limited else remote studio k a;
  unlink_outcome := unlink_outcome studio
|}.

(** The temp names of [studio]. *)
Definition studio_name (k : nat) : string := "/tmp/tmp" +:+ pretty k.

(** A path that Python's [repr] shows as it is: printable ASCII without
    quote or backslash. *)
Definition plain_char (c : ascii) : bool :=
  let n := nat_of_ascii c in
  (32 <=? n)%nat && (n <=? 126)%nat && negb (n =? 39)%nat && negb (n =? 34)%nat
  && negb (n =? 92)%nat.

Fixpoint plain_path (s : string) : bool :=
  match s with
  | EmptyString => true
  | String c rest => plain_char c && plain_path rest
  end.

(** The exports and the requests of a trace, in order: what went to disk and
    what was then sent to the service. *)
Definition is_io (e : event) : bool :=
  match e with
  | Exported _ | RemoteCall _ => true
  | _ => false
  end.

Definition io_events (evs : list event) : list event := List.filter is_io evs.

(** Chunk after chunk: the export to the chunk's path, then the requests
    made for that path. *)
Definition chunk_io (pc : string * nat) : list event :=
  Exported (fst pc) :: repeat (RemoteCall (fst pc)) (snd pc).

(** ** Video ids and extensions *)

Definition is_digit (c : ascii) : bool :=
  let n := nat_of_ascii c in (48 <=? n)%nat && (n <=? 57)%nat.

Definition is_letter (c : ascii) : bool :=
  let n := nat_of_ascii c in
  (65 <=? n)%nat && (n <=? 90)%nat || (97 <=? n)%nat && (n <=? 122)%nat.

(** The characters of a YouTube video id: letters, digits, [-] and [_]. *)
Definition id_char (c : ascii) : bool :=
  is_letter c || is_digit c || Ascii.eqb c "-" || Ascii.eqb c "_".

Fixpoint all_chars (ok : ascii -> bool) (s : string) : bool :=
  match s with
  | EmptyString => true
  | String c rest => ok c && all_chars ok rest
  end.

Definition nonempty (s : string) : bool :=
  match s with
  | EmptyString => false
  | String _ _ => true
  end.

Definition youtube_id (s : string) : bool := nonempty s && all_chars id_char s.

(** An extension as [extract_info] reports it: [webm], [m4a], [mp4]. *)
Definition plain_ext (s : string) : bool :=
  nonempty s && all_chars (fun c => is_letter c || is_digit c) s.

(** ** Reading file names and session states *)

(** Whether the character [c] occurs in [s]. *)
Fixpoint has_char (c : ascii) (s : string) : bool :=
  match s with
  | EmptyString => false
  | String a rest => Ascii.eqb a c || has_char c rest
  end.

(** The session state of a first visit after lines 21-37. *)
Definition default_state : gmap string pyval :=
  <["yt_transcribe" := PyBool false]>
    (<["aud_transcribe" := PyBool false]>
       (<["yt_result" := PyNone]>
          (<["audio_result" := PyNone]>
             (<["processing" := PyBool false]>
                (<["progress" := PyInt 0]> ∅))))).

(** ** Concrete visits *)

Definition some_video : info := {| video_id := "dQw4w9WgXcQ"; ext := "webm" |}.

Definition unavailable : exn := Exn OtherException "Video unavailable".

(** The network works and uploads can be written. *)
Definition online : Net := {|
  write_outcome := None;
  extract_info := fun _ => inr some_video;
  download_outcome := fun _ => None;
  video_outcome := fun _ => None
|}.

(** The upload cannot be written. *)
Definition upload_disk_full : Net := {|
  write_outcome := Some disk_full;
  extract_info := extract_info online;
  download_outcome := download_outcome online;
  video_outcome := video_outcome online
|}.

(** The video cannot be looked up. *)
Definition video_unavailable : Net := {|
  write_outcome := None;
  extract_info := fun _ => inl unavailable;
  download_outcome := fun _ => None;
  video_outcome := fun _ => None
|}.

(** The video is found but cannot be downloaded. *)
Definition download_fails : Net := {|
  write_outcome := None;
  extract_info := extract_info online;
  download_outcome := fun _ => Some unavailable;
  video_outcome := fun _ => None
|}.

(** The session of a visit whose script has run once, nothing clicked. *)
Definition idle_visit : visit := Visit default_state None [] fresh_world.

(** The same visit with the audio of [some_video] left on disk. *)
Definition audio_on_disk : visit :=
  Visit default_state None []
    (World {["yt_audio_dQw4w9WgXcQ.mp3"]} [] (0, 1) 0 0 0 0 [] 0).

(** What the YouTube handler leaves behind when it gives up with [e] before
    the audio file is at hand. *)
Definition youtube_gave_up (a : visit) (e : exn) : visit :=
  Visit (<["processing" := PyBool false]> (session_state a)) None
    (page a ++ [Spinner "Downloading audio..."])
    (with_trace (trace (outside a)
                 ++ [StError ("YouTube processing error: " +:+ exn_str e)])
       (outside a)).

(** The state after a job on the file [p]: [process_long_audio], started in
    the world [w1], returned [t] in the world [w2], the result went to
    [key], and [safe_delete] was called on [p], which was still there. *)
Definition job_done (E : Env) (key : string) (p : string) (t : string) (w1 w2 : world)
    (shown : list widget) (a : visit) : visit :=
  Visit (<["processing" := PyBool false]>
           (<[key := PyStr t]> (assigned_progress w1 w2 (session_state a))))
    (Some p) (page a ++ shown)
    (with_trace (trace w2 ++ snd (delete_run E (n_safe_delete w2) p))
       (with_fs (if fst (delete_run E (n_safe_delete w2) p) then fs w2 ∖ {[p]} else fs w2)
          (with_n_safe_delete (S (n_safe_delete w2)) w2))).

(** ** Reading a run of the script *)

Definition session_keys : list string :=
  ["yt_transcribe"; "aud_transcribe"; "yt_result"; "audio_result"; "processing";
   "progress"].

(** Every key of the script is set. *)
Definition initialized (ss : gmap string pyval) : Prop :=
  Forall (fun key => is_Some (ss !! key)) session_keys.

(** The truth value of [st.session_state.key], [false] for a key not set. *)
Definition flag (ss : gmap string pyval) (key : string) : bool :=
  match ss !! key with
  | Some v => truthy v
  | None => false
  end.

(** The session once the mode buttons of lines 133-136 and 182-185 have been
    handled. *)
Definition after_upload_click (inp : inputs) (ss : gmap string pyval)
  : gmap string pyval :=
  if upload_audio_clicked inp then
    <["audio_result" := PyNone]>
      (<["aud_transcribe" := PyBool true]> (<["yt_transcribe" := PyBool false]> ss))
  else ss.

Definition after_url_click (inp : inputs) (ss : gmap string pyval)
  : gmap string pyval :=
  if enter_url_clicked inp then
    <["yt_result" := PyNone]>
      (<["yt_transcribe" := PyBool true]> (<["aud_transcribe" := PyBool false]> ss))
  else ss.

(** The widgets that offer a result (lines 171-176 and 241-246). *)
Definition result_widgets (file_name area_label : string) (v : pyval) : list widget :=
  if truthy v then
    [DownloadButton "Download Transcript" v file_name; TextArea area_label v 300]
  else [].

(** Whether the upload handler runs: audio mode, a file in the uploader, and
    [processing] not set. *)
Definition audio_job_runs (inp : inputs) (ss : gmap string pyval) : bool :=
  flag (after_upload_click inp ss) "aud_transcribe"
  && bool_decide (is_Some (audio_file inp))
  && negb (flag (after_upload_click inp ss) "processing").

(** Whether the YouTube handler runs: YouTube mode, a URL typed in, the
    button clicked, and [processing] not set. *)
Definition youtube_job_runs (inp : inputs) (ss : gmap string pyval) : bool :=
  flag (after_url_click inp ss) "yt_transcribe"
  && truthy_str (url inp)
  && transcribe_video_clicked inp
  && negb (flag (after_url_click inp ss) "processing").

(** What a column may do to the session once the mode button is handled:
    nothing, or a run of its handler, which clears [processing] and may
    store a result under [key], with [progress] as [process_long_audio]
    left it. *)
Definition job_effect (key : string) (ss0 ss' : gmap string pyval) : Prop :=
  ss' = ss0
  \/ ss' = <["processing" := PyBool false]> ss0
  \/ exists t w1 w2,
       ss' = <["processing" := PyBool false]>
               (<[key := PyStr t]> (assigned_progress w1 w2 ss0)).

(** At most one of the two modes is on. *)
Definition one_mode (ss : gmap string pyval) : Prop :=
  flag ss "aud_transcribe" && flag ss "yt_transcribe" = false.

(** The widgets that close the page (lines 249-251). *)
Definition footer : list widget :=
  [Markdown "---";
   Caption "Note: Processing time depends on video/audio length";
   Caption "Temporary files are automatically cleaned up after processing"].

(** [processing] is not set, or set to [False]. *)
Definition processing_clear (ss : gmap string pyval) : Prop :=
  ss !! "processing" = None \/ ss !! "processing" = Some (PyBool false).

(** A session in which [processing] was left set. *)
Definition stuck_visit : visit :=
  Visit (<["processing" := PyBool true]> (<["aud_transcribe" := PyBool true]> default_state))
    None [] fresh_world.

(** A file is in the uploader; nothing is clicked. *)
Definition file_chosen : inputs := {|
  upload_audio_clicked := false;
  audio_file := Some "RIFF";
  enter_url_clicked := false;
  url := "";
  transcribe_video_clicked := false
|}.

(** The [Upload Audio File] button is clicked, the uploader still empty. *)
Definition upload_clicked : inputs := {|
  upload_audio_clicked := true;
  audio_file := None;
  enter_url_clicked := false;
  url := "";
  transcribe_video_clicked := false
|}.

(** A session in audio mode, nothing in progress. *)
Definition audio_mode_visit : visit :=
  Visit (<["aud_transcribe" := PyBool true]> default_state) None [] fresh_world.

(** What a page offers for download: the data and the file name of each
    download button, in page order. *)
Definition offered (pg : list widget) : list (pyval * string) :=
  omap (fun x => match x with
                 | DownloadButton _ data file_name => Some (data, file_name)
                 | _ => None
                 end) pg.

(** The result stored under [key], when it is truthy, as an offer under
    [file_name]. *)
Definition offer (key file_name : string) (ss : gmap string pyval)
  : list (pyval * string) :=
  match ss !! key with
  | Some v => if truthy v then [(v, file_name)] else []
  | None => []
  end.

(** ** Results and the player *)

(** [v] is [None] or a string. *)
Definition is_text_or_none (v : pyval) : bool :=
  match v with
  | PyNone | PyStr _ => true
  | _ => false
  end.

(** [key] is not set, or holds [None] or a string. *)
Definition text_at (ss : gmap string pyval) (key : string) : bool :=
  match ss !! key with
  | Some v => is_text_or_none v
  | None => true
  end.

(** The two results hold [None] or a string, as in every session the
    script has built. *)
Definition results_are_text (ss : gmap string pyval) : Prop :=
  text_at ss "audio_result" = true /\ text_at ss "yt_result" = true.

(** The session when line 193 is reached: both mode buttons are handled. *)
Definition modes_set (inp : inputs) (ss : gmap string pyval) : gmap string pyval :=
  after_url_click inp (after_upload_click inp (ss ∪ default_state)).

(** The exception [st.video] raises in a column drawn from the session
    [ss0], if any: the player is reached in YouTube mode once something is
    typed in. *)
Definition video_failure (net : Net) (inp : inputs) (ss0 : gmap string pyval)
  : option exn :=
  if flag ss0 "yt_transcribe" && truthy_str (url inp)
  then video_outcome net (url inp)
  else None.

Definition outcome (failure : option exn) : result unit :=
  match failure with
  | Some e => Raise e
  | None => Ok tt
  end.

(** The exception that ends a run started in the session [ss], if any. *)
Definition player_failure (net : Net) (inp : inputs) (ss : gmap string pyval)
  : option exn :=
  video_failure net inp (modes_set inp ss).

(** How a run ends. *)
Definition run_outcome (net : Net) (inp : inputs) (ss : gmap string pyval)
  : result unit :=
  outcome (player_failure net inp ss).

(** [abc] is typed into the URL field; nothing is clicked. *)
Definition abc_typed : inputs := {|
  upload_audio_clicked := false;
  audio_file := None;
  enter_url_clicked := false;
  url := "abc";
  transcribe_video_clicked := false
|}.

Definition no_such_media : exn :=
  Exn OtherException "MediaFileStorageError: Error opening 'abc'".

(** The player takes URLs that start with [https://] and nothing else. *)
Definition strict_player : Net := {|
  write_outcome := None;
  extract_info := extract_info online;
  download_outcome := download_outcome online;
  video_outcome := fun data =>
    if String.prefix "https://" data then None else Some no_such_media
|}.

(** A session in YouTube mode, nothing in progress. *)
Definition youtube_mode_visit : visit :=
  Visit (<["yt_transcribe" := PyBool true]> default_state) None [] fresh_world.

(** Nothing is clicked, chosen or typed. *)
Definition nothing_done : inputs := {|
  upload_audio_clicked := false;
  audio_file := None;
  enter_url_clicked := false;
  url := "";
  transcribe_video_clicked := false
|}.

(** A session in audio mode with a transcript stored. *)
Definition transcribed_visit : visit :=
  Visit (<["audio_result" := PyStr "part 0"]>
           (<["aud_transcribe" := PyBool true]> default_state))
    None [] fresh_world.
(** * Properties *)

(** ** Splitting *)

Lemma ceil_div_spec d c :
  0 < c -> c * (ceil_div d c - 1) < d <= c * ceil_div d c.
Proof.
  intros Hc. unfold ceil_div.
  pose proof (Z.div_mod (d + c - 1) c ltac:(lia)) as Hdm.
  pose proof (Z.mod_pos_bound (d + c - 1) c Hc) as Hb.
  lia.
Qed.

Lemma range_length_ceil d c :
  0 < c -> 0 <= d -> range_length 0 d c = ceil_div d c.
Proof.
  intros Hc Hd. unfold range_length, ceil_div.
  destruct (Z.ltb_spec 0 c) as [_|]; [|lia].
  destruct (Z.ltb_spec 0 d) as [Hpos|Hz].
  - replace (d + c - 1) with (d - 0 - 1 + 1 * c) by lia.
    rewrite Z.div_add by lia. reflexivity.
  - assert (d = 0) by lia. subst d.
    symmetry. apply Z.div_small. lia.
Qed.

(** Cutting a list into [n] pieces of [c] elements loses and repeats nothing. *)
Lemma concat_pieces {A} (c : nat) (n : nat) (l : list A) :
  (0 < c)%nat -> (length l <= n * c)%nat ->
  concat (map (fun i => take c (drop (i * c) l)) (seq 0 n)) = l.
Proof.
  intros Hc. revert l.
  induction n as [|n IH]; intros l Hlen.
  - destruct l; [reflexivity | simpl in Hlen; lia].
  - cbn [seq map concat]. rewrite <- seq_shift, map_map.
    transitivity (take c l ++ drop c l); [|apply take_drop].
    f_equal.
    etransitivity; [|apply (IH (drop c l))].
    + f_equal. apply map_ext. intros i.
      rewrite drop_drop. reflexivity.
    + rewrite length_drop. lia.
Qed.

(** Inside the source, the clamped slice at the [i]-th start is the plain
    [i]-th piece. *)
Lemma slice_frames audio (c : Z) (i : nat) :
  0 < c ->
  frames (slice audio (Z.of_nat i * c) (Z.of_nat i * c + c))
  = take (Z.to_nat c) (drop (i * Z.to_nat c) (frames audio)).
Proof.
  intros Hc. unfold slice, len. cbn [frames].
  set (l := frames audio).
  destruct (Z.le_gt_cases (Z.of_nat (length l)) (Z.of_nat i * c)) as [Hout|Hin].
  - rewrite !drop_ge by nia.
    rewrite !take_nil. reflexivity.
  - rewrite (Z.min_l (Z.of_nat i * c)) by lia.
    replace (Z.to_nat (Z.of_nat i * c)) with (i * Z.to_nat c)%nat by nia.
    destruct (Z.le_gt_cases (Z.of_nat i * c + c) (Z.of_nat (length l))) as [Hfull|Hshort].
    + rewrite Z.min_l by lia. do 2 f_equal. lia.
    + rewrite Z.min_r by lia.
      rewrite !take_ge; [reflexivity| |]; rewrite length_drop; nia.
Qed.

Lemma slice_len audio (c : Z) (i : nat) :
  0 < c -> Z.of_nat i * c < len audio ->
  len (slice audio (Z.of_nat i * c) (Z.of_nat i * c + c))
  = Z.min c (len audio - Z.of_nat i * c).
Proof.
  intros Hc Hin. unfold len at 1. rewrite slice_frames by assumption.
  unfold len in *. rewrite length_take, length_drop. nia.
Qed.

Lemma split_audio_loaded E file_path chunk_minutes w audio :
  from_file E file_path = inr audio ->
  chunk_minutes <> 0 ->
  split_audio E file_path chunk_minutes w
  = (Ok (windows audio (chunk_minutes * 60 * 1000)), w).
Proof.
  intros Hfile Hcm.
  unfold split_audio, try_except, bind, lift, ret, py_range.
  rewrite Hfile.
  destruct (Z.eqb_spec (chunk_minutes * 60 * 1000) 0) as [Hz|_]; [lia|].
  reflexivity.
Qed.

(** C1.  A source of duration [D] ms is cut by [split_audio] into
    [ceil(D/C)] chunks, [C = chunk_minutes * 60 * 1000]: chunk [k] is the
    window that starts at [k * C] and lasts [min C (D - k * C)] ms, so every
    chunk but the last lasts [C], the last one lasts [D mod C] when that is
    not zero (and [C] otherwise), the chunks glued together in order are the
    source, and a source of duration 0 gives no chunk. *)
Theorem split_audio_partition (E : Env) (file_path : string) (chunk_minutes : Z)
    (w : world) (audio : AudioSegment) :
  from_file E file_path = inr audio ->
  0 < chunk_minutes ->
  let C := chunk_minutes * 60 * 1000 in
  let D := len audio in
  exists chunks,
    split_audio E file_path chunk_minutes w = (Ok chunks, w)
    /\ Z.of_nat (length chunks) = ceil_div D C
    /\ (forall (k : nat) c, chunks !! k = Some c ->
          frames c = take (Z.to_nat (Z.min C (D - Z.of_nat k * C)))
                          (drop (Z.to_nat (Z.of_nat k * C)) (frames audio))
          /\ len c = Z.min C (D - Z.of_nat k * C))
    /\ (forall (k : nat) c, chunks !! k = Some c ->
          (S k < length chunks)%nat -> len c = C)
    /\ (forall c, last chunks = Some c ->
          len c = if D mod C =? 0 then C else D mod C)
    /\ concat (map frames chunks) = frames audio
    /\ (D = 0 -> chunks = []).
Proof.
  intros Hfile Hcm C D.
  assert (HC : 0 < C) by (unfold C; lia).
  assert (HD : 0 <= D) by (unfold D, len; lia).
  pose proof (ceil_div_spec D C HC) as Hceil.
  pose proof (range_length_ceil D C HC HD) as Hrl.
  assert (Hn : 0 <= ceil_div D C) by nia.
  eexists. split; [apply split_audio_loaded; [exact Hfile | lia]|].
  unfold windows. fold C D. rewrite Hrl.
  set (n := Z.to_nat (ceil_div D C)).
  assert (Hlook : forall (k : nat) c,
            map (fun i => slice audio i (i + C))
                (map (fun i => 0 + Z.of_nat i * C) (seq 0 n)) !! k = Some c ->
            (k < n)%nat /\ c = slice audio (Z.of_nat k * C) (Z.of_nat k * C + C)).
  { intros k c Hk. rewrite !list_lookup_fmap in Hk.
    destruct (seq 0 n !! k) as [j|] eqn:Hj; [|discriminate].
    apply lookup_seq in Hj as [-> Hlt]. cbn in Hk.
    injection Hk as <-. split; [exact Hlt|]. reflexivity. }
  assert (Hlen : forall (k : nat) c,
            map (fun i => slice audio i (i + C))
                (map (fun i => 0 + Z.of_nat i * C) (seq 0 n)) !! k = Some c ->
            len c = Z.min C (D - Z.of_nat k * C)).
  { intros k c Hk. apply Hlook in Hk as [Hlt ->].
    apply slice_len; [exact HC|]. fold D. nia. }
  repeat split.
  - rewrite !length_map, length_seq. unfold n. lia.
  - apply Hlook in H as [Hlt ->]. rewrite slice_frames by exact HC.
    fold D. assert (Z.of_nat k * C < D) by nia.
    replace (Z.to_nat (Z.of_nat k * C)) with (k * Z.to_nat C)%nat by nia.
    destruct (Z.le_gt_cases C (D - Z.of_nat k * C)).
    + rewrite Z.min_l by lia. reflexivity.
    + rewrite Z.min_r by lia.
      rewrite !take_ge; [reflexivity| |]; rewrite length_drop;
        unfold D, len in *; nia.
  - apply Hlen. exact H.
  - intros k c Hk Hnext. rewrite (Hlen k c Hk).
    rewrite !length_map, length_seq in Hnext.
    assert (C * (Z.of_nat k + 1) <= C * (ceil_div D C - 1))
      by (apply Z.mul_le_mono_nonneg_l; lia).
    lia.
  - intros c Hlast. rewrite last_lookup in Hlast.
    rewrite (Hlen _ _ Hlast).
    apply Hlook in Hlast as [Hlt _].
    rewrite !length_map, length_seq in *.
    pose proof (Z.div_mod D C ltac:(lia)) as Hdm.
    pose proof (Z.mod_pos_bound D C HC) as Hmb.
    assert (Hm : Z.of_nat (pred n) = ceil_div D C - 1) by lia.
    rewrite Hm. clear Hm Hlt.
    set (m := ceil_div D C) in *. set (q := D / C) in *.
    destruct (Z.eqb_spec (D mod C) 0) as [Hz|Hnz].
    + assert (m - 1 < q) by (apply (Z.mul_lt_mono_pos_l C); lia).
      assert (q <= m) by (apply (Z.mul_le_mono_pos_l _ _ C); lia).
      assert (m = q) by lia. subst m.
      replace (D - (q - 1) * C) with C by lia. lia.
    + assert (m - 1 < q + 1) by (apply (Z.mul_lt_mono_pos_l C); lia).
      assert (q < m) by (apply (Z.mul_lt_mono_pos_l C); lia).
      assert (m = q + 1) by lia.
      replace (D - (m - 1) * C) with (D mod C) by (subst m; lia). lia.
  - rewrite !map_map.
    erewrite map_ext; [apply (concat_pieces (Z.to_nat C) n (frames audio))|].
    + lia.
    + unfold D, len in *. nia.
    + intros i. cbn beta. rewrite Z.add_0_l. apply slice_frames. exact HC.
  - intros HD0. replace n with 0%nat; [reflexivity|].
    unfold n. rewrite HD0 in *. nia.
Qed.
(** ** Traces *)

Lemma prefix_app s t : String.prefix s (s +:+ t) = true.
Proof.
  induction s as [|a s IH].
  - change (String.prefix "" t = true). destruct t; reflexivity.
  - change (String.prefix (String a s) (String a (s +:+ t)) = true).
    cbn [String.prefix].
    destruct (ascii_dec a a) as [_|Hne]; [exact IH|contradiction].
Qed.

Lemma is_delete_warning_locked p :
  is_delete_warning (StWarning ("Couldn't delete temporary file: " +:+ p)) = true.
Proof. unfold is_delete_warning. rewrite prefix_app. reflexivity. Qed.

Lemma is_delete_warning_error msg :
  is_delete_warning (StWarning ("Error deleting file: " +:+ msg)) = true.
Proof. unfold is_delete_warning. rewrite prefix_app. apply orb_true_r. Qed.

Ltac count_warnings :=
  unfold delete_warnings; cbn [List.filter];
  rewrite ?is_delete_warning_locked, ?is_delete_warning_error;
  cbn [length is_delete_warning alive_after foldl alive_step].

Lemma quiet_alive_after s evs : quiet evs -> alive_after s evs = s.
Proof.
  unfold quiet, alive_after. intros H. revert s.
  induction H as [|e evs He _ IH]; intros s; [reflexivity|].
  cbn [foldl]. rewrite IH. destruct e; try reflexivity; discriminate.
Qed.

Lemma quiet_delete_warnings evs : quiet evs -> delete_warnings evs = 0%nat.
Proof.
  unfold quiet, delete_warnings. intros H.
  induction H as [|e evs He _ IH]; [reflexivity|].
  cbn [List.filter]. destruct (is_delete_warning e) eqn:Hd; [|exact IH].
  destruct e; cbn in *; try discriminate. rewrite Hd in He. discriminate.
Qed.

Section Transcribe.
Variable E : Env.

Lemma attempt_body_run k p r a w :
  exists res evs,
    attempt_body E k p r a w = (Ok res, with_trace (trace w ++ evs) w)
    /\ quiet evs
    /\ (p ∈ fs w -> forall t, remote E k (Z.to_nat a) = inr t -> res = Some t)
    /\ ((p ∉ fs w \/ exists e, remote E k (Z.to_nat a) = inl e) ->
          if a <? r - 1 then res = None /\ sleeps evs = [5 * 2 ^ a]
          else res = Some "" /\ sleeps evs = []
               /\ exists e, last evs = Some (StError ("Chunk failed: " +:+ exn_str e))).
Proof.
  unfold attempt_body, transcriptions_create, st_warning, st_error, time_sleep.
  unfold try_except, bind, open_rb, emit, lift, ret, raise.
  destruct (bool_decide (p ∈ fs w)) eqn:Hp.
  - apply bool_decide_eq_true in Hp. cbn [fs with_trace].
    destruct (remote E k (Z.to_nat a)) as [e|t] eqn:Hr.
    + destruct (a <? r - 1) eqn:Hlt.
      * exists None, [RemoteCall p; StWarning ("Retrying chunk in " +:+ pretty (5 * 2 ^ a) +:+ "s..."); TimeSleep (5 * 2 ^ a)].
        split; [norm_world; reflexivity|].
        split; [repeat constructor|].
        split; [discriminate|]. intros _. auto.
      * exists (Some ""), [RemoteCall p; StError ("Chunk failed: " +:+ exn_str e)].
        split; [norm_world; reflexivity|].
        split; [repeat constructor|].
        split; [discriminate|]. intros _. eauto.
    + exists (Some t), [RemoteCall p].
      split; [norm_world; reflexivity|].
      split; [repeat constructor|].
      split; [intros _ t' [= <-]; reflexivity|].
      intros [Hn|[e He]]; [contradiction|discriminate].
  - apply bool_decide_eq_false in Hp.
    destruct (a <? r - 1) eqn:Hlt.
    + exists None, [StWarning ("Retrying chunk in " +:+ pretty (5 * 2 ^ a) +:+ "s..."); TimeSleep (5 * 2 ^ a)].
      split; [norm_world; reflexivity|].
      split; [repeat constructor|].
      split; [contradiction|]. intros _. auto.
    + eexists (Some ""), [StError _].
      split; [norm_world; reflexivity|].
      split; [repeat constructor|].
      split; [contradiction|]. intros _. eauto.
Qed.

Lemma for_attempts_range k p r : forall (n a : nat) w,
  Z.of_nat (a + n) = r ->
  exists text evs,
    for_attempts E k p r (map Z.of_nat (seq a n)) w
    = (Ok text, with_trace (trace w ++ evs) w)
    /\ quiet evs
    /\ (p ∈ fs w -> text = first_text E k (map Z.of_nat (seq a n)))
    /\ ((p ∉ fs w \/ forall i, (a <= i < a + n)%nat -> exists e, remote E k i = inl e) ->
          text = ""
          /\ sleeps evs = map (fun i => 5 * 2 ^ Z.of_nat i) (seq a (n - 1))
          /\ ((1 <= n)%nat ->
                exists e, last evs = Some (StError ("Chunk failed: " +:+ exn_str e)))).
Proof.
  induction n as [|n IH]; intros a w Hr.
  - exists "", []. cbn [seq map for_attempts first_text].
    split; [destruct w; unfold ret; norm_world; rewrite app_nil_r; reflexivity|].
    split; [constructor|].
    split; [reflexivity|].
    intros _. repeat split. lia.
  - cbn [seq map for_attempts first_text]. unfold bind.
    destruct (attempt_body_run k p r (Z.of_nat a) w)
      as (res & evs1 & Hrun & Hq1 & Hok & Hfail).
    rewrite Hrun. rewrite Nat2Z.id in Hok, Hfail.
    rewrite Nat2Z.id.
    assert (Hcase : (p ∈ fs w /\ exists t, remote E k a = inr t)
                    \/ (p ∉ fs w \/ exists e, remote E k a = inl e)).
    { destruct (decide (p ∈ fs w)); [|auto].
      destruct (remote E k a); eauto. }
    destruct Hcase as [[Hin [t Hrem]]|Hbad].
    + (* the request of this attempt succeeds *)
      rewrite (Hok Hin t Hrem), Hrem. exists t, evs1.
      split; [reflexivity|]. split; [assumption|]. split; [reflexivity|].
      intros [Hn|Hall]; [contradiction|].
      destruct (Hall a ltac:(lia)) as [e He]. congruence.
    + specialize (Hfail Hbad).
      destruct (Z.ltb_spec (Z.of_nat a) (r - 1)) as [Hmore|Hlast].
      * (* attempts remain: back off and go round again *)
        destruct Hfail as (-> & Hs1).
        destruct (IH (S a) (with_trace (trace w ++ evs1) w) ltac:(lia))
          as (text & evs2 & Hrun2 & Hq2 & Hok2 & Hfail2).
        rewrite Hrun2. exists text, (evs1 ++ evs2).
        split; [norm_world; reflexivity|].
        split; [apply Forall_app; split; assumption|].
        split.
        { intros Hin. destruct Hbad as [Hn|[e He]]; [contradiction|].
          rewrite He. apply Hok2. exact Hin. }
        intros Hall.
        destruct Hfail2 as (-> & Hs2 & Hl2).
        { destruct Hall as [Hn|Hall]; [left; exact Hn|right].
          intros i Hi. apply Hall. lia. }
        split; [reflexivity|].
        split.
        { unfold sleeps in *. rewrite omap_app, Hs1, Hs2.
          replace (S n - 1)%nat with (S (n - 1)) by lia. reflexivity. }
        intros _. destruct (Hl2 ltac:(lia)) as [e2 He2]. exists e2.
        rewrite last_app, He2. reflexivity.
      * (* the last attempt: report and give up *)
        destruct Hfail as (-> & Hs1 & e1 & Hl1).
        assert (n = 0%nat) by lia. subst n.
        exists "", evs1. cbn [seq map first_text].
        split; [reflexivity|]. split; [assumption|].
        split.
        { intros Hin. destruct Hbad as [Hn|[e He]]; [contradiction|].
          rewrite He. reflexivity. }
        intros _. split; [reflexivity|]. split; [exact Hs1|].
        intros _. eauto.
Qed.

Lemma py_range_0_1 r :
  0 <= r -> py_range 0 r 1 = inr (map Z.of_nat (seq 0 (Z.to_nat r))).
Proof.
  intros Hr. unfold py_range, range_length. cbn [Z.eqb Z.ltb Z.compare].
  f_equal.
  destruct (Z.ltb_spec 0 r) as [Hpos|Hz].
  - rewrite Z.div_1_r. replace (r - 0 - 1 + 1) with r by lia.
    apply map_ext. intros i. lia.
  - replace r with 0 by lia. reflexivity.
Qed.

(** What [transcribe_chunk] does, for any behaviour of the service: it
    returns (never raises), leaves the files alone and emits only quiet
    events. *)
Lemma transcribe_chunk_run p r w :
  0 <= r ->
  exists text evs,
    transcribe_chunk E p r w
    = (Ok text, with_trace (trace w ++ evs) (with_n_transcribe (S (n_transcribe w)) w))
    /\ quiet evs
    /\ (p ∈ fs w ->
          text = first_text E (n_transcribe w) (map Z.of_nat (seq 0 (Z.to_nat r))))
    /\ ((p ∉ fs w \/ forall i, (i < Z.to_nat r)%nat ->
                       exists e, remote E (n_transcribe w) i = inl e) ->
          text = ""
          /\ sleeps evs = map (fun i => 5 * 2 ^ Z.of_nat i) (seq 0 (Z.to_nat r - 1))
          /\ (1 <= r ->
                exists e, last evs = Some (StError ("Chunk failed: " +:+ exn_str e)))).
Proof.
  intros Hr. unfold transcribe_chunk, bind, enter_transcribe_chunk.
  rewrite py_range_0_1 by exact Hr. unfold lift, ret.
  destruct (for_attempts_range (n_transcribe w) p r (Z.to_nat r) 0
              (with_n_transcribe (S (n_transcribe w)) w) ltac:(lia))
    as (text & evs & Hrun & Hq & Hok & Hfail).
  rewrite Hrun. exists text, evs.
  split; [norm_world; reflexivity|].
  split; [exact Hq|].
  split; [exact Hok|].
  intros Hall.
  destruct Hfail as (-> & Hs & Hl).
  { destruct Hall as [Hn|Hall]; [left; exact Hn|right].
    intros i Hi. apply Hall. lia. }
  split; [reflexivity|]. split; [exact Hs|].
  intros H1. apply Hl. lia.
Qed.

End Transcribe.

Section Delete.
Variable E : Env.

(** [safe_delete] run symbolically: one equation for all its paths. *)
Lemma safe_delete_eq p w :
  let k := n_safe_delete w in
  let w0 := with_n_safe_delete (S k) w in
  safe_delete E p w =
    if bool_decide (p ∈ fs w) then
      match unlink_outcome E k 0 with
      | None =>
          (Ok true, with_trace (trace w ++ [Unlinked p]) (with_fs (fs w ∖ {[p]}) w0))
      | Some e =>
          if is_PermissionError e then
            match unlink_outcome E k 1 with
            | None =>
                (Ok true,
                 with_trace (trace w ++ [GcCollect; TimeSleep 1; Unlinked p])
                            (with_fs (fs w ∖ {[p]}) w0))
            | Some _ =>
                (Ok false,
                 with_trace (trace w ++ [GcCollect; TimeSleep 1;
                                         StWarning ("Couldn't delete temporary file: " +:+ p)])
                            w0)
            end
          else
            (Ok false,
             with_trace (trace w ++ [StWarning ("Error deleting file: " +:+ exn_str e)]) w0)
      end
    else (Ok false, w0).
Proof.
  intros k w0. subst k w0.
  unfold safe_delete, gc_collect, st_warning, time_sleep.
  unfold try_except, bind, enter_safe_delete, os_path_exists, os_unlink, emit, ret.
  cbn.
  destruct (bool_decide (p ∈ fs w)) eqn:Hp; [|reflexivity].
  cbn. rewrite Hp.
  destruct (unlink_outcome E (n_safe_delete w) 0) as [e|]; [|reflexivity].
  destruct (is_PermissionError e); [|norm_world; reflexivity].
  cbn. rewrite Hp.
  destruct (unlink_outcome E (n_safe_delete w) 1) as [e'|]; norm_world; reflexivity.
Qed.

End Delete.

Lemma alive_after_app s l1 l2 :
  alive_after s (l1 ++ l2) = alive_after (alive_after s l1) l2.
Proof. apply foldl_app. Qed.

Lemma delete_warnings_app l1 l2 :
  delete_warnings (l1 ++ l2) = (delete_warnings l1 + delete_warnings l2)%nat.
Proof. unfold delete_warnings. rewrite List.filter_app, length_app. reflexivity. Qed.

Lemma creations_app l1 l2 :
  creations (l1 ++ l2) = (creations l1 + creations l2)%nat.
Proof. unfold creations. rewrite List.filter_app, length_app. reflexivity. Qed.

Lemma quiet_creations evs : quiet evs -> creations evs = 0%nat.
Proof.
  unfold quiet, creations. intros H.
  induction H as [|e evs He _ IH]; [reflexivity|].
  cbn [List.filter]. destruct (is_create e) eqn:Hd; [|exact IH].
  destruct e; discriminate.
Qed.

Lemma size_alive_step s e :
  (size (alive_step s e) <= size s + (if is_create e then 1 else 0))%nat.
Proof.
  destruct e; cbn; try lia.
  - rewrite size_union_alt, size_singleton.
    assert (Hsub : s ∖ {[path]} ⊆ s) by set_solver.
    pose proof (subseteq_size _ _ Hsub). lia.
  - assert (Hsub : s ∖ {[path]} ⊆ s) by set_solver.
    pose proof (subseteq_size _ _ Hsub). lia.
Qed.

Lemma size_alive_after evs : forall s,
  (size (alive_after s evs) <= size s + creations evs)%nat.
Proof.
  induction evs as [|e evs IH]; intros s; [cbn; lia|].
  change (alive_after s (e :: evs)) with (alive_after (alive_step s e) evs).
  pose proof (IH (alive_step s e)). pose proof (size_alive_step s e).
  unfold creations in *. cbn [List.filter].
  destruct (is_create e); cbn [length]; lia.
Qed.

Lemma creations_take k evs : (creations (take k evs) <= creations evs)%nat.
Proof.
  rewrite <- (take_drop k evs) at 2. rewrite creations_app. lia.
Qed.

Lemma delete_warnings_take k evs :
  (delete_warnings (take k evs) <= delete_warnings evs)%nat.
Proof.
  rewrite <- (take_drop k evs) at 2. rewrite delete_warnings_app. lia.
Qed.

Section Iteration.
Variable E : Env.

Lemma chunk_iteration_run n i chunk acc w r w' :
  chunk_iteration E n i chunk acc w = (r, w') ->
  exists evs,
    trace w' = trace w ++ evs
    /\ (creations evs <= 1)%nat
    /\ on_disk w evs w'
    /\ match r with
       | Ok res =>
           res = acc ++ [chunk_text E (n_transcribe w)]
           /\ export_outcome E (n_export w) = None
           /\ n_tempfile w' = S (n_tempfile w)
           /\ n_export w' = S (n_export w)
           /\ n_transcribe w' = S (n_transcribe w)
           /\ n_safe_delete w' = S (n_safe_delete w)
           /\ (forall s, (size (alive_after s evs) <= size s + delete_warnings evs)%nat)
           /\ exists p,
                evs !! 2%nat = Some (TempCreated p)
                /\ (p ∉ fs w)
                /\ ((fs w' = fs w /\ last evs = Some (Unlinked p))
                    \/ (fs w' = {[p]} ∪ fs w
                        /\ exists msg, last evs = Some (StWarning msg)
                                       /\ is_delete_warning (StWarning msg) = true))
       | Raise e =>
           n_transcribe w' = n_transcribe w
           /\ (n_export w <= n_export w' <= S (n_export w))%nat
           /\ match tempfile_name E (n_tempfile w) with
              | inl e' => e = e'
              | inr name =>
                  name +:+ ".mp3" ∈ fs w \/ export_outcome E (n_export w) = Some e
              end
       end.
Proof.
  unfold chunk_iteration, set_session_progress.
  unfold bind, emit, NamedTemporaryFile, export, ret. cbn.
  destruct (tempfile_name E (n_tempfile w)) as [e|name].
  { intros [= <- <-]. eexists [_; _]. cbn.
    split; [rewrite <- app_assoc; reflexivity|]. split; [cbn; lia|].
    split; [intros D s HD Hdisj; cbn; split; assumption|].
    repeat split; lia. }
  set (p := name +:+ ".mp3").
  destruct (bool_decide (p ∈ fs w)) eqn:Hp.
  { intros [= <- <-]. eexists [_; _]. cbn.
    split; [rewrite <- app_assoc; reflexivity|]. split; [cbn; lia|].
    split; [intros D s HD Hdisj; cbn; split; assumption|].
    apply bool_decide_eq_true in Hp.
    split; [reflexivity|]. split; [lia|]. left. exact Hp. }
  apply bool_decide_eq_false in Hp. cbn.
  destruct (export_outcome E (n_export w)) as [e|] eqn:Hexp.
  { intros [= <- <-]. eexists [_; _; _]. cbn.
    split; [rewrite <- !app_assoc; reflexivity|]. split; [cbn; lia|].
    split; [intros D s HD Hdisj; cbn; rewrite HD; split; set_solver|].
    split; [reflexivity|]. split; [lia|]. right. reflexivity. }
  cbn.
  match goal with
  | |- context [transcribe_chunk E p 3 ?W] =>
      destruct (transcribe_chunk_run E p 3 W ltac:(lia))
        as (text & evsT & HT & HqT & HokT & _);
      rewrite HT; cbn in HokT |- *
  end.
  specialize (HokT ltac:(set_solver)).
  change (first_text E (n_transcribe w)
            (map Z.of_nat (seq 0 (Z.to_nat 3))))
    with (chunk_text E (n_transcribe w)) in HokT.
  subst text.
  rewrite safe_delete_eq. cbn.
  rewrite bool_decide_eq_true_2 by set_solver.
  assert (Hdel : forall s : gset string, (size (({[p]} ∪ s) ∖ {[p]}) <= size s)%nat).
  { intros s. apply subseteq_size. set_solver. }
  assert (Hkeep : forall s : gset string, (size ({[p]} ∪ s) <= size s + 1)%nat).
  { intros s. rewrite size_union_alt, size_singleton.
    assert (Hsub : s ∖ {[p]} ⊆ s) by set_solver.
    pose proof (subseteq_size _ _ Hsub). lia. }
  set (head := [StProgress (i + 1) n;
                StText ("Processing chunk " +:+ pretty (i + 1) +:+ "/" +:+ pretty n);
                TempCreated p; Exported p]).
  assert (Hshape : forall evsD,
            (creations evsD = 0)%nat ->
            (creations (head ++ evsT ++ evsD) <= 1)%nat).
  { intros evsD HD. rewrite !creations_app, (quiet_creations evsT HqT), HD.
    cbn. lia. }
  assert (Halive : forall s evsD,
            alive_after s (head ++ evsT ++ evsD) = alive_after ({[p]} ∪ s) evsD).
  { intros s evsD. rewrite !alive_after_app, (quiet_alive_after _ evsT HqT).
    reflexivity. }
  assert (Hwarn : forall evsD,
            delete_warnings (head ++ evsT ++ evsD) = delete_warnings evsD).
  { intros evsD. rewrite !delete_warnings_app, (quiet_delete_warnings evsT HqT).
    reflexivity. }
  destruct (unlink_outcome E (n_safe_delete w) 0) as [e0|].
  2:{ intros [= <- <-]. exists (head ++ evsT ++ [Unlinked p]).
      split; [norm_world; reflexivity|].
      split; [apply Hshape; reflexivity|].
      split; [intros D s HD Hdisj; rewrite Halive; norm_world;
              cbn [alive_after foldl alive_step]; rewrite HD; split; set_solver|].
      repeat (split; [reflexivity|]).
      split; [intros s; rewrite Halive, Hwarn; count_warnings; pose proof (Hdel s); lia|].
      exists p. split; [reflexivity|]. split; [exact Hp|]. left.
      split; [cbn; set_solver|].
      rewrite !last_app. reflexivity. }
  destruct (is_PermissionError e0).
  2:{ intros [= <- <-].
      exists (head ++ evsT ++ [StWarning ("Error deleting file: " +:+ exn_str e0)]).
      split; [norm_world; reflexivity|].
      split; [apply Hshape; reflexivity|].
      split; [intros D s HD Hdisj; rewrite Halive; norm_world;
              cbn [alive_after foldl alive_step]; rewrite HD; split; set_solver|].
      repeat (split; [reflexivity|]).
      split; [intros s; rewrite Halive, Hwarn; count_warnings; pose proof (Hkeep s); lia|].
      exists p. split; [reflexivity|]. split; [exact Hp|]. right.
      split; [cbn; set_solver|].
      exists ("Error deleting file: " +:+ exn_str e0). rewrite !last_app.
      split; [reflexivity|exact (is_delete_warning_error (exn_str e0))]. }
  destruct (unlink_outcome E (n_safe_delete w) 1) as [e1|].
  - intros [= <- <-].
    exists (head ++ evsT ++ [GcCollect; TimeSleep 1;
                             StWarning ("Couldn't delete temporary file: " +:+ p)]).
    split; [norm_world; reflexivity|].
    split; [apply Hshape; reflexivity|].
    split; [intros D s HD Hdisj; rewrite Halive; norm_world;
            cbn [alive_after foldl alive_step]; rewrite HD; split; set_solver|].
    repeat (split; [reflexivity|]).
    split; [intros s; rewrite Halive, Hwarn; count_warnings; pose proof (Hkeep s); lia|].
    exists p. split; [reflexivity|]. split; [exact Hp|]. right.
    split; [cbn; set_solver|].
    exists ("Couldn't delete temporary file: " +:+ p). rewrite !last_app.
    split; [reflexivity|exact (is_delete_warning_locked p)].
  - intros [= <- <-].
    exists (head ++ evsT ++ [GcCollect; TimeSleep 1; Unlinked p]).
    split; [norm_world; reflexivity|].
    split; [apply Hshape; reflexivity|].
    split; [intros D s HD Hdisj; rewrite Halive; norm_world;
            cbn [alive_after foldl alive_step]; rewrite HD; split; set_solver|].
    repeat (split; [reflexivity|]).
    split; [intros s; rewrite Halive, Hwarn; count_warnings; pose proof (Hdel s); lia|].
    exists p. split; [reflexivity|]. split; [exact Hp|]. left.
    split; [cbn; set_solver|].
    rewrite !last_app. reflexivity.
Qed.

End Iteration.

(** ** The loop *)

Lemma bounded_one_creation evs : (creations evs <= 1)%nat -> bounded evs.
Proof.
  intros Hc s k.
  pose proof (size_alive_after (take k evs) s).
  pose proof (creations_take k evs). lia.
Qed.

Lemma bounded_app evs1 evs2 :
  (creations evs1 <= 1)%nat ->
  (forall s, (size (alive_after s evs1) <= size s + delete_warnings evs1)%nat) ->
  bounded evs2 ->
  bounded (evs1 ++ evs2).
Proof.
  intros Hc Hend Hb s k. rewrite take_app.
  destruct (Nat.le_gt_cases k (length evs1)) as [Hle|Hgt].
  - replace (k - length evs1)%nat with 0%nat by lia.
    rewrite take_0, app_nil_r. apply bounded_one_creation. exact Hc.
  - rewrite take_ge by lia.
    rewrite alive_after_app, delete_warnings_app.
    pose proof (Hb (alive_after s evs1) (k - length evs1)%nat).
    pose proof (Hend s). lia.
Qed.

Lemma bounded_quiet_l q evs : quiet q -> bounded evs -> bounded (q ++ evs).
Proof.
  intros Hq Hb. apply bounded_app; [rewrite quiet_creations by exact Hq; lia| |exact Hb].
  intros s. rewrite quiet_alive_after by exact Hq. lia.
Qed.

Lemma bounded_quiet_r evs q : bounded evs -> quiet q -> bounded (evs ++ q).
Proof.
  intros Hb Hq s k. rewrite take_app.
  assert (Hq' : quiet (take (k - length evs) q)) by (apply Forall_take; exact Hq).
  rewrite alive_after_app, delete_warnings_app.
  rewrite (quiet_alive_after _ _ Hq'), (quiet_delete_warnings _ Hq').
  pose proof (Hb s k). lia.
Qed.

Lemma bounded_nil : bounded [].
Proof. intros s k. rewrite take_nil. cbn. lia. Qed.

Lemma on_disk_app w evs1 w1 evs2 w2 :
  on_disk w evs1 w1 -> on_disk w1 evs2 w2 -> on_disk w (evs1 ++ evs2) w2.
Proof.
  intros H1 H2 D s HD Hdisj. rewrite alive_after_app.
  destruct (H1 D s HD Hdisj) as [HD1 Hdisj1].
  exact (H2 D _ HD1 Hdisj1).
Qed.

Lemma on_disk_quiet w evs w' :
  fs w' = fs w -> quiet evs -> on_disk w evs w'.
Proof.
  intros Hfs Hq D s HD Hdisj. rewrite (quiet_alive_after _ _ Hq), Hfs.
  split; assumption.
Qed.

Section Loop.
Variable E : Env.

Lemma for_chunks_run n : forall ichunks acc w r w',
  for_chunks E n ichunks acc w = (r, w') ->
  exists evs,
    trace w' = trace w ++ evs
    /\ bounded evs
    /\ on_disk w evs w'
    /\ match r with
       | Ok res =>
           res = acc ++ map (fun j => chunk_text E (n_transcribe w + j))
                            (seq 0 (length ichunks))
           /\ (forall j, (j < length ichunks)%nat ->
                 export_outcome E (n_export w + j) = None)
           /\ n_transcribe w' = (n_transcribe w + length ichunks)%nat
           /\ (forall s, (size (alive_after s evs) <= size s + delete_warnings evs)%nat)
       | Raise e =>
           exists j, (j < length ichunks)%nat
             /\ n_transcribe w' = (n_transcribe w + j)%nat
             /\ (forall j', (j' < j)%nat -> export_outcome E (n_export w + j') = None)
       end.
Proof.
  induction ichunks as [|[i chunk] rest IH]; intros acc w r w' Hrun.
  - cbn in Hrun. injection Hrun as <- <-. exists [].
    split; [rewrite app_nil_r; reflexivity|]. split; [apply bounded_nil|].
    split; [intros D s HD Hdisj; cbn; split; assumption|].
    cbn. rewrite app_nil_r.
    split; [reflexivity|]. split; [intros j Hj; lia|].
    split; [lia|]. intros s. lia.
  - cbn [for_chunks] in Hrun. unfold bind in Hrun.
    destruct (chunk_iteration E n i chunk acc w) as [r1 w1] eqn:Hit.
    apply chunk_iteration_run in Hit as (evs1 & Htr1 & Hc1 & Hfs1 & Hpost).
    destruct r1 as [res1|e1].
    + destruct Hpost as (-> & Hexp & _ & Hne & Hnt & _ & Hend & _).
      apply IH in Hrun as (evs2 & Htr2 & Hb2 & Hfs2 & Hpost2).
      exists (evs1 ++ evs2).
      split; [rewrite Htr2, Htr1, app_assoc; reflexivity|].
      split; [apply bounded_app; assumption|].
      split; [exact (on_disk_app _ _ _ _ _ Hfs1 Hfs2)|].
      destruct r as [res|e].
      * destruct Hpost2 as (-> & Hexp2 & Hnt2 & Hend2).
        split.
        { cbn [length seq map]. rewrite <- seq_shift, map_map, <- app_assoc.
          cbn [app]. rewrite Nat.add_0_r. do 2 f_equal.
          apply map_ext. intros j. rewrite Hnt. f_equal. lia. }
        split.
        { intros [|j] Hj; [rewrite Nat.add_0_r; exact Hexp|].
          cbn [length] in Hj. specialize (Hexp2 j ltac:(lia)).
          rewrite Hne in Hexp2. rewrite <- Hexp2. f_equal. lia. }
        split; [cbn [length]; lia|].
        intros s. rewrite alive_after_app, delete_warnings_app.
        pose proof (Hend2 (alive_after s evs1)). pose proof (Hend s). lia.
      * destruct Hpost2 as (j & Hj & Hnt2 & Hexp2).
        exists (S j). split; [cbn [length]; lia|]. split; [lia|].
        intros [|j'] Hj'; [rewrite Nat.add_0_r; exact Hexp|].
        specialize (Hexp2 j' ltac:(lia)).
        rewrite Hne in Hexp2. rewrite <- Hexp2. f_equal. lia.
    + injection Hrun as <- <-. exists evs1.
      split; [exact Htr1|].
      split; [apply bounded_one_creation; exact Hc1|].
      split; [exact Hfs1|].
      exists 0%nat. split; [cbn [length]; lia|].
      destruct Hpost as [Hnt _]. split; [lia|]. intros j' Hj'. lia.
Qed.

End Loop.

(** ** The whole job *)

Section Job.
Variable E : Env.

Lemma split_audio_2 file_path w :
  split_audio E file_path 2 w =
    match from_file E file_path with
    | inl e =>
        (Ok [], with_trace (trace w ++ [StError ("Error splitting audio: " +:+ exn_str e)]) w)
    | inr audio => (Ok (windows audio 120000), w)
    end.
Proof.
  destruct (from_file E file_path) as [e|audio] eqn:Hfile.
  - unfold split_audio, try_except, bind, lift, raise, st_error, emit, ret.
    rewrite Hfile. reflexivity.
  - apply (split_audio_loaded E file_path 2 w audio Hfile). lia.
Qed.

Lemma process_long_audio_body_eq file_path w :
  process_long_audio_body E file_path w =
    match split_audio E file_path 2 w with
    | (Ok [], w0) => (Ok "", w0)
    | (Ok (c :: cs), w0) =>
        match for_chunks E (Z.of_nat (length (c :: cs))) (enumerate (c :: cs)) []
                (with_trace (trace w0 ++ [StProgress 0 1]) w0) with
        | (Ok full_transcript, w') =>
            (Ok (String.concat paragraph_separator full_transcript), w')
        | (Raise e, w') => (Raise e, w')
        end
    | (Raise e, w0) => (Raise e, w0)
    end.
Proof.
  unfold process_long_audio_body, bind, emit, ret.
  destruct (split_audio E file_path 2 w) as [[[|c cs]|e] w0]; reflexivity.
Qed.

Lemma process_long_audio_eq file_path w :
  process_long_audio E file_path w =
    match process_long_audio_body E file_path w with
    | (Ok t, w') => (Ok t, w')
    | (Raise e, w') =>
        (Ok "", with_trace (trace w' ++ [StError ("Processing error: " +:+ exn_str e)]) w')
    end.
Proof.
  unfold process_long_audio, try_except, bind, st_error, emit, ret.
  destruct (process_long_audio_body E file_path w) as [[t|e] w']; reflexivity.
Qed.

Lemma split_audio_2_frame file_path w chunks w0 :
  split_audio E file_path 2 w = (Ok chunks, w0) ->
  fs w0 = fs w /\ n_tempfile w0 = n_tempfile w /\ n_export w0 = n_export w
  /\ n_transcribe w0 = n_transcribe w /\ n_safe_delete w0 = n_safe_delete w
  /\ exists evs, trace w0 = trace w ++ evs /\ quiet evs.
Proof.
  rewrite split_audio_2.
  destruct (from_file E file_path) as [e|audio]; intros [= <- <-]; cbn.
  - repeat (split; [reflexivity|]). eexists. split; [reflexivity|].
    repeat constructor.
  - repeat (split; [reflexivity|]). exists []. split; [rewrite app_nil_r; reflexivity|].
    constructor.
Qed.

Lemma length_enumerate_from {A} (l : list A) : forall i,
  length (enumerate_from i l) = length l.
Proof. induction l as [|x l IH]; intros i; cbn; [reflexivity|]. rewrite IH. reflexivity. Qed.

(** A run of the [try] block, whatever the outside does. *)
Lemma process_long_audio_body_run file_path w chunks w0 r w' :
  split_audio E file_path 2 w = (Ok chunks, w0) ->
  process_long_audio_body E file_path w = (r, w') ->
  exists evs,
    trace w' = trace w ++ evs
    /\ bounded evs
    /\ fs w' = fs w ∪ alive_after ∅ evs
    /\ match r with
       | Ok t =>
           t = String.concat paragraph_separator
                 (map (fun j => chunk_text E (n_transcribe w + j)) (seq 0 (length chunks)))
           /\ (forall j, (j < length chunks)%nat ->
                 export_outcome E (n_export w + j) = None)
           /\ (size (alive_after ∅ evs) <= delete_warnings evs)%nat
       | Raise e =>
           exists j, (j < length chunks)%nat
             /\ n_transcribe w' = (n_transcribe w + j)%nat
             /\ (forall j', (j' < j)%nat -> export_outcome E (n_export w + j') = None)
       end.
Proof.
  intros Hsplit Hbody.
  destruct (split_audio_2_frame _ _ _ _ Hsplit)
    as (Hfs0 & _ & Hne & Hnt & _ & evs0 & Htr0 & Hq0).
  rewrite process_long_audio_body_eq, Hsplit in Hbody.
  destruct chunks as [|c cs].
  - injection Hbody as <- <-. exists evs0.
    split; [exact Htr0|].
    split; [rewrite <- (app_nil_r evs0); apply bounded_quiet_l; [exact Hq0|apply bounded_nil]|].
    split; [rewrite (quiet_alive_after _ _ Hq0), Hfs0; set_solver|].
    split; [reflexivity|]. split; [intros j Hj; cbn in Hj; lia|].
    rewrite quiet_alive_after by exact Hq0. rewrite size_empty. lia.
  - destruct (for_chunks E (Z.of_nat (length (c :: cs))) (enumerate (c :: cs)) []
                (with_trace (trace w0 ++ [StProgress 0 1]) w0)) as [r1 w1] eqn:Hloop.
    apply for_chunks_run in Hloop as (evs1 & Htr1 & Hb1 & Hfs1 & Hpost).
    unfold enumerate in Hpost. rewrite length_enumerate_from in Hpost.
    cbn [trace with_trace n_transcribe n_export] in Htr1, Hpost.
    rewrite Hnt, Hne in Hpost.
    assert (Hq : quiet (evs0 ++ [StProgress 0 1])).
    { apply Forall_app. split; [exact Hq0|repeat constructor]. }
    exists ((evs0 ++ [StProgress 0 1]) ++ evs1).
    assert (Htr : trace w1 = trace w ++ (evs0 ++ [StProgress 0 1]) ++ evs1).
    { rewrite Htr1, Htr0, <- !app_assoc. reflexivity. }
    assert (Hb : bounded ((evs0 ++ [StProgress 0 1]) ++ evs1)).
    { apply bounded_quiet_l; assumption. }
    assert (Hfs : fs w1 = fs w ∪ alive_after ∅ ((evs0 ++ [StProgress 0 1]) ++ evs1)).
    { rewrite alive_after_app, (quiet_alive_after _ _ Hq).
      destruct (Hfs1 (fs w) ∅) as [Hfs _]; [cbn [fs with_trace]; rewrite Hfs0|..];
        [set_solver|set_solver|exact Hfs]. }
    destruct r1 as [res|e]; injection Hbody as <- <-.
    + destruct Hpost as (-> & Hexp & _ & Hend).
      split; [exact Htr|]. split; [exact Hb|]. split; [exact Hfs|].
      split; [reflexivity|]. split; [exact Hexp|].
      rewrite alive_after_app, delete_warnings_app.
      rewrite (quiet_alive_after _ _ Hq), (quiet_delete_warnings _ Hq).
      pose proof (Hend ∅) as Hend0. rewrite size_empty in Hend0. exact Hend0.
    + split; [exact Htr|]. split; [exact Hb|]. split; [exact Hfs|]. exact Hpost.
Qed.

End Job.

(** * The claims *)

(** C1, at the scenario of the specification: 150 000 ms in chunks of
    120 000 ms. *)
Lemma split_audio_partition_witness :
  exists chunks,
    split_audio studio "talk.mp3" 2 fresh_world = (Ok chunks, fresh_world)
    /\ Z.of_nat (length chunks) = 2
    /\ (forall c, chunks !! 0%nat = Some c -> len c = 120000)
    /\ (forall c, last chunks = Some c -> len c = 30000).
Proof.
  destruct (split_audio_partition studio "talk.mp3" 2 fresh_world (silence 150000)
              eq_refl ltac:(lia))
    as (chunks & Hrun & Hlen & Hwin & _ & Hlast & _).
  assert (HD : len (silence 150000) = 150000) by (vm_compute; reflexivity).
  rewrite HD in *.
  exists chunks. split; [exact Hrun|].
  split; [rewrite Hlen; vm_compute; reflexivity|].
  split.
  - intros c Hc. destruct (Hwin 0%nat c Hc) as [_ ->]. vm_compute. reflexivity.
  - intros c Hc. rewrite (Hlast c Hc). vm_compute. reflexivity.
Defined.




(** C4, as stated, fails: when the export of the first of two chunks fails,
    the job returns the empty string, no chunk is transcribed, and the
    transcript is not a list of two entries. *)
Lemma export_failure_is_fatal :
  length (windows (silence 150000) 120000) = 2%nat
  /\ export_outcome export_fails_first 0 = Some disk_full
  /\ remote export_fails_first 1 0 = inr "part 1"
  /\ fst (process_long_audio export_fails_first "talk.mp3" fresh_world) = Ok ""
  /\ n_transcribe (snd (process_long_audio export_fails_first "talk.mp3" fresh_world))
     = 0%nat
  /\ ~ (exists results,
          fst (process_long_audio export_fails_first "talk.mp3" fresh_world)
          = Ok (String.concat paragraph_separator results)
          /\ length results = 2%nat).
Proof.
  assert (Hrun : fst (process_long_audio export_fails_first "talk.mp3" fresh_world)
                 = Ok "") by (vm_compute; reflexivity).
  split; [vm_compute; reflexivity|].
  split; [reflexivity|].
  split; [reflexivity|].
  split; [exact Hrun|].
  split; [vm_compute; reflexivity|].
  intros (results & Heq & Hlen). rewrite Hrun in Heq.
  destruct results as [|a [|b [|c rest]]]; try discriminate Hlen.
  injection Heq as Heq. destruct a; discriminate Heq.
Qed.

(** C4, amended.  When the export of chunk [i] fails, the exception reaches
    the top-level handler: [process_long_audio] reports a processing error
    and returns the empty string, and neither chunk [i] nor any later chunk
    is transcribed. *)
Theorem export_failure_aborts_job (E : Env) (file_path : string) (w : world)
    (chunks : list AudioSegment) (w0 : world) (i : nat) (e : exn) :
  split_audio E file_path 2 w = (Ok chunks, w0) ->
  (i < length chunks)%nat ->
  export_outcome E (n_export w + i) = Some e ->
  exists e' w1,
    process_long_audio_body E file_path w = (Raise e', w1)
    /\ process_long_audio E file_path w
       = (Ok "", with_trace (trace w1 ++ [StError ("Processing error: " +:+ exn_str e')]) w1)
    /\ (n_transcribe w1 <= n_transcribe w + i)%nat.
Proof.
  intros Hsplit Hi Hexp.
  destruct (process_long_audio_body E file_path w) as [r w1] eqn:Hbody.
  destruct (process_long_audio_body_run E _ _ _ _ _ _ Hsplit Hbody)
    as (evs & _ & _ & _ & Hpost).
  destruct r as [t|e'].
  - destruct Hpost as (_ & Hnone & _). rewrite (Hnone i Hi) in Hexp. discriminate.
  - destruct Hpost as (j & Hj & Hnt & Hnone).
    exists e', w1. split; [reflexivity|].
    split; [rewrite process_long_audio_eq, Hbody; reflexivity|].
    destruct (Nat.le_gt_cases j i) as [Hle|Hgt]; [lia|].
    rewrite (Hnone i Hgt) in Hexp. discriminate.
Qed.

Lemma export_failure_aborts_job_witness :
  exists e' w1,
    process_long_audio_body export_fails_second "talk.mp3" fresh_world = (Raise e', w1)
    /\ fst (process_long_audio export_fails_second "talk.mp3" fresh_world) = Ok ""
    /\ (n_transcribe w1 <= 1)%nat.
Proof.
  assert (Hsplit : split_audio export_fails_second "talk.mp3" 2 fresh_world
                   = (Ok (windows (silence 150000) 120000), fresh_world))
    by (rewrite split_audio_2; reflexivity).
  assert (Hi : (1 < length (windows (silence 150000) 120000))%nat)
    by (vm_compute; lia).
  assert (Hexp : export_outcome export_fails_second (n_export fresh_world + 1)
                 = Some disk_full) by reflexivity.
  destruct (export_failure_aborts_job _ _ _ _ _ _ _ Hsplit Hi Hexp)
    as (e' & w1 & Hbody & Hrun & Hnt).
  exists e', w1. split; [exact Hbody|]. split; [rewrite Hrun; reflexivity|exact Hnt].
Defined.

(** C5, as stated, fails: with three attempts that all fail, two delays are
    slept, 5 s and 10 s; there is no third delay of 20 s. *)
Lemma backoff_sleeps_twice :
  fst (transcribe_chunk service_down_first "/tmp/tmp0.mp3" 3 chunk_on_disk) = Ok ""
  /\ sleeps (trace (snd (transcribe_chunk service_down_first "/tmp/tmp0.mp3" 3
                           chunk_on_disk)))
     = [5; 10]
  /\ sleeps (trace (snd (transcribe_chunk service_down_first "/tmp/tmp0.mp3" 3
                           chunk_on_disk)))
     <> [5; 10; 20].
Proof.
  assert (Hs : sleeps (trace (snd (transcribe_chunk service_down_first "/tmp/tmp0.mp3" 3
                                     chunk_on_disk)))
               = [5; 10]) by (vm_compute; reflexivity).
  split; [vm_compute; reflexivity|]. split; [exact Hs|].
  rewrite Hs. discriminate.
Qed.

(** C5, amended.  For a chunk whose [retries >= 1] attempts all fail, a
    delay of [5 * 2 ^ a] seconds is slept after failed attempt [a] as long as
    an attempt remains, and none after the last one: the delays are
    [5 * 2 ^ 0, ..., 5 * 2 ^ (retries - 2)], which is 5 s, 10 s for the
    default of three attempts. *)
Theorem transcribe_chunk_backoff (E : Env) (chunk_file : string) (retries : Z)
    (w : world) :
  1 <= retries ->
  (forall a, (a < Z.to_nat retries)%nat ->
     exists e, remote E (n_transcribe w) a = inl e) ->
  exists evs w',
    transcribe_chunk E chunk_file retries w = (Ok "", w')
    /\ trace w' = trace w ++ evs
    /\ sleeps evs = map (fun a => 5 * 2 ^ Z.of_nat a) (seq 0 (Z.to_nat retries - 1))
    /\ (retries = 3 -> sleeps evs = [5; 10]).
Proof.
  intros Hr Hall.
  destruct (transcribe_chunk_run E chunk_file retries w ltac:(lia))
    as (text & evs & Hrun & _ & _ & Hfail).
  destruct Hfail as (-> & Hs & _); [right; exact Hall|].
  exists evs. eexists. split; [exact Hrun|]. split; [reflexivity|].
  split; [exact Hs|]. intros ->. rewrite Hs. reflexivity.
Qed.

Lemma transcribe_chunk_backoff_witness :
  exists evs w',
    transcribe_chunk service_down_first "/tmp/tmp0.mp3" 3 chunk_on_disk = (Ok "", w')
    /\ trace w' = trace chunk_on_disk ++ evs
    /\ sleeps evs = [5; 10].
Proof.
  assert (Hr : 1 <= 3) by lia.
  assert (Hall : forall a, (a < Z.to_nat 3)%nat ->
                   exists e, remote service_down_first (n_transcribe chunk_on_disk) a
                             = inl e)
    by (intros a Ha; exists rate_limited; reflexivity).
  destruct (transcribe_chunk_backoff service_down_first "/tmp/tmp0.mp3" 3 chunk_on_disk
              Hr Hall)
    as (evs & w' & Hrun & Htr & _ & H3).
  exists evs, w'. split; [exact Hrun|]. split; [exact Htr|]. apply H3. reflexivity.
Defined.

(** C6.  When an exception is raised in the per-chunk loop (the [try] block
    raises only there, [split_audio] catches its own), the top-level handler
    catches it: [process_long_audio] reports "Processing error" and returns
    the empty string, whatever number [j] of chunks had been transcribed
    before; their text is dropped. *)
Theorem process_long_audio_all_or_nothing (E : Env) (file_path : string)
    (w : world) (chunks : list AudioSegment) (w0 : world) (e : exn) (w2 : world) :
  split_audio E file_path 2 w = (Ok chunks, w0) ->
  process_long_audio_body E file_path w = (Raise e, w2) ->
  process_long_audio E file_path w
  = (Ok "", with_trace (trace w2 ++ [StError ("Processing error: " +:+ exn_str e)]) w2)
  /\ (exists j, (j < length chunks)%nat /\ n_transcribe w2 = (n_transcribe w + j)%nat)
  /\ (forall w1, exists chunks1 w3, split_audio E file_path 2 w1 = (Ok chunks1, w3)).
Proof.
  intros Hsplit Hbody.
  split; [rewrite process_long_audio_eq, Hbody; reflexivity|].
  split.
  - destruct (process_long_audio_body_run E _ _ _ _ _ _ Hsplit Hbody)
      as (evs & _ & _ & _ & j & Hj & Hnt & _).
    exists j. split; assumption.
  - intros w1. rewrite split_audio_2.
    destruct (from_file E file_path); eexists _, _; reflexivity.
Qed.

Lemma process_long_audio_all_or_nothing_witness :
  process_long_audio export_fails_second "talk.mp3" fresh_world
  = (Ok "",
     with_trace
       (trace (snd (process_long_audio_body export_fails_second "talk.mp3" fresh_world))
        ++ [StError ("Processing error: " +:+ exn_str disk_full)])
       (snd (process_long_audio_body export_fails_second "talk.mp3" fresh_world)))
  /\ n_transcribe (snd (process_long_audio export_fails_second "talk.mp3" fresh_world))
     = 1%nat.
Proof.
  assert (Hsplit : split_audio export_fails_second "talk.mp3" 2 fresh_world
                   = (Ok (windows (silence 150000) 120000), fresh_world))
    by (rewrite split_audio_2; reflexivity).
  assert (Hbody : process_long_audio_body export_fails_second "talk.mp3" fresh_world
                  = (Raise disk_full,
                     snd (process_long_audio_body export_fails_second "talk.mp3"
                            fresh_world)))
    by run_result.
  split.
  - exact (proj1 (process_long_audio_all_or_nothing _ _ _ _ _ _ _ Hsplit Hbody)).
  - vm_compute. reflexivity.
Defined.

(** C7.  When the source cannot be loaded, or has duration 0,
    [split_audio] returns the empty list without raising and
    [process_long_audio] returns the empty string at once from its early
    return: the world is the one [split_audio] left (unchanged for an empty
    source, with the report of [split_audio] after a failed load), so no temp
    file is created, no request is made and the top-level handler is not
    entered. *)
Theorem nothing_to_transcribe (E : Env) (file_path : string) (w : world) :
  (exists e, from_file E file_path = inl e)
  \/ (exists audio, from_file E file_path = inr audio /\ len audio = 0) ->
  exists w1,
    split_audio E file_path 2 w = (Ok [], w1)
    /\ process_long_audio E file_path w = (Ok "", w1)
    /\ fs w1 = fs w
    /\ n_tempfile w1 = n_tempfile w
    /\ n_transcribe w1 = n_transcribe w
    /\ (forall e, from_file E file_path = inl e ->
          w1 = with_trace (trace w ++ [StError ("Error splitting audio: " +:+ exn_str e)]) w)
    /\ (forall audio, from_file E file_path = inr audio -> w1 = w).
Proof.
  intros Hsrc.
  assert (Hsplit : exists w1,
            split_audio E file_path 2 w = (Ok [], w1)
            /\ (forall e, from_file E file_path = inl e ->
                  w1 = with_trace (trace w ++ [StError ("Error splitting audio: " +:+ exn_str e)]) w)
            /\ (forall audio, from_file E file_path = inr audio -> w1 = w)).
  { rewrite split_audio_2.
    destruct Hsrc as [[e He]|(audio & Ha & Hlen)].
    - rewrite He. eexists. split; [reflexivity|].
      split; [intros e' [= <-]; reflexivity|discriminate].
    - rewrite Ha. exists w. unfold windows, range_length. rewrite Hlen. cbn.
      split; [reflexivity|]. split; [discriminate|reflexivity]. }
  destruct Hsplit as (w1 & Hsplit & Hfail & Hempty).
  exists w1. split; [exact Hsplit|].
  split.
  { rewrite process_long_audio_eq, process_long_audio_body_eq, Hsplit. reflexivity. }
  destruct (split_audio_2_frame E _ _ _ _ Hsplit) as (Hfs & Hnf & _ & Hnt & _).
  repeat split; assumption.
Qed.

Lemma nothing_to_transcribe_witness :
  process_long_audio (unreadable studio) "talk.mp3" fresh_world
  = (Ok "", with_trace [StError "Error splitting audio: Decoding failed"] fresh_world).
Proof.
  assert (Hsrc : (exists e, from_file (unreadable studio) "talk.mp3" = inl e)
                 \/ (exists audio, from_file (unreadable studio) "talk.mp3" = inr audio
                                   /\ len audio = 0))
    by (left; exists undecodable; reflexivity).
  destruct (nothing_to_transcribe (unreadable studio) "talk.mp3" fresh_world Hsrc)
    as (w1 & _ & Hrun & _ & _ & _ & Hfail & _).
  rewrite Hrun. f_equal. apply (Hfail undecodable). reflexivity.
Defined.

(** C8.  [safe_delete] never raises: it always returns a boolean.  When the
    first [os.unlink] fails with [PermissionError], it collects garbage,
    sleeps one second and tries [os.unlink] once more; if that works the file
    is gone and the result is [True], otherwise one warning is shown, the
    result is [False] and the file stays. *)
Theorem safe_delete_never_raises (E : Env) (file_path : string) (w : world) :
  (exists b w', safe_delete E file_path w = (Ok b, w'))
  /\ (forall e,
        file_path ∈ fs w ->
        unlink_outcome E (n_safe_delete w) 0 = Some e ->
        is_PermissionError e = true ->
        exists b w',
          safe_delete E file_path w = (Ok b, w')
          /\ match unlink_outcome E (n_safe_delete w) 1 with
             | None =>
                 b = true
                 /\ trace w' = trace w ++ [GcCollect; TimeSleep 1; Unlinked file_path]
                 /\ fs w' = fs w ∖ {[file_path]}
             | Some _ =>
                 b = false
                 /\ trace w' = trace w ++
                      [GcCollect; TimeSleep 1;
                       StWarning ("Couldn't delete temporary file: " +:+ file_path)]
                 /\ fs w' = fs w
             end).
Proof.
  split.
  - rewrite safe_delete_eq.
    destruct (bool_decide (file_path ∈ fs w)); [|eauto].
    destruct (unlink_outcome E (n_safe_delete w) 0) as [e|]; [|eauto].
    destruct (is_PermissionError e); [|eauto].
    destruct (unlink_outcome E (n_safe_delete w) 1); eauto.
  - intros e Hin H0 Hperm. rewrite safe_delete_eq.
    rewrite bool_decide_eq_true_2 by exact Hin. rewrite H0, Hperm.
    destruct (unlink_outcome E (n_safe_delete w) 1) as [e1|];
      eexists _, _; (split; [reflexivity|]); cbn; auto.
Qed.

Lemma safe_delete_never_raises_witness :
  exists w',
    safe_delete first_temp_locked "/tmp/tmp0.mp3" chunk_on_disk = (Ok false, w')
    /\ trace w' = [GcCollect; TimeSleep 1;
                   StWarning "Couldn't delete temporary file: /tmp/tmp0.mp3"]
    /\ fs w' = {["/tmp/tmp0.mp3"]}.
Proof.
  assert (Hin : "/tmp/tmp0.mp3" ∈ fs chunk_on_disk)
    by (apply (bool_decide_unpack _); vm_compute; exact I).
  assert (H0 : unlink_outcome first_temp_locked (n_safe_delete chunk_on_disk) 0
               = Some locked) by reflexivity.
  assert (Hperm : is_PermissionError locked = true) by reflexivity.
  destruct (proj2 (safe_delete_never_raises first_temp_locked "/tmp/tmp0.mp3"
                     chunk_on_disk) locked Hin H0 Hperm)
    as (b & w' & Hrun & Hcase).
  change (unlink_outcome first_temp_locked (n_safe_delete chunk_on_disk) 1)
    with (Some locked) in Hcase.
  destruct Hcase as (-> & Htr & Hfs).
  exists w'. split; [exact Hrun|]. split; [exact Htr|exact Hfs].
Defined.

(** C9, as stated, fails: when the temp file of the first chunk stays locked,
    it is still on disk when the temp file of the second chunk is created, so
    two chunk temp files are alive at once. *)
Lemma two_temp_files_alive :
  fst (process_long_audio first_temp_locked "talk.mp3" fresh_world)
  = Ok (String.concat paragraph_separator ["part 0"; "part 1"])
  /\ take 12 (trace (snd (process_long_audio first_temp_locked "talk.mp3" fresh_world)))
     !! 11%nat
     = Some (TempCreated "/tmp/tmp1.mp3")
  /\ alive_after ∅
       (take 12 (trace (snd (process_long_audio first_temp_locked "talk.mp3"
                               fresh_world))))
     = {["/tmp/tmp0.mp3"; "/tmp/tmp1.mp3"]}
  /\ size (alive_after ∅
             (take 12 (trace (snd (process_long_audio first_temp_locked "talk.mp3"
                                     fresh_world)))))
     = 2%nat
  /\ fs (snd (process_long_audio first_temp_locked "talk.mp3" fresh_world))
     = {["/tmp/tmp0.mp3"]}.
Proof.
  split; [vm_compute; reflexivity|].
  split; [vm_compute; reflexivity|].
  split; [vm_compute; reflexivity|].
  split; vm_compute; reflexivity.
Qed.

(** C9, amended.  Throughout a run of [process_long_audio] the number of
    chunk temp files alive is at most one plus the number of failed
    deletions warned about so far, hence at most one as long as every
    deletion succeeds.  An iteration that completes creates its temp file
    before the transcription and ends with the deletion of that file: its
    last event is the removal of the file, or the warning that it could not
    be removed.  In a run that no exception aborts, every temp file still
    alive at the end is accounted for by a deletion warning.  The files
    alive by the trace are the files on disk: at the end the disk holds what
    it held before and the temp files still alive. *)
Theorem temp_files_alive_bound (E : Env) (file_path : string) (w : world) :
  (exists t w' evs,
     process_long_audio E file_path w = (Ok t, w')
     /\ trace w' = trace w ++ evs
     /\ fs w' = fs w ∪ alive_after ∅ evs
     /\ (forall k,
           (size (alive_after ∅ (take k evs)) <= 1 + delete_warnings (take k evs))%nat)
     /\ (delete_warnings evs = 0%nat ->
         forall k, (size (alive_after ∅ (take k evs)) <= 1)%nat)
     /\ (forall t1 w1,
           process_long_audio_body E file_path w = (Ok t1, w1) ->
           (size (alive_after ∅ evs) <= delete_warnings evs)%nat))
  /\ (forall n i chunk acc w1 res w2,
        chunk_iteration E n i chunk acc w1 = (Ok res, w2) ->
        exists p evs1,
          trace w2 = trace w1 ++ evs1
          /\ evs1 !! 2%nat = Some (TempCreated p)
          /\ (creations evs1 <= 1)%nat
          /\ (((p ∉ fs w2) /\ last evs1 = Some (Unlinked p))
              \/ (exists msg, last evs1 = Some (StWarning msg)
                              /\ is_delete_warning (StWarning msg) = true))).
Proof.
  split.
  - assert (Hsplit : exists chunks w0, split_audio E file_path 2 w = (Ok chunks, w0)).
    { rewrite split_audio_2. destruct (from_file E file_path); eauto. }
    destruct Hsplit as (chunks & w0 & Hsplit).
    destruct (process_long_audio_body E file_path w) as [rb wb] eqn:Hbody.
    destruct (process_long_audio_body_run E _ _ _ _ _ _ Hsplit Hbody)
      as (evs & Htr & Hb & Hfs & Hpost).
    rewrite process_long_audio_eq, Hbody.
    assert (Hzero : forall l,
              bounded l -> delete_warnings l = 0%nat ->
              forall k, (size (alive_after ∅ (take k l)) <= 1)%nat).
    { intros l Hbl Hl k. pose proof (Hbl ∅ k) as Hk.
      pose proof (delete_warnings_take k l). rewrite size_empty in Hk. lia. }
    destruct rb as [t|e].
    + exists t, wb, evs. split; [reflexivity|]. split; [exact Htr|].
      split; [exact Hfs|].
      split; [intros k; pose proof (Hb ∅ k) as Hk; rewrite size_empty in Hk; lia|].
      split; [apply Hzero; exact Hb|].
      intros t1 w1 _. destruct Hpost as (_ & _ & Hend). exact Hend.
    + set (report := StError ("Processing error: " +:+ exn_str e)).
      assert (Hb' : bounded (evs ++ [report])).
      { apply bounded_quiet_r; [exact Hb|repeat constructor]. }
      exists "", (with_trace (trace wb ++ [report]) wb), (evs ++ [report]).
      split; [reflexivity|].
      split; [cbn [trace with_trace]; rewrite Htr, app_assoc; reflexivity|].
      split.
      { cbn [fs with_trace]. rewrite alive_after_app.
        rewrite (quiet_alive_after _ [report]) by (repeat constructor). exact Hfs. }
      split; [intros k; pose proof (Hb' ∅ k) as Hk; rewrite size_empty in Hk; lia|].
      split; [apply Hzero; exact Hb'|].
      intros t1 w1 Habs. discriminate Habs.
  - intros n i chunk acc w1 res w2 Hit.
    apply chunk_iteration_run in Hit
      as (evs1 & Htr & Hc & _ & _ & _ & _ & _ & _ & _ & _ & p & Hp & Hfresh & Hend).
    exists p, evs1. split; [exact Htr|]. split; [exact Hp|]. split; [exact Hc|].
    destruct Hend as [[Hfs Hlast]|[Hfs Hwarn]].
    + left. split; [rewrite Hfs; exact Hfresh|exact Hlast].
    + right. exact Hwarn.
Qed.

Lemma temp_files_alive_bound_witness :
  (size (alive_after ∅
           (take 12 (trace (snd (process_long_audio studio "talk.mp3" fresh_world)))))
   <= 1)%nat.
Proof.
  destruct (proj1 (temp_files_alive_bound studio "talk.mp3" fresh_world))
    as (t & w' & evs & Hrun & Htr & _ & _ & Hzero & _).
  assert (Hevs : evs = trace (snd (process_long_audio studio "talk.mp3" fresh_world)))
    by (rewrite Hrun; symmetry; exact Htr).
  rewrite <- Hevs. apply Hzero.
  rewrite Hevs. vm_compute. reflexivity.
Defined.

(** C10.  On a path that does not exist, [safe_delete] returns [False]: no
    warning is shown, nothing is raised and nothing changes but the count of
    calls. *)
Theorem safe_delete_missing_file (E : Env) (file_path : string) (w : world) :
  file_path ∉ fs w ->
  safe_delete E file_path w = (Ok false, with_n_safe_delete (S (n_safe_delete w)) w)
  /\ trace (snd (safe_delete E file_path w)) = trace w
  /\ fs (snd (safe_delete E file_path w)) = fs w.
Proof.
  intros Hout.
  assert (Hrun : safe_delete E file_path w
                 = (Ok false, with_n_safe_delete (S (n_safe_delete w)) w)).
  { rewrite safe_delete_eq. rewrite bool_decide_eq_false_2 by exact Hout. reflexivity. }
  rewrite Hrun. repeat split.
Qed.

Lemma safe_delete_missing_file_witness :
  safe_delete studio "/tmp/gone.mp3" chunk_on_disk
  = (Ok false, with_n_safe_delete 1 chunk_on_disk).
Proof.
  assert (Hout : "/tmp/gone.mp3" ∉ fs chunk_on_disk)
    by (apply (bool_decide_unpack _); vm_compute; exact I).
  exact (proj1 (safe_delete_missing_file studio "/tmp/gone.mp3" chunk_on_disk Hout)).
Defined.

(** * Further properties *)

(** ** [split_audio] *)

(** X1.  [split_audio] never raises and touches neither files nor call
    counters.  With [chunk_minutes = 0] on a source that loads, the zero step
    of [range] is reported through [st.error] and the result is the empty
    list; with a negative [chunk_minutes] the result is the empty list and
    nothing is reported. *)
Theorem split_audio_degenerate (E : Env) (file_path : string) (chunk_minutes : Z)
    (w : world) :
  exists chunks w',
    split_audio E file_path chunk_minutes w = (Ok chunks, w')
    /\ fs w' = fs w
    /\ n_tempfile w' = n_tempfile w
    /\ n_transcribe w' = n_transcribe w
    /\ (forall audio, from_file E file_path = inr audio ->
          (chunk_minutes = 0 ->
             chunks = []
             /\ w' = with_trace
                       (trace w ++ [StError ("Error splitting audio: "
                                             +:+ "range() arg 3 must not be zero")])
                       w)
          /\ (chunk_minutes < 0 -> chunks = [] /\ w' = w)).
Proof.
  destruct (from_file E file_path) as [e|audio] eqn:Hfile.
  - eexists [], _. split.
    { unfold split_audio, try_except, bind, lift, raise, st_error, emit, ret.
      rewrite Hfile. reflexivity. }
    split; [reflexivity|]. split; [reflexivity|]. split; [reflexivity|].
    intros audio Habs. discriminate Habs.
  - destruct (Z.eq_dec chunk_minutes 0) as [->|Hnz].
    + eexists [], _. split.
      { unfold split_audio, try_except, bind, lift, raise, st_error, emit, ret, py_range.
        rewrite Hfile. reflexivity. }
      split; [reflexivity|]. split; [reflexivity|]. split; [reflexivity|].
      intros audio' _. split; [intros _; split; reflexivity|lia].
    + exists (windows audio (chunk_minutes * 60 * 1000)), w.
      split; [apply split_audio_loaded; assumption|].
      split; [reflexivity|]. split; [reflexivity|]. split; [reflexivity|].
      intros audio' _. split; [intros ->; contradiction|].
      intros Hneg. split; [|reflexivity].
      unfold windows, range_length.
      destruct (Z.ltb_spec 0 (chunk_minutes * 60 * 1000)); [lia|].
      destruct (Z.ltb_spec (len audio) 0); [unfold len in *; lia|].
      reflexivity.
Qed.

(** ** [transcribe_chunk] *)

Lemma requests_app l1 l2 : requests (l1 ++ l2) = (requests l1 + requests l2)%nat.
Proof. unfold requests. rewrite List.filter_app, length_app. reflexivity. Qed.

Lemma service_event_retry p (secs : Z) :
  service_event p (StWarning ("Retrying chunk in " +:+ pretty secs +:+ "s...")) = true.
Proof. apply prefix_app. Qed.

Lemma service_event_request p : service_event p (RemoteCall p) = true.
Proof. apply String.eqb_refl. Qed.

Section TranscribeMore.
Variable E : Env.

(** One pass of the retry loop, run symbolically. *)
Lemma attempt_body_eq k p r a w :
  attempt_body E k p r a w =
    let retry e :=
      if a <? r - 1 then
        (Ok None,
         [StWarning ("Retrying chunk in " +:+ pretty (5 * 2 ^ a) +:+ "s...");
          TimeSleep (5 * 2 ^ a)])
      else (Ok (Some ""), [StError ("Chunk failed: " +:+ exn_str e)]) in
    if bool_decide (p ∈ fs w) then
      match remote E k (Z.to_nat a) with
      | inr text => (Ok (Some text), with_trace (trace w ++ [RemoteCall p]) w)
      | inl e =>
          (fst (retry e), with_trace (trace w ++ RemoteCall p :: snd (retry e)) w)
      end
    else
      (fst (retry (file_not_found p)),
       with_trace (trace w ++ snd (retry (file_not_found p))) w).
Proof.
  unfold attempt_body, transcriptions_create, st_warning, st_error, time_sleep.
  unfold try_except, bind, open_rb, emit, lift, ret, raise.
  destruct (bool_decide (p ∈ fs w)); cbn -[Z.pow Z.mul].
  - destruct (remote E k (Z.to_nat a)) as [e|text]; cbn -[Z.pow Z.mul];
      [|reflexivity].
    destruct (a <? r - 1); cbn -[Z.pow Z.mul]; norm_world; reflexivity.
  - destruct (a <? r - 1); cbn -[Z.pow Z.mul]; norm_world; reflexivity.
Qed.

Lemma for_attempts_effort k p r : forall attempts w,
  exists text evs,
    for_attempts E k p r attempts w = (Ok text, with_trace (trace w ++ evs) w)
    /\ Forall (fun e => service_event p e = true) evs
    /\ (requests evs <= length attempts)%nat
    /\ (p ∉ fs w -> requests evs = 0%nat /\ text = "").
Proof.
  induction attempts as [|a rest IH]; intros w.
  - exists "", []. split; [|repeat split; constructor].
    destruct w. unfold for_attempts, ret. norm_world. rewrite app_nil_r. reflexivity.
  - cbn [for_attempts]. unfold bind. rewrite attempt_body_eq. cbn zeta.
    destruct (bool_decide (p ∈ fs w)) eqn:Hp;
      [apply bool_decide_eq_true in Hp;
       destruct (remote E k (Z.to_nat a)) as [e|text]|];
      try destruct (a <? r - 1); cbn [fst snd].
    all: try (eexists _, _; split; [reflexivity|];
              split; [repeat constructor; apply service_event_request|];
              split; [cbn; lia|]; intros Hn; first [contradiction|split; reflexivity]).
    all: match goal with
         | |- context [for_attempts _ _ _ _ _ (with_trace (trace ?w0 ++ ?evs1) ?w0)] =>
             destruct (IH (with_trace (trace w0 ++ evs1) w0))
               as (text & evs2 & Hrun & Hs2 & Hr2 & Hm2);
             rewrite Hrun; exists text, (evs1 ++ evs2);
             split; [norm_world; reflexivity|];
             split; [apply Forall_app; split;
                     [repeat constructor;
                      first [apply service_event_request | apply service_event_retry]
                     |exact Hs2]|];
             rewrite requests_app; split; [cbn [length requests List.filter is_request] in *; lia|];
             intros Hn; first [contradiction | destruct (Hm2 Hn) as [-> ->]; split; reflexivity]
         end.
Qed.

Lemma py_range_0_1_any r :
  py_range 0 r 1 = inr (map Z.of_nat (seq 0 (Z.to_nat r))).
Proof.
  destruct (Z.le_gt_cases 0 r) as [Hr|Hr]; [apply py_range_0_1; exact Hr|].
  unfold py_range, range_length. cbn [Z.eqb Z.ltb Z.compare].
  destruct (Z.ltb_spec 0 r); [lia|].
  replace (Z.to_nat r) with 0%nat by lia. reflexivity.
Qed.

Lemma for_attempts_success k p r t (a : nat) : forall (n a0 : nat) w,
  Z.of_nat (a0 + n) = r ->
  p ∈ fs w ->
  (a0 <= a < a0 + n)%nat ->
  (forall j, (a0 <= j < a)%nat -> exists e, remote E k j = inl e) ->
  remote E k a = inr t ->
  for_attempts E k p r (map Z.of_nat (seq a0 n)) w
  = (Ok t,
     with_trace
       (trace w ++ flat_map (fun j => RemoteCall p :: backoff j) (seq a0 (a - a0))
                ++ [RemoteCall p])
       w).
Proof.
  induction n as [|n IH]; intros a0 w Hr Hin Ha Hfail Hok; [lia|].
  cbn [seq map for_attempts]. unfold bind. rewrite attempt_body_eq. cbn zeta.
  rewrite bool_decide_eq_true_2 by exact Hin. rewrite Nat2Z.id.
  destruct (Nat.eq_dec a0 a) as [->|Hne].
  - rewrite Hok. replace (a - a)%nat with 0%nat by lia. reflexivity.
  - destruct (Hfail a0 ltac:(lia)) as [e He]. rewrite He.
    destruct (Z.ltb_spec (Z.of_nat a0) (r - 1)) as [_|Hlast]; [|lia].
    cbn [fst snd].
    rewrite (IH (S a0)); [|lia|exact Hin|lia|intros j Hj; apply Hfail; lia|exact Hok].
    replace (a - a0)%nat with (S (a - S a0)) by lia.
    cbn [seq flat_map]. norm_world. reflexivity.
Qed.

Lemma for_attempts_missing k p r : forall (n a0 : nat) w,
  Z.of_nat (a0 + S n) = r ->
  p ∉ fs w ->
  for_attempts E k p r (map Z.of_nat (seq a0 (S n))) w
  = (Ok "",
     with_trace
       (trace w ++ flat_map backoff (seq a0 n)
                ++ [StError ("Chunk failed: " +:+ exn_str (file_not_found p))])
       w).
Proof.
  induction n as [|n IH]; intros a0 w Hr Hout.
  - cbn [seq map for_attempts]. unfold bind. rewrite attempt_body_eq. cbn zeta.
    rewrite bool_decide_eq_false_2 by exact Hout.
    destruct (Z.ltb_spec (Z.of_nat a0) (r - 1)) as [Hmore|_]; [lia|].
    reflexivity.
  - change (seq a0 (S (S n))) with (a0 :: seq (S a0) (S n)).
    cbn [map for_attempts]. unfold bind. rewrite attempt_body_eq. cbn zeta.
    rewrite bool_decide_eq_false_2 by exact Hout.
    destruct (Z.ltb_spec (Z.of_nat a0) (r - 1)) as [_|Hlast]; [|lia].
    cbn [fst snd].
    rewrite (IH (S a0)); [|lia|exact Hout].
    cbn [seq flat_map]. norm_world. reflexivity.
Qed.

Lemma sleeps_backoffs (pre : list event) : forall l,
  (forall e, In e pre -> match e with TimeSleep _ => False | _ => True end) ->
  sleeps (flat_map (fun j => pre ++ backoff j) l)
  = map (fun j => 5 * 2 ^ Z.of_nat j) l.
Proof.
  intros l Hpre. unfold sleeps.
  assert (Hp : omap (fun e => match e with TimeSleep secs => Some secs | _ => None end) pre
               = []).
  { induction pre as [|e pre IHp]; [reflexivity|].
    pose proof (Hpre e (or_introl eq_refl)) as He.
    assert (IHp' := IHp (fun e' He' => Hpre e' (or_intror He'))).
    destruct e; simpl; try exact IHp'; contradiction. }
  induction l as [|j l IH]; [reflexivity|].
  cbn [flat_map map]. rewrite !omap_app, Hp, IH. reflexivity.
Qed.

End TranscribeMore.

(** X2.  [transcribe_chunk] never raises, whatever the service and the disk
    do: it returns a text, leaves the files alone, emits only requests for
    its own file, retry warnings, sleeps and error reports, and sends at most
    [retries] requests.  When the chunk file is missing it sends none and
    returns the empty string; with [retries <= 0] it does nothing and returns
    the empty string. *)
Theorem transcribe_chunk_effort (E : Env) (chunk_file : string) (retries : Z)
    (w : world) :
  exists text evs,
    transcribe_chunk E chunk_file retries w
    = (Ok text,
       with_trace (trace w ++ evs) (with_n_transcribe (S (n_transcribe w)) w))
    /\ Forall (fun e => service_event chunk_file e = true) evs
    /\ (requests evs <= Z.to_nat retries)%nat
    /\ (chunk_file ∉ fs w -> requests evs = 0%nat /\ text = "")
    /\ (retries <= 0 -> evs = [] /\ text = "").
Proof.
  unfold transcribe_chunk, bind, enter_transcribe_chunk.
  rewrite py_range_0_1_any. unfold lift, ret.
  destruct (Z.le_gt_cases retries 0) as [Hle|Hgt].
  - replace (Z.to_nat retries) with 0%nat by lia. cbn [seq map for_attempts].
    exists "", []. split; [unfold ret; norm_world; rewrite app_nil_r; reflexivity|].
    split; [constructor|]. split; [cbn; lia|]. split; intros _; split; reflexivity.
  - destruct (for_attempts_effort E (n_transcribe w) chunk_file retries
                (map Z.of_nat (seq 0 (Z.to_nat retries)))
                (with_n_transcribe (S (n_transcribe w)) w))
      as (text & evs & Hrun & Hs & Hreq & Hmiss).
    rewrite Hrun. exists text, evs.
    split; [norm_world; reflexivity|]. split; [exact Hs|].
    split; [rewrite length_map, length_seq in Hreq; exact Hreq|].
    split; [exact Hmiss|lia].
Qed.

(** X3.  When the chunk file exists, attempts [0 .. a-1] fail and attempt [a]
    (one of the [retries]) succeeds with [text], [transcribe_chunk] returns
    [text] and stops: it has sent [a + 1] requests, slept
    [5 * 2 ^ 0, ..., 5 * 2 ^ (a - 1)] seconds, and reports no error. *)
Theorem transcribe_chunk_first_success (E : Env) (chunk_file : string)
    (retries : Z) (w : world) (a : nat) (text : string) :
  chunk_file ∈ fs w ->
  (a < Z.to_nat retries)%nat ->
  (forall j, (j < a)%nat -> exists e, remote E (n_transcribe w) j = inl e) ->
  remote E (n_transcribe w) a = inr text ->
  exists evs,
    transcribe_chunk E chunk_file retries w
    = (Ok text,
       with_trace (trace w ++ evs) (with_n_transcribe (S (n_transcribe w)) w))
    /\ evs = flat_map (fun j => RemoteCall chunk_file :: backoff j) (seq 0 a)
             ++ [RemoteCall chunk_file]
    /\ requests evs = S a
    /\ sleeps evs = map (fun j => 5 * 2 ^ Z.of_nat j) (seq 0 a)
    /\ errors_shown evs = [].
Proof.
  intros Hin Ha Hfail Hok.
  eexists. split.
  { unfold transcribe_chunk, bind, enter_transcribe_chunk.
    rewrite py_range_0_1_any. unfold lift, ret.
    rewrite (for_attempts_success E (n_transcribe w) chunk_file retries text a);
      [|lia|exact Hin|lia|intros j Hj; apply Hfail; lia|exact Hok].
    rewrite Nat.sub_0_r. norm_world. reflexivity. }
  split; [reflexivity|].
  assert (Hcount : forall l,
            requests (flat_map (fun j => RemoteCall chunk_file :: backoff j) l) = length l
            /\ errors_shown (flat_map (fun j => RemoteCall chunk_file :: backoff j) l) = []).
  { induction l as [|j l [IH1 IH2]]; [split; reflexivity|].
    cbn [flat_map]. change (RemoteCall chunk_file :: backoff j ++ ?x)
      with ((RemoteCall chunk_file :: backoff j) ++ x).
    split.
    - cbn [length]. rewrite <- IH1. reflexivity.
    - unfold errors_shown in *. cbn [omap backoff app]. exact IH2. }
  split.
  { rewrite requests_app. destruct (Hcount (seq 0 a)) as [-> _].
    rewrite length_seq. cbn. lia. }
  split.
  { unfold sleeps. rewrite omap_app. cbn [omap]. rewrite app_nil_r.
    apply (sleeps_backoffs [RemoteCall chunk_file]).
    intros e [<-|[]]. exact I. }
  unfold errors_shown. rewrite omap_app.
  destruct (Hcount (seq 0 a)) as [_ Herr]. unfold errors_shown in Herr.
  rewrite Herr. reflexivity.
Qed.

(** X4.  When the chunk file does not exist and [retries >= 1], no request
    is sent: every attempt fails at [open], the loop backs off as for a failed
    request, and after the last attempt it reports the missing file and
    returns the empty string.  The text reported is that of Python's
    [FileNotFoundError], which shows a plain path as it is, between
    quotes. *)
Theorem transcribe_chunk_missing_file (E : Env) (chunk_file : string)
    (retries : Z) (w : world) :
  plain_path chunk_file = true ->
  chunk_file ∉ fs w ->
  1 <= retries ->
  transcribe_chunk E chunk_file retries w
  = (Ok "",
     with_trace
       (trace w ++ flat_map backoff (seq 0 (Z.to_nat retries - 1))
                ++ [StError ("Chunk failed: [Errno 2] No such file or directory: '"
                             +:+ chunk_file +:+ "'")])
       (with_n_transcribe (S (n_transcribe w)) w)).
Proof.
  intros _ Hout Hr.
  unfold transcribe_chunk, bind, enter_transcribe_chunk.
  rewrite py_range_0_1_any. unfold lift, ret.
  replace (Z.to_nat retries) with (S (Z.to_nat retries - 1)) at 1 by lia.
  rewrite for_attempts_missing; [|lia|exact Hout].
  norm_world. reflexivity.
Qed.

(** ** [safe_delete] *)

(** On a file that exists, [safe_delete] is [delete_run]. *)
Lemma safe_delete_present E p w :
  p ∈ fs w ->
  safe_delete E p w
  = (Ok (fst (delete_run E (n_safe_delete w) p)),
     with_trace (trace w ++ snd (delete_run E (n_safe_delete w) p))
       (with_fs (if fst (delete_run E (n_safe_delete w) p) then fs w ∖ {[p]} else fs w)
          (with_n_safe_delete (S (n_safe_delete w)) w))).
Proof.
  intros Hin. rewrite safe_delete_eq, bool_decide_eq_true_2 by exact Hin.
  unfold delete_run.
  destruct (unlink_outcome E (n_safe_delete w) 0) as [e|]; [|reflexivity].
  destruct (is_PermissionError e); [|reflexivity].
  destruct (unlink_outcome E (n_safe_delete w) 1); reflexivity.
Qed.

Lemma delete_run_facts E k p :
  let b := fst (delete_run E k p) in
  let evs := snd (delete_run E k p) in
  delete_warnings evs = (if b then 0 else 1)%nat
  /\ creations evs = 0%nat
  /\ requests evs = 0%nat
  /\ progress_shown evs = []
  /\ errors_shown evs = []
  /\ (sleeps evs = [1]
      \/ sleeps evs = [])
  /\ (sleeps evs = [1] <->
      exists e, unlink_outcome E k 0 = Some e /\ is_PermissionError e = true)
  /\ (forall s, alive_after s evs = if b then s ∖ {[p]} else s).
Proof.
  unfold delete_run.
  destruct (unlink_outcome E k 0) as [e|] eqn:H0.
  2:{ cbn. repeat split; auto; try (intros [=]).
      intros (e & [=] & _). }
  destruct (is_PermissionError e) eqn:Hperm.
  2:{ cbn [fst snd]. count_warnings. cbn.
      repeat split; auto; try (intros [=]).
      intros (e' & [= <-] & Habs). congruence. }
  destruct (unlink_outcome E k 1) as [e1|].
  - cbn [fst snd]. count_warnings. cbn.
    repeat split; auto. intros _. eauto.
  - cbn. repeat split; auto. intros _. eauto.
Qed.

(** X5.  [safe_delete] returns [True] exactly when the file was there before
    and is gone after; it never raises, never touches another file, and
    leaves the file system as it was when it returns [False]. *)
Theorem safe_delete_result (E : Env) (file_path : string) (w : world) :
  exists b w',
    safe_delete E file_path w = (Ok b, w')
    /\ (b = true <-> file_path ∈ fs w /\ file_path ∉ fs w')
    /\ fs w' ∖ {[file_path]} = fs w ∖ {[file_path]}
    /\ (b = false -> fs w' = fs w)
    /\ fs w' ⊆ fs w.
Proof.
  destruct (decide (file_path ∈ fs w)) as [Hin|Hout].
  - rewrite (safe_delete_present E _ _ Hin).
    eexists _, _. split; [reflexivity|]. cbn [fs with_trace with_fs].
    destruct (fst (delete_run E (n_safe_delete w) file_path)).
    + split; [split; [intros _; split; [exact Hin|set_solver]|reflexivity]|].
      split; [set_solver|]. split; [discriminate|set_solver].
    + split; [split; [discriminate|intros [_ Hn]; contradiction]|].
      split; [reflexivity|]. split; [reflexivity|set_solver].
  - rewrite safe_delete_eq, bool_decide_eq_false_2 by exact Hout.
    eexists _, _. split; [reflexivity|]. cbn [fs with_n_safe_delete].
    split; [split; [discriminate|intros [Hin _]; contradiction]|].
    split; [reflexivity|]. split; [reflexivity|set_solver].
Qed.

(** X6.  [safe_delete] shows a deletion warning exactly when the file is
    still there afterwards, and then exactly one.  It sleeps one second, once,
    exactly when the file exists and the first [os.unlink] raises
    [PermissionError], and never otherwise; it sends no request and creates
    no file. *)
Theorem safe_delete_reporting (E : Env) (file_path : string) (w : world) :
  exists b w' evs,
    safe_delete E file_path w = (Ok b, w')
    /\ trace w' = trace w ++ evs
    /\ delete_warnings evs = (if bool_decide (file_path ∈ fs w') then 1 else 0)%nat
    /\ (sleeps evs = [1] \/ sleeps evs = [])
    /\ (sleeps evs = [1] <->
        file_path ∈ fs w
        /\ exists e, unlink_outcome E (n_safe_delete w) 0 = Some e
                     /\ is_PermissionError e = true)
    /\ requests evs = 0%nat
    /\ creations evs = 0%nat.
Proof.
  destruct (decide (file_path ∈ fs w)) as [Hin|Hout].
  - rewrite (safe_delete_present E _ _ Hin).
    destruct (delete_run_facts E (n_safe_delete w) file_path)
      as (Hw & Hc & Hr & _ & _ & Hs & Hs1 & _).
    cbn zeta in *.
    eexists _, _, _. split; [reflexivity|]. split; [reflexivity|].
    cbn [fs with_trace with_fs].
    split.
    { rewrite Hw. destruct (fst (delete_run E (n_safe_delete w) file_path)).
      - rewrite bool_decide_eq_false_2 by set_solver. reflexivity.
      - rewrite bool_decide_eq_true_2 by exact Hin. reflexivity. }
    split; [exact Hs|]. split; [|split; assumption].
    rewrite Hs1. split; [intros H; split; [exact Hin|exact H]|intros [_ H]; exact H].
  - rewrite safe_delete_eq, bool_decide_eq_false_2 by exact Hout.
    exists false. eexists. exists [].
    split; [reflexivity|]. split; [cbn; rewrite app_nil_r; reflexivity|].
    cbn [fs with_n_safe_delete].
    split; [rewrite bool_decide_eq_false_2 by exact Hout; reflexivity|].
    split; [right; reflexivity|].
    split; [split; [intros [=]|intros [Hin _]; contradiction]|].
    split; reflexivity.
Qed.

(** ** One iteration of the loop, in full *)

Lemma transcribe_chunk_3 E p w :
  p ∈ fs w ->
  exists evsT,
    transcribe_chunk E p 3 w
    = (Ok (chunk_text E (n_transcribe w)),
       with_trace (trace w ++ evsT) (with_n_transcribe (S (n_transcribe w)) w))
    /\ Forall (fun e => service_event p e = true) evsT
    /\ (requests evsT <= 3)%nat
    /\ quiet evsT.
Proof.
  intros Hin.
  destruct (transcribe_chunk_run E p 3 w ltac:(lia))
    as (text & evs & Hrun & Hq & Hok & _).
  rewrite (Hok Hin) in Hrun.
  change (first_text E (n_transcribe w) (map Z.of_nat (seq 0 (Z.to_nat 3))))
    with (chunk_text E (n_transcribe w)) in Hrun.
  exists evs. split; [exact Hrun|].
  assert (Heff : exists text' evs',
            transcribe_chunk E p 3 w
            = (Ok text',
               with_trace (trace w ++ evs') (with_n_transcribe (S (n_transcribe w)) w))
            /\ Forall (fun e => service_event p e = true) evs'
            /\ (requests evs' <= Z.to_nat 3)%nat).
  { unfold transcribe_chunk, bind, enter_transcribe_chunk.
    rewrite py_range_0_1_any. unfold lift, ret.
    destruct (for_attempts_effort E (n_transcribe w) p 3
                (map Z.of_nat (seq 0 (Z.to_nat 3)))
                (with_n_transcribe (S (n_transcribe w)) w))
      as (text' & evs' & Hrun' & Hs & Hreq & _).
    rewrite Hrun'. exists text', evs'.
    split; [norm_world; reflexivity|]. split; [exact Hs|].
    rewrite length_map, length_seq in Hreq. exact Hreq. }
  destruct Heff as (text' & evs' & Hrun' & Hs & Hreq).
  rewrite Hrun in Hrun'. injection Hrun' as _ Hevs.
  apply app_inv_head in Hevs. subst evs'.
  split; [exact Hs|]. split; [exact Hreq|exact Hq].
Qed.

Section IterationShape.
Variable E : Env.

Lemma chunk_iteration_shape n i chunk acc w r w' :
  chunk_iteration E n i chunk acc w = (r, w') ->
  let head :=
    [StProgress (i + 1) n;
     StText ("Processing chunk " +:+ pretty (i + 1) +:+ "/" +:+ pretty n)] in
  session_progress w' = (i + 1, n)
  /\ n_tempfile w' = S (n_tempfile w)
  /\ match r with
     | Ok res =>
         exists name evsT,
           tempfile_name E (n_tempfile w) = inr name
           /\ (name +:+ ".mp3" ∉ fs w)
           /\ export_outcome E (n_export w) = None
           /\ res = acc ++ [chunk_text E (n_transcribe w)]
           /\ trace w'
              = trace w ++ head
                ++ [TempCreated (name +:+ ".mp3"); Exported (name +:+ ".mp3")]
                ++ evsT ++ snd (delete_run E (n_safe_delete w) (name +:+ ".mp3"))
           /\ Forall (fun e => service_event (name +:+ ".mp3") e = true) evsT
           /\ (requests evsT <= 3)%nat
           /\ quiet evsT
           /\ fs w' = (if fst (delete_run E (n_safe_delete w) (name +:+ ".mp3"))
                       then fs w else {[name +:+ ".mp3"]} ∪ fs w)
           /\ n_export w' = S (n_export w)
           /\ n_transcribe w' = S (n_transcribe w)
           /\ n_safe_delete w' = S (n_safe_delete w)
     | Raise e =>
         n_transcribe w' = n_transcribe w
         /\ n_safe_delete w' = n_safe_delete w
         /\ ((trace w' = trace w ++ head
              /\ fs w' = fs w
              /\ n_export w' = n_export w
              /\ match tempfile_name E (n_tempfile w) with
                 | inl e' => e = e'
                 | inr name => name +:+ ".mp3" ∈ fs w
                 end)
             \/ (exists name,
                   tempfile_name E (n_tempfile w) = inr name
                   /\ (name +:+ ".mp3" ∉ fs w)
                   /\ export_outcome E (n_export w) = Some e
                   /\ trace w' = trace w ++ head ++ [TempCreated (name +:+ ".mp3")]
                   /\ fs w' = {[name +:+ ".mp3"]} ∪ fs w
                   /\ n_export w' = S (n_export w)))
     end.
Proof.
  unfold chunk_iteration, set_session_progress.
  unfold bind, emit, NamedTemporaryFile, export, ret. cbn.
  destruct (tempfile_name E (n_tempfile w)) as [e|name].
  { intros [= <- <-]. cbn.
    split; [reflexivity|]. split; [reflexivity|]. split; [reflexivity|].
    split; [reflexivity|]. left.
    split; [rewrite <- app_assoc; reflexivity|]. repeat split. }
  set (p := name +:+ ".mp3").
  destruct (bool_decide (p ∈ fs w)) eqn:Hp.
  { intros [= <- <-]. cbn. apply bool_decide_eq_true in Hp.
    split; [reflexivity|]. split; [reflexivity|]. split; [reflexivity|].
    split; [reflexivity|]. left.
    split; [rewrite <- app_assoc; reflexivity|]. repeat split. exact Hp. }
  apply bool_decide_eq_false in Hp. cbn.
  destruct (export_outcome E (n_export w)) as [e|] eqn:Hexp.
  { intros [= <- <-]. cbn.
    split; [reflexivity|]. split; [reflexivity|]. split; [reflexivity|].
    split; [reflexivity|]. right. exists name. fold p.
    split; [reflexivity|]. split; [exact Hp|]. split; [reflexivity|].
    split; [rewrite <- !app_assoc; reflexivity|]. split; reflexivity. }
  cbn.
  match goal with
  | |- context [transcribe_chunk E p 3 ?W] =>
      destruct (transcribe_chunk_3 E p W) as (evsT & HT & Hs & Hreq & HqT);
        [cbn; set_solver|];
      rewrite HT; clear HT
  end.
  cbn.
  match goal with
  | |- context [safe_delete E p ?W] =>
      rewrite (safe_delete_present E p W) by (cbn; set_solver)
  end.
  cbn.
  intros [= <- <-]. cbn.
  split; [reflexivity|]. split; [reflexivity|].
  exists name, evsT. fold p.
  split; [reflexivity|]. split; [exact Hp|]. split; [reflexivity|].
  split; [reflexivity|].
  split; [rewrite <- !app_assoc; reflexivity|].
  split; [exact Hs|]. split; [exact Hreq|]. split; [exact HqT|].
  split; [destruct (fst (delete_run E (n_safe_delete w) p)); set_solver|].
  repeat split.
Qed.

End IterationShape.

(** ** The loop, in full *)

Lemma progress_shown_app l1 l2 :
  progress_shown (l1 ++ l2) = progress_shown l1 ++ progress_shown l2.
Proof. apply omap_app. Qed.

Lemma service_event_facts p evs :
  Forall (fun e => service_event p e = true) evs ->
  progress_shown evs = [] /\ creations evs = 0%nat.
Proof.
  induction 1 as [|e evs He _ [IH1 IH2]]; [split; reflexivity|].
  destruct e; try discriminate He; split; assumption.
Qed.

Section LoopShape.
Variable E : Env.

Lemma chunk_iteration_counts n i chunk acc w r w' :
  chunk_iteration E n i chunk acc w = (r, w') ->
  exists evs,
    trace w' = trace w ++ evs
    /\ progress_shown evs = [(i + 1, n)]
    /\ session_progress w' = (i + 1, n)
    /\ (requests evs <= 3)%nat
    /\ (creations evs <= 1)%nat
    /\ match r with Ok _ => creations evs = 1%nat | Raise _ => True end.
Proof.
  intros Hit. apply chunk_iteration_shape in Hit. cbn zeta in Hit.
  destruct Hit as (Hprog & _ & Hcase).
  destruct r as [res|e].
  - destruct Hcase as (name & evsT & _ & _ & _ & _ & Htr & Hs & Hreq & _).
    eexists. split; [exact Htr|].
    destruct (service_event_facts _ _ Hs) as [HpT HcT].
    destruct (delete_run_facts E (n_safe_delete w) (name +:+ ".mp3"))
      as (_ & HcD & HrD & HpD & _).
    cbn zeta in *.
    split.
    { rewrite !progress_shown_app, HpT, HpD. reflexivity. }
    split; [exact Hprog|].
    rewrite !requests_app, !creations_app, HcT, HcD, HrD. cbn.
    split; [rewrite Nat.add_0_r; exact Hreq|]. split; [apply le_n|reflexivity].
  - destruct Hcase as (_ & _ & [(Htr & _)|(name & _ & _ & _ & Htr & _)]).
    + eexists. split; [exact Htr|]. split; [reflexivity|]. split; [exact Hprog|].
      cbn. split; [lia|]. split; [lia|exact I].
    + eexists. split; [exact Htr|]. split; [reflexivity|]. split; [exact Hprog|].
      cbn. split; [lia|]. split; [lia|exact I].
Qed.

Lemma for_chunks_counts n : forall chunks i0 acc w r w',
  for_chunks E n (enumerate_from i0 chunks) acc w = (r, w') ->
  exists evs (m : nat),
    trace w' = trace w ++ evs
    /\ (m <= length chunks)%nat
    /\ progress_shown evs = map (fun j => (i0 + Z.of_nat j + 1, n)) (seq 0 m)
    /\ ((1 <= m)%nat -> session_progress w' = (i0 + Z.of_nat m, n))
    /\ (m = 0%nat -> w' = w)
    /\ (requests evs <= 3 * m)%nat
    /\ (creations evs <= m)%nat
    /\ match r with
       | Ok _ => m = length chunks /\ creations evs = m
       | Raise _ => (1 <= m)%nat
       end.
Proof.
  induction chunks as [|c chunks IH]; intros i0 acc w r w' Hrun.
  - cbn in Hrun. injection Hrun as <- <-. exists [], 0%nat.
    split; [rewrite app_nil_r; reflexivity|]. cbn. repeat split; lia.
  - cbn [enumerate_from for_chunks] in Hrun. unfold bind in Hrun.
    destruct (chunk_iteration E n i0 c acc w) as [r1 w1] eqn:Hit.
    apply chunk_iteration_counts in Hit
      as (evs1 & Htr1 & Hp1 & Hsp1 & Hr1 & Hc1 & Hok1).
    destruct r1 as [res1|e1].
    + apply IH in Hrun
        as (evs2 & m & Htr2 & Hm & Hp2 & Hsp2 & Hsame & Hr2 & Hc2 & Hpost).
      exists (evs1 ++ evs2), (S m).
      split; [rewrite Htr2, Htr1, app_assoc; reflexivity|].
      split; [cbn [length]; lia|].
      split.
      { rewrite progress_shown_app, Hp1, Hp2. cbn [seq map app].
        f_equal; [f_equal; lia|].
        rewrite <- seq_shift, map_map. apply map_ext. intros j. f_equal; lia. }
      split.
      { intros _. destruct m as [|m'].
        - rewrite (Hsame eq_refl), Hsp1. f_equal; lia.
        - rewrite Hsp2 by lia. f_equal; lia. }
      split; [intros Habs; discriminate Habs|].
      rewrite requests_app, creations_app.
      split; [lia|]. split; [lia|].
      destruct r; [destruct Hpost as [-> Hc]; split; [reflexivity|lia]|lia].
    + injection Hrun as <- <-. exists evs1, 1%nat.
      split; [exact Htr1|]. split; [cbn [length]; lia|].
      split; [rewrite Hp1; cbn; do 2 f_equal; lia|].
      split; [intros _; rewrite Hsp1; f_equal; lia|].
      split; [intros Habs; discriminate Habs|].
      repeat split; lia.
Qed.

End LoopShape.

(** ** The whole job, in full *)

Section JobShape.
Variable E : Env.

Lemma process_long_audio_counts file_path w chunks w0 :
  split_audio E file_path 2 w = (Ok chunks, w0) ->
  exists rb wb t w' evs (m : nat),
    process_long_audio_body E file_path w = (rb, wb)
    /\ process_long_audio E file_path w = (Ok t, w')
    /\ trace w' = trace w ++ evs
    /\ (m <= length chunks)%nat
    /\ progress_shown evs
       = match chunks with
         | [] => []
         | _ :: _ =>
             (0, 1) :: map (fun j => (Z.of_nat j + 1, Z.of_nat (length chunks))) (seq 0 m)
         end
    /\ (requests evs <= 3 * m)%nat
    /\ (creations evs <= m)%nat
    /\ match rb with
       | Ok tb =>
           t = tb /\ w' = wb /\ m = length chunks /\ creations evs = m
           /\ ((1 <= m)%nat ->
               session_progress w' = (Z.of_nat m, Z.of_nat (length chunks)))
       | Raise e =>
           t = "" /\ (1 <= m)%nat
           /\ last evs = Some (StError ("Processing error: " +:+ exn_str e))
       end.
Proof.
  intros Hsplit.
  destruct (split_audio_2_frame E _ _ _ _ Hsplit)
    as (_ & _ & _ & _ & _ & evs0 & Htr0 & Hq0).
  assert (H0 : progress_shown evs0 = [] /\ requests evs0 = 0%nat /\ creations evs0 = 0%nat).
  { rewrite split_audio_2 in Hsplit.
    destruct (from_file E file_path); injection Hsplit as _ <-;
      cbn [trace with_trace] in Htr0.
    - apply app_inv_head in Htr0. subst evs0. repeat split.
    - rewrite <- (app_nil_r (trace w)) in Htr0 at 1.
      apply app_inv_head in Htr0. subst evs0. repeat split. }
  destruct H0 as (Hp0 & Hr0 & Hc0).
  rewrite process_long_audio_eq, process_long_audio_body_eq, Hsplit.
  destruct chunks as [|c cs].
  - exists (Ok ""), w0, "", w0, evs0, 0%nat.
    split; [reflexivity|]. split; [reflexivity|]. split; [exact Htr0|].
    split; [cbn; lia|]. split; [exact Hp0|].
    split; [lia|]. split; [lia|].
    repeat split; [exact Hc0|lia].
  - destruct (for_chunks E (Z.of_nat (length (c :: cs))) (enumerate (c :: cs)) []
                (with_trace (trace w0 ++ [StProgress 0 1]) w0)) as [r1 w1] eqn:Hloop.
    unfold enumerate in Hloop.
    apply for_chunks_counts in Hloop
      as (evs1 & m & Htr1 & Hm & Hp1 & Hsp1 & _ & Hr1 & Hc1 & Hpost).
    cbn [trace with_trace] in Htr1.
    assert (Htr : trace w1 = trace w ++ (evs0 ++ [StProgress 0 1]) ++ evs1)
      by (rewrite Htr1, Htr0, <- !app_assoc; reflexivity).
    assert (Hp : progress_shown ((evs0 ++ [StProgress 0 1]) ++ evs1)
                 = (0, 1) :: map (fun j => (Z.of_nat j + 1, Z.of_nat (length (c :: cs))))
                               (seq 0 m)).
    { rewrite !progress_shown_app, Hp0, Hp1. cbn [app progress_shown omap].
      f_equal. }
    assert (Hr : (requests ((evs0 ++ [StProgress 0 1]) ++ evs1) <= 3 * m)%nat)
      by (rewrite !requests_app, Hr0; cbn; lia).
    assert (Hc : creations ((evs0 ++ [StProgress 0 1]) ++ evs1) = creations evs1)
      by (rewrite !creations_app, Hc0; cbn; lia).
    destruct r1 as [res|e].
    + eexists _, _, _, _, _, m.
      split; [reflexivity|]. split; [reflexivity|]. split; [exact Htr|].
      split; [exact Hm|]. split; [exact Hp|]. split; [exact Hr|].
      split; [rewrite Hc; exact Hc1|].
      destruct Hpost as [-> Hcm].
      split; [reflexivity|]. split; [reflexivity|]. split; [reflexivity|].
      split; [rewrite Hc; exact Hcm|].
      intros H1. rewrite (Hsp1 H1). f_equal.
    + exists (Raise e), w1, "",
        (with_trace (trace w1 ++ [StError ("Processing error: " +:+ exn_str e)]) w1),
        (((evs0 ++ [StProgress 0 1]) ++ evs1)
         ++ [StError ("Processing error: " +:+ exn_str e)]), m.
      split; [reflexivity|]. split; [reflexivity|].
      split; [cbn [trace with_trace]; rewrite Htr, <- !app_assoc; reflexivity|].
      split; [exact Hm|].
      split; [rewrite progress_shown_app, Hp; cbn; rewrite app_nil_r; reflexivity|].
      split; [rewrite requests_app; cbn; lia|].
      split; [rewrite creations_app, Hc; cbn; lia|].
      split; [reflexivity|]. split; [exact Hpost|]. apply last_snoc.
Qed.

End JobShape.

(** X7.  For a source that splits into [N >= 1] chunks, [process_long_audio]
    first shows an empty progress bar and then the fractions [1/N], [2/N],
    ... one per chunk started, in order and never beyond [N/N].  In a run
    that no exception aborts, all [N] fractions are shown and the progress
    kept in the session state ends at [N/N]. *)
Theorem progress_is_reported_per_chunk (E : Env) (file_path : string) (w : world)
    (chunks : list AudioSegment) (w0 : world) :
  split_audio E file_path 2 w = (Ok chunks, w0) ->
  (1 <= length chunks)%nat ->
  exists t w' evs (m : nat),
    process_long_audio E file_path w = (Ok t, w')
    /\ trace w' = trace w ++ evs
    /\ (1 <= m <= length chunks)%nat
    /\ progress_shown evs
       = (0, 1) :: map (fun j => (Z.of_nat j + 1, Z.of_nat (length chunks))) (seq 0 m)
    /\ (forall tb wb,
          process_long_audio_body E file_path w = (Ok tb, wb) ->
          m = length chunks
          /\ session_progress w' = (Z.of_nat (length chunks), Z.of_nat (length chunks))).
Proof.
  intros Hsplit HN.
  destruct (process_long_audio_counts E _ _ _ _ Hsplit)
    as (rb & wb & t & w' & evs & m & Hbody & Hrun & Htr & Hm & Hp & _ & _ & Hpost).
  exists t, w', evs, m. split; [exact Hrun|]. split; [exact Htr|].
  destruct chunks as [|c cs]; [cbn in HN; lia|].
  assert (H1 : (1 <= m)%nat).
  { destruct rb; [destruct Hpost as (_ & _ & -> & _); exact HN|].
    destruct Hpost as (_ & H1 & _). exact H1. }
  split; [lia|]. split; [exact Hp|].
  intros tb wb' Hok. rewrite Hok in Hbody. injection Hbody as <- <-.
  destruct Hpost as (_ & _ & -> & _ & Hsp). split; [reflexivity|].
  apply Hsp. exact HN.
Qed.

(** X8.  Whatever the outside does, a job over [N] chunks sends at most
    [3 * N] requests to the service and creates at most [N] temp files;
    in a run that no exception aborts it creates exactly [N]. *)
Theorem process_long_audio_effort (E : Env) (file_path : string) (w : world)
    (chunks : list AudioSegment) (w0 : world) :
  split_audio E file_path 2 w = (Ok chunks, w0) ->
  exists t w' evs,
    process_long_audio E file_path w = (Ok t, w')
    /\ trace w' = trace w ++ evs
    /\ (requests evs <= 3 * length chunks)%nat
    /\ (creations evs <= length chunks)%nat
    /\ (forall tb wb,
          process_long_audio_body E file_path w = (Ok tb, wb) ->
          creations evs = length chunks).
Proof.
  intros Hsplit.
  destruct (process_long_audio_counts E _ _ _ _ Hsplit)
    as (rb & wb & t & w' & evs & m & Hbody & Hrun & Htr & Hm & _ & Hr & Hc & Hpost).
  exists t, w', evs. split; [exact Hrun|]. split; [exact Htr|].
  split; [lia|]. split; [lia|].
  intros tb wb' Hok. rewrite Hok in Hbody. injection Hbody as <- <-.
  destruct Hpost as (_ & _ & <- & Hcm & _). exact Hcm.
Qed.

(** ** A temp-name supply that works *)

Section FreshNames.
Variable E : Env.
Variable names : nat -> string.
Variable fs0 : gset string.
Variable k0 : nat.
Hypothesis Hnames : forall k, tempfile_name E k = inr (names k).
Hypothesis Hdistinct :
  forall k k', names k +:+ ".mp3" = names k' +:+ ".mp3" -> k = k'.
Hypothesis Hfresh : forall k, (k0 <= k)%nat -> names k +:+ ".mp3" ∉ fs0.

Lemma fresh_name_not_on_disk w :
  only_temp_files names fs0 k0 w -> names (n_tempfile w) +:+ ".mp3" ∉ fs w.
Proof.
  intros [Hk Hinv] Hin. destruct (Hinv _ Hin) as [H0|(k & Hlt & Heq)].
  - exact (Hfresh _ Hk H0).
  - apply Hdistinct in Heq. lia.
Qed.

Lemma chunk_iteration_fresh n i chunk acc w r w1 :
  only_temp_files names fs0 k0 w ->
  chunk_iteration E n i chunk acc w = (r, w1) ->
  only_temp_files names fs0 k0 w1
  /\ n_tempfile w1 = S (n_tempfile w)
  /\ match export_outcome E (n_export w) with
     | None =>
         r = Ok (acc ++ [chunk_text E (n_transcribe w)])
         /\ n_export w1 = S (n_export w)
         /\ n_transcribe w1 = S (n_transcribe w)
         /\ n_safe_delete w1 = S (n_safe_delete w)
     | Some e =>
         r = Raise e
         /\ names (n_tempfile w) +:+ ".mp3" ∈ fs w1
         /\ n_safe_delete w1 = n_safe_delete w
         /\ n_transcribe w1 = n_transcribe w
         /\ last (trace w1) = Some (TempCreated (names (n_tempfile w) +:+ ".mp3"))
     end.
Proof.
  intros Hinv Hit. pose proof (fresh_name_not_on_disk w Hinv) as Hnew.
  destruct Hinv as [Hk Hinv].
  apply chunk_iteration_shape in Hit. cbn zeta in Hit.
  destruct Hit as (_ & Hnt & Hcase). rewrite Hnames in Hcase.
  assert (Hgrow : fs w1 ⊆ {[names (n_tempfile w) +:+ ".mp3"]} ∪ fs w ->
                  only_temp_files names fs0 k0 w1).
  { intros Hsub. split; [lia|]. intros q Hq. apply Hsub in Hq.
    apply elem_of_union in Hq as [Hq|Hq].
    - apply elem_of_singleton in Hq. right. exists (n_tempfile w). split; [lia|exact Hq].
    - destruct (Hinv q Hq) as [H0|(k & Hlt & Heq)]; [left; exact H0|].
      right. exists k. split; [lia|exact Heq]. }
  destruct r as [res|e].
  - destruct Hcase as (name & evsT & [= <-] & _ & Hexp & -> & _ & _ & _ & _ & Hfs & Hne & Hntr & Hnd).
    split; [apply Hgrow; rewrite Hfs;
            destruct (fst (delete_run E (n_safe_delete w) (names (n_tempfile w) +:+ ".mp3")));
            set_solver|].
    split; [exact Hnt|]. rewrite Hexp. repeat split; assumption.
  - destruct Hcase as (Hntr & Hnd & [(_ & _ & _ & Habs)|(name & [= <-] & _ & Hexp & Htr & Hfs & _)]);
      [contradiction|].
    split; [apply Hgrow; rewrite Hfs; set_solver|].
    split; [exact Hnt|]. rewrite Hexp.
    split; [reflexivity|]. split; [rewrite Hfs; set_solver|].
    split; [exact Hnd|]. split; [exact Hntr|].
    rewrite Htr, !app_assoc. apply last_snoc.
Qed.

Lemma for_chunks_completes n : forall chunks i0 acc w,
  only_temp_files names fs0 k0 w ->
  (forall j, (j < length chunks)%nat -> export_outcome E (n_export w + j) = None) ->
  exists res w',
    for_chunks E n (enumerate_from i0 chunks) acc w = (Ok res, w')
    /\ only_temp_files names fs0 k0 w'.
Proof.
  induction chunks as [|c chunks IH]; intros i0 acc w Hinv Hexp.
  - exists acc, w. split; [reflexivity|exact Hinv].
  - cbn [enumerate_from for_chunks]. unfold bind.
    destruct (chunk_iteration E n i0 c acc w) as [r1 w1] eqn:Hit.
    destruct (chunk_iteration_fresh _ _ _ _ _ _ _ Hinv Hit) as (Hinv1 & _ & Hcase).
    pose proof (Hexp 0%nat ltac:(cbn [length]; lia)) as H0.
    rewrite Nat.add_0_r in H0. rewrite H0 in Hcase.
    destruct Hcase as (-> & Hne & _).
    apply IH; [exact Hinv1|].
    intros j Hj. rewrite Hne. replace (S (n_export w) + j)%nat with (n_export w + S j)%nat by lia.
    apply Hexp. cbn [length]. lia.
Qed.

Lemma for_chunks_export_failure n : forall chunks (i : nat) i0 acc w e,
  only_temp_files names fs0 k0 w ->
  (i < length chunks)%nat ->
  (forall j, (j < i)%nat -> export_outcome E (n_export w + j) = None) ->
  export_outcome E (n_export w + i) = Some e ->
  exists w',
    for_chunks E n (enumerate_from i0 chunks) acc w = (Raise e, w')
    /\ names (n_tempfile w + i) +:+ ".mp3" ∈ fs w'
    /\ n_safe_delete w' = (n_safe_delete w + i)%nat
    /\ n_transcribe w' = (n_transcribe w + i)%nat
    /\ last (trace w') = Some (TempCreated (names (n_tempfile w + i) +:+ ".mp3")).
Proof.
  induction chunks as [|c chunks IH]; intros i i0 acc w e Hinv Hi Hok Hfail;
    [cbn in Hi; lia|].
  cbn [enumerate_from for_chunks]. unfold bind.
  destruct (chunk_iteration E n i0 c acc w) as [r1 w1] eqn:Hit.
  destruct (chunk_iteration_fresh _ _ _ _ _ _ _ Hinv Hit) as (Hinv1 & Hnt & Hcase).
  destruct i as [|i].
  - rewrite Nat.add_0_r in Hfail. rewrite Hfail in Hcase.
    destruct Hcase as (-> & Hin & Hnd & Hntr & Hlast).
    exists w1. rewrite !Nat.add_0_r. repeat split; assumption.
  - pose proof (Hok 0%nat ltac:(lia)) as H0.
    rewrite Nat.add_0_r in H0. rewrite H0 in Hcase.
    destruct Hcase as (-> & Hne & Hntr & Hnd).
    destruct (IH i (i0 + 1) (acc ++ [chunk_text E (n_transcribe w)]) w1 e Hinv1)
      as (w' & Hrun & Hin & Hnd' & Hntr' & Hlast).
    + cbn [length] in Hi. lia.
    + intros j Hj. rewrite Hne.
      replace (S (n_export w) + j)%nat with (n_export w + S j)%nat by lia.
      apply Hok. lia.
    + rewrite Hne. replace (S (n_export w) + i)%nat with (n_export w + S i)%nat by lia.
      exact Hfail.
    + exists w'. split; [exact Hrun|].
      rewrite Hnt in Hin, Hlast.
      replace (S (n_tempfile w) + i)%nat with (n_tempfile w + S i)%nat in Hin, Hlast by lia.
      repeat split; [exact Hin|lia|lia|exact Hlast].
Qed.

End FreshNames.

(** ** Strings *)

Lemma string_length_app (a b : string) :
  String.length (a +:+ b) = (String.length a + String.length b)%nat.
Proof.
  induction a as [|c a IH]; [reflexivity|].
  change (String c a +:+ b) with (String c (a +:+ b)). cbn [String.length].
  rewrite IH. reflexivity.
Qed.

Lemma string_app_inj_r (s a b : string) : a +:+ s = b +:+ s -> a = b.
Proof.
  revert b. induction a as [|c a IH]; intros [|d b] H.
  - reflexivity.
  - apply (f_equal String.length) in H. rewrite !string_length_app in H.
    cbn [String.length] in H. lia.
  - apply (f_equal String.length) in H. rewrite !string_length_app in H.
    cbn [String.length] in H. lia.
  - change (String c (a +:+ s) = String d (b +:+ s)) in H.
    injection H as -> H. f_equal. apply IH. exact H.
Qed.

Lemma studio_names_distinct k k' :
  studio_name k +:+ ".mp3" = studio_name k' +:+ ".mp3" -> k = k'.
Proof.
  intros H. apply string_app_inj_r in H. unfold studio_name in H.
  apply (inj (String.app "/tmp/tmp")) in H.
  apply (inj pretty) in H. exact H.
Qed.

(** ** Witnesses of the properties of [transcribe_chunk] *)

Lemma transcribe_chunk_first_success_witness :
  exists evs,
    transcribe_chunk flaky "/tmp/tmp0.mp3" 3 chunk_on_disk
    = (Ok "part 0",
       with_trace (trace chunk_on_disk ++ evs)
         (with_n_transcribe (S (n_transcribe chunk_on_disk)) chunk_on_disk))
    /\ requests evs = 2%nat
    /\ sleeps evs = [5].
Proof.
  assert (Hin : "/tmp/tmp0.mp3" ∈ fs chunk_on_disk)
    by (apply (bool_decide_unpack _); vm_compute; exact I).
  assert (Ha : (1 < Z.to_nat 3)%nat) by (vm_compute; lia).
  assert (Hfail : forall j, (j < 1)%nat ->
            exists e, remote flaky (n_transcribe chunk_on_disk) j = inl e).
  { intros j Hj. exists rate_limited. destruct j; [reflexivity|lia]. }
  assert (Hok : remote flaky (n_transcribe chunk_on_disk) 1 = inr "part 0")
    by (vm_compute; reflexivity).
  destruct (transcribe_chunk_first_success flaky "/tmp/tmp0.mp3" 3 chunk_on_disk 1
              "part 0" Hin Ha Hfail Hok) as (evs & Hrun & _ & Hreq & Hsl & _).
  exists evs. split; [exact Hrun|]. split; [exact Hreq|exact Hsl].
Defined.

Lemma transcribe_chunk_missing_file_witness :
  transcribe_chunk studio "/tmp/gone.mp3" 3 fresh_world
  = (Ok "",
     with_trace
       [StWarning "Retrying chunk in 5s..."; TimeSleep 5;
        StWarning "Retrying chunk in 10s..."; TimeSleep 10;
        StError "Chunk failed: [Errno 2] No such file or directory: '/tmp/gone.mp3'"]
       (with_n_transcribe 1 fresh_world)).
Proof.
  assert (Hplain : plain_path "/tmp/gone.mp3" = true) by reflexivity.
  assert (Hout : "/tmp/gone.mp3" ∉ fs fresh_world) by apply not_elem_of_empty.
  assert (Hr : 1 <= 3) by lia.
  rewrite (transcribe_chunk_missing_file studio "/tmp/gone.mp3" 3 fresh_world
             Hplain Hout Hr).
  vm_compute. reflexivity.
Defined.

(** ** Witnesses of the progress and effort properties *)

Lemma progress_is_reported_per_chunk_witness :
  exists t w' evs,
    process_long_audio studio "talk.mp3" fresh_world = (Ok t, w')
    /\ trace w' = trace fresh_world ++ evs
    /\ progress_shown evs = [(0, 1); (1, 2); (2, 2)]
    /\ session_progress w' = (2, 2).
Proof.
  assert (Hsplit : split_audio studio "talk.mp3" 2 fresh_world
                   = (Ok (windows (silence 150000) 120000), fresh_world))
    by (rewrite split_audio_2; reflexivity).
  assert (HL : length (windows (silence 150000) 120000) = 2%nat)
    by (vm_compute; reflexivity).
  assert (HN : (1 <= length (windows (silence 150000) 120000))%nat)
    by (rewrite HL; lia).
  assert (Hbody : process_long_audio_body studio "talk.mp3" fresh_world
                  = (Ok (String.concat paragraph_separator ["part 0"; "part 1"]),
                     snd (process_long_audio_body studio "talk.mp3" fresh_world)))
    by run_result.
  destruct (progress_is_reported_per_chunk _ _ _ _ _ Hsplit HN)
    as (t & w' & evs & m & Hrun & Htr & _ & Hp & Hdone).
  destruct (Hdone _ _ Hbody) as [Hm Hsp].
  exists t, w', evs. split; [exact Hrun|]. split; [exact Htr|].
  rewrite Hm, HL in Hp. rewrite HL in Hsp.
  split; [exact Hp|exact Hsp].
Defined.

Lemma process_long_audio_effort_witness :
  exists t w' evs,
    process_long_audio studio "talk.mp3" fresh_world = (Ok t, w')
    /\ trace w' = trace fresh_world ++ evs
    /\ (requests evs <= 6)%nat
    /\ creations evs = 2%nat.
Proof.
  assert (Hsplit : split_audio studio "talk.mp3" 2 fresh_world
                   = (Ok (windows (silence 150000) 120000), fresh_world))
    by (rewrite split_audio_2; reflexivity).
  assert (HL : length (windows (silence 150000) 120000) = 2%nat)
    by (vm_compute; reflexivity).
  assert (Hbody : process_long_audio_body studio "talk.mp3" fresh_world
                  = (Ok (String.concat paragraph_separator ["part 0"; "part 1"]),
                     snd (process_long_audio_body studio "talk.mp3" fresh_world)))
    by run_result.
  destruct (process_long_audio_effort _ _ _ _ _ Hsplit)
    as (t & w' & evs & Hrun & Htr & Hreq & _ & Hdone).
  pose proof (Hdone _ _ Hbody) as Hc.
  exists t, w', evs. split; [exact Hrun|]. split; [exact Htr|].
  rewrite HL in Hreq, Hc. split; [exact Hreq|exact Hc].
Defined.

(** ** The job and the disk *)

Lemma alive_after_origin q : forall evs s,
  q ∈ alive_after s evs -> q ∈ s \/ TempCreated q ∈ evs.
Proof.
  induction evs as [|e evs IH]; intros s Hq; [left; exact Hq|].
  cbn [alive_after foldl] in Hq. apply IH in Hq as [Hq|Hq].
  - destruct e; cbn [alive_step] in Hq;
      try (left; exact Hq).
    + apply elem_of_union in Hq as [Hq|Hq]; [|left; exact Hq].
      apply elem_of_singleton in Hq. subst. right. left.
    + left. set_solver.
  - right. right. exact Hq.
Qed.

(** A run of [process_long_audio], whatever the outside does: it returns,
    and its trace tells what it left on disk. *)
Lemma process_long_audio_disk E file_path w :
  exists t w' evs,
    process_long_audio E file_path w = (Ok t, w')
    /\ trace w' = trace w ++ evs
    /\ fs w' = fs w ∪ alive_after ∅ evs
    /\ (forall tb wb,
          process_long_audio_body E file_path w = (Ok tb, wb) ->
          (size (alive_after ∅ evs) <= delete_warnings evs)%nat).
Proof.
  assert (Hsplit : exists chunks w0, split_audio E file_path 2 w = (Ok chunks, w0)).
  { rewrite split_audio_2. destruct (from_file E file_path); eauto. }
  destruct Hsplit as (chunks & w0 & Hsplit).
  destruct (process_long_audio_body E file_path w) as [rb wb] eqn:Hbody.
  destruct (process_long_audio_body_run E _ _ _ _ _ _ Hsplit Hbody)
    as (evs & Htr & _ & Hfs & Hpost).
  rewrite process_long_audio_eq, Hbody.
  destruct rb as [t|e].
  - exists t, wb, evs. split; [reflexivity|]. split; [exact Htr|].
    split; [exact Hfs|]. intros tb wb' _. destruct Hpost as (_ & _ & Hsize). exact Hsize.
  - eexists "", _, (evs ++ [_]). split; [reflexivity|].
    cbn [trace fs with_trace].
    split; [rewrite Htr, <- app_assoc; reflexivity|].
    split; [rewrite alive_after_app; exact Hfs|].
    intros tb wb' Hok. discriminate Hok.
Qed.

(** X9.  [process_long_audio] never raises and never removes a file that was
    there before it started: the files after the run are those before it
    and, possibly, temp files the run itself created.  When the [try] block
    completes and no deletion warning was shown, the disk is exactly as
    before. *)
Theorem process_long_audio_keeps_files (E : Env) (file_path : string) (w : world) :
  exists t w' evs,
    process_long_audio E file_path w = (Ok t, w')
    /\ trace w' = trace w ++ evs
    /\ fs w ⊆ fs w'
    /\ (forall q, q ∈ fs w' -> q ∉ fs w -> TempCreated q ∈ evs)
    /\ (forall tb wb,
          process_long_audio_body E file_path w = (Ok tb, wb) ->
          delete_warnings evs = 0%nat -> fs w' = fs w).
Proof.
  destruct (process_long_audio_disk E file_path w)
    as (t & w' & evs & Hrun & Htr & Hfs & Hsize).
  exists t, w', evs. split; [exact Hrun|]. split; [exact Htr|].
  split; [rewrite Hfs; apply union_subseteq_l|].
  split.
  - intros q Hq Hnew. rewrite Hfs in Hq. apply elem_of_union in Hq as [Hq|Hq];
      [contradiction|].
    apply alive_after_origin in Hq as [Hq|Hq]; [|exact Hq].
    exfalso. exact (not_elem_of_empty q Hq).
  - intros tb wb Hok Hdw. pose proof (Hsize tb wb Hok) as Hle.
    rewrite Hdw in Hle.
    assert (Hempty : alive_after ∅ evs = ∅).
    { apply leibniz_equiv, size_empty_inv. lia. }
    rewrite Hfs, Hempty. apply leibniz_equiv. apply (right_id ∅ (∪)).
Qed.

(** X10.  With a temp-name supply that hands out fresh, pairwise distinct
    names and exports that succeed, no failure of the transcription service
    or of [os.unlink] aborts the job: the [try] block completes and the
    result has one entry per chunk, the text [transcribe_chunk] got for it
    (the empty string for a chunk whose three requests failed). *)
Theorem job_completes_despite_service_failures (E : Env) (names : nat -> string)
    (file_path : string) (audio : AudioSegment) (w : world) :
  from_file E file_path = inr audio ->
  (forall k, tempfile_name E k = inr (names k)) ->
  (forall k k', names k +:+ ".mp3" = names k' +:+ ".mp3" -> k = k') ->
  (forall k, (n_tempfile w <= k)%nat -> names k +:+ ".mp3" ∉ fs w) ->
  (forall j, (j < length (windows audio 120000))%nat ->
     export_outcome E (n_export w + j) = None) ->
  exists w',
    process_long_audio_body E file_path w
    = (Ok (String.concat paragraph_separator
             (map (fun j => chunk_text E (n_transcribe w + j))
                  (seq 0 (length (windows audio 120000))))), w')
    /\ process_long_audio E file_path w
       = (Ok (String.concat paragraph_separator
                (map (fun j => chunk_text E (n_transcribe w + j))
                     (seq 0 (length (windows audio 120000))))), w').
Proof.
  intros Hfile Hnames Hdistinct Hfresh Hexp.
  assert (Hsplit : split_audio E file_path 2 w = (Ok (windows audio 120000), w))
    by (rewrite split_audio_2, Hfile; reflexivity).
  destruct (process_long_audio_body E file_path w) as [rb wb] eqn:Hbody.
  assert (Hok : exists tb, rb = Ok tb).
  { rewrite process_long_audio_body_eq, Hsplit in Hbody.
    destruct (windows audio 120000) as [|c cs] eqn:Hwin.
    - injection Hbody as <- _. eauto.
    - destruct (for_chunks_completes E names (fs w) (n_tempfile w)
                  Hnames Hdistinct Hfresh
                  (Z.of_nat (length (c :: cs))) (c :: cs) 0 []
                  (with_trace (trace w ++ [StProgress 0 1]) w))
        as (res & w1 & Hloop & _).
      + split; [cbn [n_tempfile with_trace]; lia|].
        intros q Hq. left. exact Hq.
      + exact Hexp.
      + unfold enumerate in Hbody. rewrite Hloop in Hbody.
        injection Hbody as <- _. eauto. }
  destruct Hok as [tb ->].
  destruct (process_long_audio_body_run E _ _ _ _ _ _ Hsplit Hbody)
    as (evs & _ & _ & _ & Ht & _).
  subst tb. exists wb. split; [reflexivity|].
  rewrite process_long_audio_eq, Hbody. reflexivity.
Qed.

Lemma job_completes_despite_service_failures_witness :
  exists w',
    process_long_audio service_down_second "talk.mp3" fresh_world
    = (Ok ("part 0" +:+ paragraph_separator), w').
Proof.
  assert (Hfile : from_file service_down_second "talk.mp3" = inr (silence 150000))
    by reflexivity.
  assert (Hnames : forall k, tempfile_name service_down_second k = inr (studio_name k))
    by (intros k; reflexivity).
  assert (Hfresh : forall k, (n_tempfile fresh_world <= k)%nat ->
                     studio_name k +:+ ".mp3" ∉ fs fresh_world)
    by (intros k _; apply not_elem_of_empty).
  assert (Hexp : forall j, (j < length (windows (silence 150000) 120000))%nat ->
                   export_outcome service_down_second (n_export fresh_world + j) = None)
    by (intros j _; reflexivity).
  destruct (job_completes_despite_service_failures service_down_second studio_name
              "talk.mp3" (silence 150000) fresh_world
              Hfile Hnames studio_names_distinct Hfresh Hexp) as (w' & _ & Hrun).
  match type of Hrun with
  | _ = (Ok ?T, _) =>
      assert (HT : T = "part 0" +:+ paragraph_separator) by (vm_compute; reflexivity);
      rewrite HT in Hrun
  end.
  exists w'. exact Hrun.
Defined.

(** X11.  With the same temp-name supply, if the export of chunk [i] is the
    first to fail, the job stops there: the exception leaves the loop,
    [process_long_audio] reports it and returns the empty string, the temp
    file of chunk [i] stays on disk and [safe_delete] is never called for
    it (it was called for the [i] chunks before), and no deletion warning
    tells of the file left behind. *)
Theorem export_failure_leaks_temp_file (E : Env) (names : nat -> string)
    (file_path : string) (audio : AudioSegment) (w : world) (i : nat) (e : exn) :
  from_file E file_path = inr audio ->
  (forall k, tempfile_name E k = inr (names k)) ->
  (forall k k', names k +:+ ".mp3" = names k' +:+ ".mp3" -> k = k') ->
  (forall k, (n_tempfile w <= k)%nat -> names k +:+ ".mp3" ∉ fs w) ->
  (i < length (windows audio 120000))%nat ->
  (forall j, (j < i)%nat -> export_outcome E (n_export w + j) = None) ->
  export_outcome E (n_export w + i) = Some e ->
  exists wb,
    process_long_audio_body E file_path w = (Raise e, wb)
    /\ process_long_audio E file_path w
       = (Ok "", with_trace (trace wb ++ [StError ("Processing error: " +:+ exn_str e)]) wb)
    /\ (names (n_tempfile w + i)%nat +:+ ".mp3" ∈ fs wb)
    /\ (names (n_tempfile w + i)%nat +:+ ".mp3" ∉ fs w)
    /\ n_safe_delete wb = (n_safe_delete w + i)%nat
    /\ n_transcribe wb = (n_transcribe w + i)%nat
    /\ last (trace wb) = Some (TempCreated (names (n_tempfile w + i)%nat +:+ ".mp3")).
Proof.
  intros Hfile Hnames Hdistinct Hfresh Hi Hok Hfail.
  assert (Hsplit : split_audio E file_path 2 w = (Ok (windows audio 120000), w))
    by (rewrite split_audio_2, Hfile; reflexivity).
  rewrite process_long_audio_eq, process_long_audio_body_eq, Hsplit.
  destruct (windows audio 120000) as [|c cs] eqn:Hwin; [cbn in Hi; lia|].
  destruct (for_chunks_export_failure E names (fs w) (n_tempfile w)
              Hnames Hdistinct Hfresh
              (Z.of_nat (length (c :: cs))) (c :: cs) i 0 []
              (with_trace (trace w ++ [StProgress 0 1]) w) e)
    as (wb & Hloop & Hin & Hnd & Hnt & Hlast).
  - split; [cbn [n_tempfile with_trace]; lia|]. intros q Hq. left. exact Hq.
  - exact Hi.
  - exact Hok.
  - exact Hfail.
  - unfold enumerate. rewrite Hloop. exists wb.
    split; [reflexivity|]. split; [reflexivity|]. split; [exact Hin|].
    split; [apply Hfresh; lia|].
    split; [exact Hnd|]. split; [exact Hnt|exact Hlast].
Qed.

Lemma export_failure_leaks_temp_file_witness :
  exists wb,
    process_long_audio_body export_fails_second "talk.mp3" fresh_world
    = (Raise disk_full, wb)
    /\ ("/tmp/tmp1.mp3" ∈ fs wb)
    /\ n_safe_delete wb = 1%nat.
Proof.
  assert (Hfile : from_file export_fails_second "talk.mp3" = inr (silence 150000))
    by reflexivity.
  assert (Hnames : forall k, tempfile_name export_fails_second k = inr (studio_name k))
    by (intros k; reflexivity).
  assert (Hfresh : forall k, (n_tempfile fresh_world <= k)%nat ->
                     studio_name k +:+ ".mp3" ∉ fs fresh_world)
    by (intros k _; apply not_elem_of_empty).
  assert (Hi : (1 < length (windows (silence 150000) 120000))%nat)
    by (vm_compute; lia).
  assert (Hok : forall j, (j < 1)%nat ->
                  export_outcome export_fails_second (n_export fresh_world + j) = None).
  { intros j Hj. destruct j; [reflexivity|lia]. }
  assert (Hfail : export_outcome export_fails_second (n_export fresh_world + 1)
                  = Some disk_full) by reflexivity.
  destruct (export_failure_leaks_temp_file export_fails_second studio_name
              "talk.mp3" (silence 150000) fresh_world 1 disk_full
              Hfile Hnames studio_names_distinct Hfresh Hi Hok Hfail)
    as (wb & Hbody & _ & Hin & _ & Hnd & _).
  exists wb. split; [exact Hbody|]. split; [exact Hin|exact Hnd].
Defined.

(** * Which audio each paragraph comes from *)

(** The trace of a run, read for the two events that touch audio: writing a
    chunk to a path and sending that path to the service. *)

Lemma io_events_app l1 l2 : io_events (l1 ++ l2) = io_events l1 ++ io_events l2.
Proof. apply List.filter_app. Qed.

(** The retry loop on path [p] sends [p] and nothing else. *)
Lemma service_io p : forall evs,
  Forall (fun e => service_event p e = true) evs ->
  io_events evs = repeat (RemoteCall p) (requests evs).
Proof.
  induction evs as [|e evs IH]; intros Hall; [reflexivity|].
  apply Forall_cons in Hall as [He Hall]. specialize (IH Hall).
  unfold io_events, requests in *.
  destruct e; cbn in He; try discriminate He; cbn; try exact IH.
  apply String.eqb_eq in He. subst. rewrite IH. reflexivity.
Qed.

Lemma delete_run_io E k p : io_events (snd (delete_run E k p)) = [].
Proof.
  unfold delete_run.
  destruct (unlink_outcome E k 0) as [e|]; [|reflexivity].
  destruct (is_PermissionError e); [|reflexivity].
  destruct (unlink_outcome E k 1); reflexivity.
Qed.

(** A file that exists is sent at least once. *)
Lemma transcribe_chunk_3_requests E p w text evsT :
  p ∈ fs w ->
  transcribe_chunk E p 3 w
  = (Ok text, with_trace (trace w ++ evsT) (with_n_transcribe (S (n_transcribe w)) w)) ->
  (1 <= requests evsT)%nat.
Proof.
  intros Hin.
  unfold transcribe_chunk, bind, enter_transcribe_chunk.
  rewrite py_range_0_1_any. unfold lift, ret.
  change (map Z.of_nat (seq 0 (Z.to_nat 3))) with (0 :: [1; 2]).
  generalize [1; 2]. intros rest.
  set (w1 := with_n_transcribe (S (n_transcribe w)) w).
  assert (Hin1 : p ∈ fs w1) by exact Hin.
  cbn [for_attempts]. unfold bind. rewrite attempt_body_eq. cbn zeta.
  rewrite (bool_decide_eq_true_2 _ Hin1).
  destruct (remote E (n_transcribe w) (Z.to_nat 0)) as [e|t0].
  - change (0 <? 3 - 1) with true. cbn [fst snd].
    match goal with
    | |- context [for_attempts E ?k p 3 ?l ?W] =>
        destruct (for_attempts_effort E k p 3 l W) as (t' & evs' & Hrun & _);
        rewrite Hrun
    end.
    intros H. apply (f_equal snd) in H. cbn [snd] in H.
    apply (f_equal trace) in H. revert H. norm_world. intros Htr.
    rewrite <- ?app_assoc in Htr. apply app_inv_head in Htr. subst evsT.
    cbn. lia.
  - cbn [fst snd]. unfold ret.
    intros H. apply (f_equal snd) in H. cbn [snd] in H.
    apply (f_equal trace) in H. revert H. norm_world. intros Htr.
    apply app_inv_head in Htr. subst evsT. cbn. lia.
Qed.

Section Order.
Variable E : Env.

(** One completed iteration writes its chunk to a path of its own, sends
    that path between one and three times, and touches no other audio. *)
Lemma chunk_iteration_order n i chunk acc w res w' :
  chunk_iteration E n i chunk acc w = (Ok res, w') ->
  exists p c evs,
    trace w' = trace w ++ evs
    /\ io_events evs = chunk_io (p, c)
    /\ (1 <= c <= 3)%nat
    /\ exports w' = exports w ++ [(p, chunk)].
Proof.
  unfold chunk_iteration, set_session_progress.
  unfold bind, emit, NamedTemporaryFile, export, ret. cbn.
  destruct (tempfile_name E (n_tempfile w)) as [e|name]; [intros [=]|].
  set (p := name +:+ ".mp3").
  destruct (bool_decide (p ∈ fs w)) eqn:Hp; [intros [=]|].
  cbn.
  destruct (export_outcome E (n_export w)) as [e|] eqn:Hexp; [intros [=]|].
  cbn.
  match goal with
  | |- context [transcribe_chunk E p 3 ?W] =>
      destruct (transcribe_chunk_3 E p W) as (evsT & HT & Hs & Hreq & _);
        [cbn; set_solver|];
      pose proof (transcribe_chunk_3_requests E p W _ evsT
                    ltac:(cbn; set_solver) HT) as Hone;
      rewrite HT; clear HT
  end.
  cbn.
  match goal with
  | |- context [safe_delete E p ?W] =>
      rewrite (safe_delete_present E p W) by (cbn; set_solver)
  end.
  cbn.
  intros [= <- <-]. cbn.
  exists p, (requests evsT).
  eexists. split; [rewrite <- !app_assoc; reflexivity|].
  split; [|split; [lia|reflexivity]].
  rewrite !io_events_app, (service_io p evsT Hs), delete_run_io, app_nil_r.
  reflexivity.
Qed.

(** The loop: chunk after chunk, in the order of the list. *)
Lemma for_chunks_order n : forall chunks i0 acc w res w',
  for_chunks E n (enumerate_from i0 chunks) acc w = (Ok res, w') ->
  exists pcs evs,
    length pcs = length chunks
    /\ trace w' = trace w ++ evs
    /\ io_events evs = flat_map chunk_io pcs
    /\ Forall (fun pc => (1 <= snd pc <= 3)%nat) pcs
    /\ exports w' = exports w ++ zip (map fst pcs) chunks.
Proof.
  induction chunks as [|chunk rest IH]; intros i0 acc w res w' Hrun.
  - cbn in Hrun. injection Hrun as _ <-. exists [], [].
    rewrite !app_nil_r. repeat split. constructor.
  - cbn [enumerate_from for_chunks] in Hrun. unfold bind in Hrun.
    destruct (chunk_iteration E n i0 chunk acc w) as [[res1|e1] w1] eqn:Hit;
      [|discriminate Hrun].
    apply chunk_iteration_order in Hit as (p & c & evs1 & Htr1 & Hio1 & Hc & Hex1).
    apply IH in Hrun as (pcs & evs2 & Hlen & Htr2 & Hio2 & Hall & Hex2).
    exists ((p, c) :: pcs), (evs1 ++ evs2).
    split; [cbn; rewrite Hlen; reflexivity|].
    split; [rewrite Htr2, Htr1, <- app_assoc; reflexivity|].
    split; [rewrite io_events_app, Hio1, Hio2; reflexivity|].
    split; [constructor; [exact Hc|exact Hall]|].
    rewrite Hex2, Hex1, <- app_assoc. reflexivity.
Qed.

(** The whole [try] block. *)
Lemma process_long_audio_order file_path w chunks w0 t w' :
  split_audio E file_path 2 w = (Ok chunks, w0) ->
  process_long_audio_body E file_path w = (Ok t, w') ->
  (1 <= length chunks)%nat ->
  exists pcs evs,
    length pcs = length chunks
    /\ trace w' = trace w ++ evs
    /\ io_events evs = flat_map chunk_io pcs
    /\ Forall (fun pc => (1 <= snd pc <= 3)%nat) pcs
    /\ exports w' = exports w ++ zip (map fst pcs) chunks
    /\ n_transcribe w' = (n_transcribe w + length chunks)%nat.
Proof.
  intros Hsplit Hbody HN.
  assert (Hw0 : exists evs0, trace w0 = trace w ++ evs0 /\ io_events evs0 = []
                             /\ exports w0 = exports w
                             /\ n_transcribe w0 = n_transcribe w).
  { rewrite split_audio_2 in Hsplit.
    destruct (from_file E file_path) as [e|audio]; injection Hsplit as _ <-.
    - eexists. split; [reflexivity|]. repeat split.
    - exists []. rewrite app_nil_r. repeat split. }
  destruct Hw0 as (evs0 & Htr0 & Hio0 & Hex0 & Hn0).
  rewrite process_long_audio_body_eq, Hsplit in Hbody.
  destruct chunks as [|c0 cs]; [cbn in HN; lia|].
  cbv zeta in Hbody. unfold bind, emit in Hbody.
  match type of Hbody with
  | context [for_chunks E ?n ?ich ?acc ?W] =>
      destruct (for_chunks E n ich acc W) as [[res|e] w1] eqn:Hloop
  end; [|discriminate Hbody].
  injection Hbody as _ <-.
  pose proof (for_chunks_run E _ _ _ _ _ _ Hloop) as (evsR & _ & _ & _ & Hpost).
  cbn beta iota in Hpost. destruct Hpost as (_ & _ & Hnt & _).
  apply for_chunks_order in Hloop as (pcs & evs1 & Hlen & Htr1 & Hio1 & Hall & Hex1).
  revert Htr1 Hex1 Hnt. norm_world. intros Htr1 Hex1 Hnt.
  exists pcs, (evs0 ++ StProgress 0 1 :: evs1).
  split; [exact Hlen|].
  split; [rewrite Htr1, Htr0, <- !app_assoc; reflexivity|].
  split; [rewrite io_events_app, Hio0; exact Hio1|].
  split; [exact Hall|].
  split; [rewrite Hex1, Hex0; reflexivity|].
  rewrite Hnt, Hn0. f_equal. apply (length_enumerate_from (c0 :: cs)).
Qed.

End Order.

(** C2.  When the source splits into [N >= 1] chunks and no exception
    reaches the top-level handler, [process_long_audio] returns one entry
    per chunk, joined by the paragraph separator, entry [i] being the text
    of the [i]-th call of [transcribe_chunk] of the job.  A call on a file
    that exists returns the text of its call number, is counted once, and
    of all audio touches only its own file, which it sends between one and
    three times.  And the chunks are processed in sequence-index order: there are paths [p_0 .. p_(N-1)] such
    that the files written by [export] during the job are exactly chunk [0]
    to [p_0], then chunk [1] to [p_1], and so on, and the job's audio
    traffic is, for [i = 0 .. N-1] in this order, the export to [p_i]
    followed by between one and three requests for [p_i].  So the [i]-th
    call is the one that sends the file holding chunk [i], and it is over
    before chunk [i+1] is written: the loop makes its calls one after the
    other, none of them runs beside another. *)
Theorem process_long_audio_transcript (E : Env) (file_path : string) (w : world)
    (chunks : list AudioSegment) (w0 : world) (t : string) (w' : world) :
  split_audio E file_path 2 w = (Ok chunks, w0) ->
  (1 <= length chunks)%nat ->
  process_long_audio_body E file_path w = (Ok t, w') ->
  let results :=
    map (fun i => chunk_text E (n_transcribe w + i)) (seq 0 (length chunks)) in
  process_long_audio E file_path w
  = (Ok (String.concat paragraph_separator results), w')
  /\ length results = length chunks
  /\ (forall i, (i < length chunks)%nat ->
        results !! i = Some (chunk_text E (n_transcribe w + i)))
  /\ (forall p w1, p ∈ fs w1 ->
        exists evs c,
          transcribe_chunk E p 3 w1
          = (Ok (chunk_text E (n_transcribe w1)),
             with_trace (trace w1 ++ evs) (with_n_transcribe (S (n_transcribe w1)) w1))
          /\ io_events evs = repeat (RemoteCall p) c
          /\ (1 <= c <= 3)%nat)
  /\ (exists (sent : list (string * nat)) (evs : list event),
        length sent = length chunks
        /\ exports w' = exports w ++ zip (map fst sent) chunks
        /\ trace w' = trace w ++ evs
        /\ io_events evs = flat_map chunk_io sent
        /\ Forall (fun pc => (1 <= snd pc <= 3)%nat) sent
        /\ n_transcribe w' = (n_transcribe w + length chunks)%nat).
Proof.
  intros Hsplit HN Hbody results.
  destruct (process_long_audio_body_run E _ _ _ _ _ _ Hsplit Hbody)
    as (evs & _ & _ & _ & Ht & _).
  split; [rewrite process_long_audio_eq, Hbody, Ht; reflexivity|].
  split; [unfold results; rewrite length_map, length_seq; reflexivity|].
  split; [|split].
  - intros i Hi. unfold results. rewrite list_lookup_fmap.
    rewrite (lookup_seq_lt 0 (length chunks) i Hi). reflexivity.
  - intros p w1 Hp.
    destruct (transcribe_chunk_3 E p w1 Hp) as (evsT & HT & Hs & Hreq & _).
    pose proof (transcribe_chunk_3_requests E p w1 _ evsT Hp HT) as Hone.
    exists evsT, (requests evsT). split; [exact HT|].
    split; [apply service_io; exact Hs|lia].
  - destruct (process_long_audio_order E _ _ _ _ _ _ Hsplit Hbody HN)
      as (pcs & evs1 & Hlen & Htr & Hio & Hall & Hex & Hnt).
    exists pcs, evs1. repeat split; assumption.
Qed.

(** At the scenario of the specification: the 120 000 ms chunk is written
    and sent first and gives the first paragraph, the 30 000 ms chunk second. *)
Lemma process_long_audio_transcript_witness :
  process_long_audio studio "talk.mp3" fresh_world
  = (Ok (String.concat paragraph_separator ["part 0"; "part 1"]),
     snd (process_long_audio_body studio "talk.mp3" fresh_world))
  /\ map (fun pc => (fst pc, len (snd pc)))
         (exports (snd (process_long_audio_body studio "talk.mp3" fresh_world)))
     = [("/tmp/tmp0.mp3", 120000); ("/tmp/tmp1.mp3", 30000)]
  /\ io_events (trace (snd (process_long_audio_body studio "talk.mp3" fresh_world)))
     = [Exported "/tmp/tmp0.mp3"; RemoteCall "/tmp/tmp0.mp3";
        Exported "/tmp/tmp1.mp3"; RemoteCall "/tmp/tmp1.mp3"].
Proof.
  assert (Hsplit : split_audio studio "talk.mp3" 2 fresh_world
                   = (Ok (windows (silence 150000) 120000), fresh_world))
    by (rewrite split_audio_2; reflexivity).
  assert (HN : (1 <= length (windows (silence 150000) 120000))%nat)
    by (vm_compute; lia).
  assert (Hbody : process_long_audio_body studio "talk.mp3" fresh_world
                  = (Ok (String.concat paragraph_separator ["part 0"; "part 1"]),
                     snd (process_long_audio_body studio "talk.mp3" fresh_world)))
    by run_result.
  destruct (process_long_audio_transcript _ _ _ _ _ _ _ Hsplit HN Hbody)
    as (Hrun & _).
  split; [|split; vm_compute; reflexivity].
  rewrite Hrun.
  match goal with
  | |- (Ok ?T, _) = _ =>
      assert (HT : T = String.concat paragraph_separator ["part 0"; "part 1"])
        by (vm_compute; reflexivity);
      rewrite HT
  end.
  reflexivity.
Defined.

(** * The page *)

(** ** File names *)

Lemma string_app_assoc (a b c : string) : (a +:+ b) +:+ c = a +:+ (b +:+ c).
Proof.
  induction a as [|x a IH]; [reflexivity|].
  change (String x ((a +:+ b) +:+ c) = String x (a +:+ (b +:+ c))).
  rewrite IH. reflexivity.
Qed.

Lemma cut_at_last_spec sep s :
  match cut_at_last sep s with
  | Some (before, after) => s = before +:+ String sep after /\ has_char sep after = false
  | None => has_char sep s = false
  end.
Proof.
  induction s as [|c rest IH]; [reflexivity|].
  cbn [cut_at_last]. destruct (cut_at_last sep rest) as [[before after]|].
  - destruct IH as [-> Hno]. split; [reflexivity|exact Hno].
  - destruct (Ascii.eqb c sep) eqn:Hc.
    + apply Ascii.eqb_eq in Hc. subst c. split; [reflexivity|exact IH].
    + cbn [has_char]. rewrite Hc, IH. reflexivity.
Qed.

Lemma cut_at_last_none sep s : has_char sep s = false -> cut_at_last sep s = None.
Proof.
  induction s as [|c rest IH]; [reflexivity|].
  cbn [has_char cut_at_last]. intros H. apply orb_false_iff in H as [Hc Hrest].
  rewrite (IH Hrest), Hc. reflexivity.
Qed.

Lemma cut_at_last_app sep before after :
  has_char sep after = false ->
  cut_at_last sep (before +:+ String sep after) = Some (before, after).
Proof.
  intros Hno. induction before as [|c before IH].
  - change (cut_at_last sep (String sep after) = Some (EmptyString, after)).
    cbn [cut_at_last]. rewrite (cut_at_last_none _ _ Hno), Ascii.eqb_refl. reflexivity.
  - change (cut_at_last sep (String c (before +:+ String sep after))
            = Some (String c before, after)).
    cbn [cut_at_last]. rewrite IH. reflexivity.
Qed.

(** X12.  Line 216 never fails and names a file that ends in [.mp3]: when the
    name given has a dot, what follows its last dot is replaced by [mp3];
    when it has none, [.mp3] is appended.  Applied to its own result it
    changes nothing. *)
Theorem audio_filename_replaces_extension (safe_filename : string) :
  exists stem,
    audio_filename_of safe_filename = inr (stem +:+ ".mp3")
    /\ (if has_char "." safe_filename
        then exists extension,
               safe_filename = stem +:+ "." +:+ extension
               /\ has_char "." extension = false
        else safe_filename = stem)
    /\ audio_filename_of (stem +:+ ".mp3") = inr (stem +:+ ".mp3").
Proof.
  assert (Hidem : forall stem, audio_filename_of (stem +:+ ".mp3") = inr (stem +:+ ".mp3")).
  { intros stem. unfold audio_filename_of, rsplit1.
    change (stem +:+ ".mp3") with (stem +:+ String "." "mp3") at 1.
    rewrite cut_at_last_app by reflexivity. reflexivity. }
  unfold audio_filename_of, rsplit1.
  pose proof (cut_at_last_spec "." safe_filename) as Hcut.
  destruct (cut_at_last "." safe_filename) as [[before after]|].
  - destruct Hcut as [Heq Hno]. exists before. split; [reflexivity|].
    split; [|apply Hidem].
    destruct (has_char "." safe_filename) eqn:Hdot.
    + exists after. split; [exact Heq|exact Hno].
    + apply cut_at_last_none in Hdot. rewrite Heq in Hdot.
      rewrite (cut_at_last_app _ _ _ Hno) in Hdot. discriminate Hdot.
  - exists safe_filename. split; [reflexivity|]. rewrite Hcut.
    split; [reflexivity|apply Hidem].
Qed.

Lemma youtube_audio_filename i :
  has_char "." (ext i) = false ->
  audio_filename_of (prepare_filename i) = inr ("yt_audio_" +:+ video_id i +:+ ".mp3").
Proof.
  intros Hext. unfold audio_filename_of, rsplit1, prepare_filename.
  change ("." +:+ ext i) with (String "." (ext i)).
  rewrite <- string_app_assoc, (cut_at_last_app _ _ _ Hext).
  cbn [item0]. rewrite string_app_assoc. reflexivity.
Qed.

Lemma all_chars_has_char ok c s :
  ok c = false -> all_chars ok s = true -> has_char c s = false.
Proof.
  intros Hc. induction s as [|x rest IH]; [reflexivity|].
  cbn [all_chars has_char]. intros H. apply andb_true_iff in H as [Hx Hrest].
  rewrite (IH Hrest), orb_false_r.
  destruct (Ascii.eqb x c) eqn:Hxc; [|reflexivity].
  apply Ascii.eqb_eq in Hxc. subst x. congruence.
Qed.

Lemma plain_ext_no_dot s : plain_ext s = true -> has_char "." s = false.
Proof.
  unfold plain_ext. intros H. apply andb_true_iff in H as [_ H].
  exact (all_chars_has_char _ "."%char s eq_refl H).
Qed.

(** X13.  For a video whose id is made of letters, digits, [-] and [_], as
    the ids of YouTube are, and an extension of letters and digits, which
    [yt_dlp] puts into the name of line 205 as they stand, the audio of the
    video is kept under [yt_audio_<id>.mp3]: the name depends on the id
    alone, whatever the extension of the download, and videos with different
    ids get different files. *)
Theorem youtube_audio_file_is_keyed_by_id (i i' : info) :
  youtube_id (video_id i) = true ->
  youtube_id (video_id i') = true ->
  plain_ext (ext i) = true ->
  plain_ext (ext i') = true ->
  audio_filename_of (prepare_filename i) = inr ("yt_audio_" +:+ video_id i +:+ ".mp3")
  /\ (audio_filename_of (prepare_filename i) = audio_filename_of (prepare_filename i')
      <-> video_id i = video_id i').
Proof.
  intros _ _ Hext Hext'.
  rewrite !youtube_audio_filename by (apply plain_ext_no_dot; assumption).
  split; [reflexivity|]. split.
  - intros [= H]. change (video_id i +:+ ".mp3" = video_id i' +:+ ".mp3") in H.
    apply string_app_inj_r in H. exact H.
  - intros ->. reflexivity.
Qed.

Lemma youtube_audio_file_is_keyed_by_id_witness :
  audio_filename_of (prepare_filename {| video_id := "dQw4w9WgXcQ"; ext := "webm" |})
  = inr "yt_audio_dQw4w9WgXcQ.mp3"
  /\ audio_filename_of (prepare_filename {| video_id := "dQw4w9WgXcQ"; ext := "webm" |})
     = audio_filename_of (prepare_filename {| video_id := "dQw4w9WgXcQ"; ext := "m4a" |}).
Proof.
  destruct (youtube_audio_file_is_keyed_by_id
              {| video_id := "dQw4w9WgXcQ"; ext := "webm" |}
              {| video_id := "dQw4w9WgXcQ"; ext := "m4a" |}
              eq_refl eq_refl eq_refl eq_refl)
    as [Hname Hsame].
  split; [exact Hname|]. apply Hsame. reflexivity.
Defined.

(** ** Session state initialization *)

Lemma visit_eta a :
  a = Visit (session_state a) (temp_path a) (page a) (outside a).
Proof. destruct a; reflexivity. Qed.

Lemma init_state_run key v a :
  init_state key v a = (Ok tt, with_session (session_state a ∪ {[key := v]}) a).
Proof.
  unfold init_state, bindS, in_state, when, set_state, retS.
  destruct (session_state a !! key) as [x|] eqn:Hkey.
  - rewrite bool_decide_eq_true_2 by eauto. cbn [negb].
    replace (session_state a ∪ {[key := v]}) with (session_state a);
      [destruct a; reflexivity|].
    apply map_eq. intros j. symmetry.
    destruct (decide (j = key)) as [->|Hne].
    + apply lookup_union_l'. eauto.
    + apply lookup_union_l. apply lookup_singleton_ne. congruence.
  - rewrite bool_decide_eq_false_2 by (intros [x Hx]; congruence). cbn [negb].
    rewrite insert_union_singleton_r by exact Hkey. reflexivity.
Qed.

Lemma default_state_unions :
  default_state
  = {["yt_transcribe" := PyBool false]} ∪ ({["aud_transcribe" := PyBool false]}
      ∪ ({["yt_result" := PyNone]} ∪ ({["audio_result" := PyNone]}
      ∪ ({["processing" := PyBool false]} ∪ {["progress" := PyInt 0]})))).
Proof.
  unfold default_state. rewrite !insert_union_singleton_l.
  rewrite (right_id_L ∅ (∪)). reflexivity.
Qed.

Lemma session_state_initialization_run a :
  session_state_initialization a
  = (Ok tt, with_session (session_state a ∪ default_state) a).
Proof.
  unfold session_state_initialization, bindS.
  rewrite !init_state_run. cbn [session_state with_session temp_path page outside].
  unfold with_session. cbn [session_state temp_path page outside].
  rewrite default_state_unions, !(assoc_L (∪)). reflexivity.
Qed.

Lemma default_state_lookup key :
  default_state !! key
  = if decide (key = "yt_transcribe") then Some (PyBool false)
    else if decide (key = "aud_transcribe") then Some (PyBool false)
    else if decide (key = "yt_result") then Some PyNone
    else if decide (key = "audio_result") then Some PyNone
    else if decide (key = "processing") then Some (PyBool false)
    else if decide (key = "progress") then Some (PyInt 0)
    else None.
Proof.
  unfold default_state. rewrite !lookup_insert, lookup_empty.
  repeat (case_decide; [subst; rewrite ?decide_True by reflexivity;
                        repeat (rewrite decide_False by discriminate);
                        rewrite ?decide_True by reflexivity; reflexivity|]).
  repeat (rewrite decide_False by congruence). reflexivity.
Qed.

(** X14.  Lines 21-37 never fail and only fill in what is missing: every key
    the session already has keeps its value, the six keys of the script get
    their defaults when absent ([False] for the two modes and for
    [processing], [None] for the two results, [0] for [progress]), nothing
    else is touched, and a second pass changes nothing. *)
Theorem session_state_initialization_fills_defaults (a : visit) :
  exists a',
    session_state_initialization a = (Ok tt, a')
    /\ a' = with_session (session_state a ∪ default_state) a
    /\ (forall key v, session_state a !! key = Some v -> session_state a' !! key = Some v)
    /\ (forall key, session_state a !! key = None ->
          session_state a' !! key = default_state !! key)
    /\ Forall (fun key => is_Some (session_state a' !! key))
         ["yt_transcribe"; "aud_transcribe"; "yt_result"; "audio_result";
          "processing"; "progress"]
    /\ session_state_initialization a' = (Ok tt, a').
Proof.
  eexists. split; [apply session_state_initialization_run|].
  split; [reflexivity|]. cbn [session_state with_session].
  split; [intros key v Hkey; apply lookup_union_Some_l; exact Hkey|].
  split; [intros key Hkey; apply lookup_union_r; exact Hkey|].
  split.
  { assert (Hkey : forall key, is_Some (default_state !! key) ->
                       is_Some ((session_state a ∪ default_state) !! key)).
    { intros key Hd. destruct (session_state a !! key) eqn:Hk.
      - erewrite lookup_union_Some_l by exact Hk. eauto.
      - rewrite lookup_union_r by exact Hk. exact Hd. }
    repeat (constructor; [apply Hkey; rewrite default_state_lookup; cbn; eauto|]).
    constructor. }
  rewrite session_state_initialization_run. cbn [session_state with_session].
  assert (Hidem : session_state a ∪ default_state ∪ default_state
                  = session_state a ∪ default_state).
  { rewrite <- (assoc_L (∪)). f_equal. }
  rewrite Hidem. reflexivity.
Qed.

(** ** The audio job *)

Ltac norm_visit :=
  cbn [outside session_state temp_path page
       with_session with_temp_path with_outside with_page].

Ltac flat_visit :=
  unfold with_session, with_temp_path, with_outside, with_page;
  cbn [outside session_state temp_path page].

Lemma truthy_str_mp3 name : truthy_str (name +:+ ".mp3") = true.
Proof. destruct name; reflexivity. Qed.

Lemma NamedTemporaryFile_ok E suffix w p w1 :
  NamedTemporaryFile E suffix w = (Ok p, w1) ->
  exists name,
    tempfile_name E (n_tempfile w) = inr name
    /\ p = name +:+ suffix
    /\ (p ∉ fs w)
    /\ w1 = with_trace (trace w ++ [TempCreated p])
              (with_fs ({[p]} ∪ fs w) (with_n_tempfile (S (n_tempfile w)) w)).
Proof.
  unfold NamedTemporaryFile. destruct (tempfile_name E (n_tempfile w)) as [e|name]; [intros [=]|].
  destruct (bool_decide (name +:+ suffix ∈ fs w)) eqn:Hin; intros [= <- <-].
  exists name. split; [reflexivity|]. split; [reflexivity|].
  split; [|reflexivity]. apply bool_decide_eq_false in Hin. exact Hin.
Qed.

Lemma NamedTemporaryFile_raise E suffix w e w1 :
  NamedTemporaryFile E suffix w = (Raise e, w1) ->
  w1 = with_n_tempfile (S (n_tempfile w)) w.
Proof.
  unfold NamedTemporaryFile. destruct (tempfile_name E (n_tempfile w)) as [e'|name];
    [intros [= _ <-]; reflexivity|].
  destruct (bool_decide (name +:+ suffix ∈ fs w)); intros [= _ <-]. reflexivity.
Qed.

Lemma process_long_audio_keeps E p w :
  exists t w', process_long_audio E p w = (Ok t, w') /\ fs w ⊆ fs w'.
Proof.
  destruct (process_long_audio_disk E p w) as (t & w' & evs & Hrun & _ & Hfs & _).
  exists t, w'. split; [exact Hrun|]. rewrite Hfs. apply union_subseteq_l.
Qed.

(** ** What a job assigns to the session *)

Lemma assigned_progress_cases w w' ss :
  assigned_progress w w' ss = ss
  \/ exists num den, assigned_progress w w' ss = <["progress" := PyFloat num den]> ss.
Proof.
  unfold assigned_progress, progress_value.
  destruct (bool_decide (n_progress w' = n_progress w)); [left; reflexivity|].
  right. eexists _, _. reflexivity.
Qed.

Lemma assigned_progress_lookup w w' ss key :
  key <> "progress" -> assigned_progress w w' ss !! key = ss !! key.
Proof.
  intros Hk. destruct (assigned_progress_cases w w' ss) as [->|(num & den & ->)];
    [reflexivity|].
  apply lookup_insert_ne. congruence.
Qed.

Lemma assigned_progress_is_Some w w' ss key :
  is_Some (ss !! key) -> is_Some (assigned_progress w w' ss !! key).
Proof.
  intros H. destruct (assigned_progress_cases w w' ss) as [->|(num & den & ->)];
    [exact H|].
  apply lookup_insert_is_Some'. right. exact H.
Qed.

(** The session after a job that stored its result: [processing], set at
    the start of the [try] block, is reset in the [finally] clause. *)
Lemma job_session key t w1 w2 ss :
  key <> "processing" ->
  <["processing" := PyBool false]>
    (<[key := PyStr t]>
       (assigned_progress w1 w2 (<["processing" := PyBool true]> ss)))
  = <["processing" := PyBool false]> (<[key := PyStr t]> (assigned_progress w1 w2 ss)).
Proof.
  intros Hk. unfold assigned_progress.
  destruct (bool_decide (n_progress w2 = n_progress w1)); cbv beta iota;
    apply map_eq; intros k; rewrite !lookup_insert; repeat case_decide; congruence.
Qed.

(** What a handler that ran has done to the keys of the session. *)
Lemma handler_session_keys key ss0 ss' :
  key <> "processing" -> key <> "progress" ->
  (ss' = <["processing" := PyBool false]> ss0
   \/ exists t w1 w2,
        ss' = <["processing" := PyBool false]>
                (<[key := PyStr t]> (assigned_progress w1 w2 ss0))) ->
  ss' !! "processing" = Some (PyBool false)
  /\ (forall k, k <> "processing" -> k <> key -> k <> "progress" -> ss' !! k = ss0 !! k)
  /\ (ss' !! key = ss0 !! key \/ exists t, ss' !! key = Some (PyStr t))
  /\ (ss' !! "progress" = ss0 !! "progress"
      \/ exists num den, ss' !! "progress" = Some (PyFloat num den)).
Proof.
  intros Hk1 Hk2 [->|(t & w1 & w2 & ->)].
  - split; [apply lookup_insert_eq|].
    split; [intros k H1 _ _; apply lookup_insert_ne; congruence|].
    split; left; apply lookup_insert_ne; congruence.
  - split; [apply lookup_insert_eq|].
    split; [intros k H1 H2 H3; rewrite !lookup_insert_ne by congruence;
            apply assigned_progress_lookup; exact H3|].
    split; [right; exists t; rewrite lookup_insert_ne by congruence;
            apply lookup_insert_eq|].
    rewrite !lookup_insert_ne by congruence.
    destruct (assigned_progress_cases w1 w2 ss0) as [->|(num & den & ->)];
      [left; reflexivity|].
    right. exists num, den. apply lookup_insert_eq.
Qed.

(** The calls made through [run] assign nothing to the session. *)
Lemma run_job_quiet {X} (m : M X) a :
  n_progress (snd (m (outside a))) = n_progress (outside a) ->
  run_job m a = run m a.
Proof.
  unfold run_job, run, assigned_progress. destruct (m (outside a)) as [r w'].
  cbn [snd]. intros H. rewrite bool_decide_eq_true_2 by exact H.
  destruct a; reflexivity.
Qed.

Lemma quiet_calls_assign_nothing E w :
  (forall suffix, n_progress (snd (NamedTemporaryFile E suffix w)) = n_progress w)
  /\ (forall p, n_progress (snd (os_path_exists p w)) = n_progress w)
  /\ (forall msg, n_progress (snd (st_error msg w)) = n_progress w)
  /\ (forall p, n_progress (snd (safe_delete E p w)) = n_progress w).
Proof.
  split; [|split; [|split]].
  - intros suffix. unfold NamedTemporaryFile.
    destruct (tempfile_name E (n_tempfile w)) as [e|name]; [reflexivity|].
    destruct (bool_decide (name +:+ suffix ∈ fs w)); reflexivity.
  - intros p. reflexivity.
  - intros msg. reflexivity.
  - intros p. rewrite safe_delete_eq.
    destruct (bool_decide (p ∈ fs w)); [|reflexivity].
    destruct (unlink_outcome E (n_safe_delete w) 0) as [e|]; [|reflexivity].
    destruct (is_PermissionError e); [|reflexivity].
    destruct (unlink_outcome E (n_safe_delete w) 1); reflexivity.
Qed.

Section AudioJob.
Variable E : Env.
Variable net : Net.

Lemma audio_job_run data a :
  exists a',
    audio_job E net data a = (Ok tt, a')
    /\ match NamedTemporaryFile E ".mp3" (outside a) with
       | (Raise e, w1) =>
           a' = Visit (<["processing" := PyBool false]> (session_state a)) None (page a)
                  (with_trace (trace w1 ++ [StError ("Processing error: " +:+ exn_str e)]) w1)
       | (Ok p, w1) =>
           match write_outcome net with
           | Some e =>
               a' = Visit (<["processing" := PyBool false]> (session_state a)) None (page a)
                      (with_trace (trace w1 ++ [StError ("Processing error: " +:+ exn_str e)])
                         w1)
           | None =>
               exists t w2,
                 process_long_audio E p w1 = (Ok t, w2)
                 /\ (p ∈ fs w2)
                 /\ a' = job_done E "audio_result" p t w1 w2 [] a
           end
       end.
Proof.
  unfold job_done.
  unfold audio_job, bindS, try_except_finally, set_temp_path, set_state, run, run_job,
    tmp_file_write, get_temp_path, when, retS, st_error, emit.
  norm_visit.
  destruct (NamedTemporaryFile E ".mp3" (outside a)) as [[p|e] w1] eqn:Htmp.
  2:{ norm_visit.
      eexists. split; [reflexivity|]. rewrite insert_insert_eq. reflexivity. }
  norm_visit.
  destruct (write_outcome net) as [e|].
  { norm_visit.
    eexists. split; [reflexivity|]. rewrite insert_insert_eq. reflexivity. }
  norm_visit.
  apply NamedTemporaryFile_ok in Htmp as (name & _ & Hp & _ & Hw1).
  destruct (process_long_audio_keeps E p w1) as (t & w2 & Hrun & Hsub).
  assert (Hin : p ∈ fs w2).
  { apply Hsub. rewrite Hw1. cbn [fs with_trace with_fs]. set_solver. }
  rewrite Hrun.
  norm_visit.
  assert (Htp : truthy_str p = true) by (rewrite Hp; apply truthy_str_mp3).
  rewrite Htp. norm_visit.
  rewrite (safe_delete_present E p w2 Hin).
  norm_visit.
  eexists. split; [reflexivity|]. exists t, w2.
  split; [reflexivity|]. split; [exact Hin|].
  rewrite job_session by discriminate. rewrite app_nil_r. reflexivity.
Qed.

Lemma audio_job_session data a :
  exists a',
    audio_job E net data a = (Ok tt, a')
    /\ page a' = page a
    /\ (session_state a' = <["processing" := PyBool false]> (session_state a)
        \/ exists t w1 w2,
             session_state a'
             = <["processing" := PyBool false]>
                 (<["audio_result" := PyStr t]>
                    (assigned_progress w1 w2 (session_state a)))).
Proof.
  destruct (audio_job_run data a) as (a' & Hrun & Hcase).
  exists a'. split; [exact Hrun|].
  destruct (NamedTemporaryFile E ".mp3" (outside a)) as [[p|e] w1];
    [destruct (write_outcome net) as [e|]|].
  - subst a'. split; [reflexivity|]. left. reflexivity.
  - destruct Hcase as (t & w2 & _ & _ & ->). split; [apply app_nil_r|]. right.
    exists t, w1, w2. reflexivity.
  - subst a'. split; [reflexivity|]. left. reflexivity.
Qed.

End AudioJob.

(** X15.  The upload handler (lines 143-166) never raises and always ends
    with [processing] reset to [False].  Of the session state it touches
    only [processing], [audio_result] and [progress]: [audio_result] is
    either left as it was or set to the string [process_long_audio]
    returned, and [progress] is either left as it was or holds a fraction
    that line 106 assigned.  The handler removes no file that was there
    before. *)
Theorem audio_job_always_finishes (E : Env) (net : Net) (data : string) (a : visit) :
  exists a',
    audio_job E net data a = (Ok tt, a')
    /\ session_state a' !! "processing" = Some (PyBool false)
    /\ (forall key, key <> "processing" -> key <> "audio_result" -> key <> "progress" ->
          session_state a' !! key = session_state a !! key)
    /\ (session_state a' !! "audio_result" = session_state a !! "audio_result"
        \/ exists t, session_state a' !! "audio_result" = Some (PyStr t))
    /\ (session_state a' !! "progress" = session_state a !! "progress"
        \/ exists num den, session_state a' !! "progress" = Some (PyFloat num den))
    /\ fs (outside a) ⊆ fs (outside a').
Proof.
  destruct (audio_job_run E net data a) as (a' & Hrun & Hcase).
  destruct (audio_job_session E net data a) as (a'' & Hrun' & _ & Hss).
  rewrite Hrun in Hrun'. injection Hrun' as <-.
  exists a'. split; [exact Hrun|].
  destruct (handler_session_keys "audio_result" _ _ ltac:(discriminate)
              ltac:(discriminate) Hss) as (Hproc & Hother & Hres & Hprog).
  split; [exact Hproc|]. split; [exact Hother|]. split; [exact Hres|].
  split; [exact Hprog|]. clear Hss Hproc Hother Hres Hprog.
  assert (Hfail : forall w1 e,
            fs (outside a) ⊆ fs w1 ->
            a' = Visit (<["processing" := PyBool false]> (session_state a)) None (page a)
                   (with_trace (trace w1 ++ [StError ("Processing error: " +:+ exn_str e)])
                      w1) ->
            fs (outside a) ⊆ fs (outside a')).
  { intros w1 e Hsub ->. exact Hsub. }
  destruct (NamedTemporaryFile E ".mp3" (outside a)) as [[p|e] w1] eqn:Htmp.
  2:{ apply NamedTemporaryFile_raise in Htmp. apply (Hfail w1 e); [|exact Hcase].
      rewrite Htmp. reflexivity. }
  apply NamedTemporaryFile_ok in Htmp as (name & _ & _ & Hfresh & Hw1).
  assert (Hsub1 : fs (outside a) ⊆ fs w1).
  { rewrite Hw1. cbn [fs with_trace with_fs]. apply union_subseteq_r. }
  destruct (write_outcome net) as [e|]; [apply (Hfail w1 e); assumption|].
  destruct Hcase as (t & w2 & Hjob & Hin & ->). unfold job_done.
  norm_visit. cbn [fs with_trace with_fs].
  destruct (process_long_audio_keeps E p w1) as (t' & w2' & Hjob' & Hsub2).
  rewrite Hjob in Hjob'. injection Hjob' as <- <-.
  destruct (fst (delete_run E (n_safe_delete w2) p)); set_solver.
Qed.

(** X16.  When the temp file of the upload has been created but the upload
    cannot be written to it, the handler reports [Processing error: ...] and
    the temp file stays on disk: [temp_path] was never assigned, so the
    [finally] clause does not call [safe_delete], and no warning mentions
    the file.  [audio_result] stays as it was. *)
Theorem upload_write_failure_leaks_temp_file (E : Env) (net : Net) (data : string)
    (a : visit) (name : string) (e : exn) :
  tempfile_name E (n_tempfile (outside a)) = inr name ->
  name +:+ ".mp3" ∉ fs (outside a) ->
  write_outcome net = Some e ->
  exists a',
    audio_job E net data a = (Ok tt, a')
    /\ outside a'
       = with_trace (trace (outside a)
                     ++ [TempCreated (name +:+ ".mp3");
                         StError ("Processing error: " +:+ exn_str e)])
           (with_fs ({[name +:+ ".mp3"]} ∪ fs (outside a))
              (with_n_tempfile (S (n_tempfile (outside a))) (outside a)))
    /\ (name +:+ ".mp3" ∈ fs (outside a'))
    /\ n_safe_delete (outside a') = n_safe_delete (outside a)
    /\ session_state a' = <["processing" := PyBool false]> (session_state a)
    /\ temp_path a' = None.
Proof.
  intros Hname Hfresh Hwrite.
  destruct (audio_job_run E net data a) as (a' & Hrun & Hcase).
  exists a'. split; [exact Hrun|].
  unfold NamedTemporaryFile in Hcase.
  rewrite Hname, bool_decide_eq_false_2, Hwrite in Hcase by exact Hfresh.
  subst a'. norm_visit. norm_world.
  split; [reflexivity|]. split; [set_solver|]. repeat split.
Qed.

Lemma upload_write_failure_leaks_temp_file_witness :
  exists a',
    audio_job studio upload_disk_full "RIFF" idle_visit = (Ok tt, a')
    /\ ("/tmp/tmp0.mp3" ∈ fs (outside a'))
    /\ n_safe_delete (outside a') = 0%nat
    /\ session_state a' !! "audio_result" = Some PyNone.
Proof.
  assert (Hname : tempfile_name studio (n_tempfile (outside idle_visit))
                  = inr (studio_name 0)) by reflexivity.
  assert (Hfresh : studio_name 0 +:+ ".mp3" ∉ fs (outside idle_visit))
    by apply not_elem_of_empty.
  assert (Hwrite : write_outcome upload_disk_full = Some disk_full) by reflexivity.
  destruct (upload_write_failure_leaks_temp_file studio upload_disk_full "RIFF"
              idle_visit (studio_name 0) disk_full Hname Hfresh Hwrite)
    as (a' & Hrun & _ & Hin & Hnd & Hss & _).
  exists a'. split; [exact Hrun|]. split; [exact Hin|]. split; [exact Hnd|].
  rewrite Hss. reflexivity.
Defined.

(** X17.  When the temp file of the upload is created and written, the
    handler's [except] clause is not entered: [process_long_audio] runs on
    the temp file, what it returns is stored in [audio_result], [progress]
    is as [process_long_audio] left it, and [safe_delete] is then called on
    the temp file, which is still there.  Afterwards the file is gone, or
    exactly one deletion warning has been shown for it. *)
Theorem audio_job_stores_transcript (E : Env) (net : Net) (data : string)
    (a : visit) (name : string) :
  tempfile_name E (n_tempfile (outside a)) = inr name ->
  name +:+ ".mp3" ∉ fs (outside a) ->
  write_outcome net = None ->
  exists t w1 w2 evs a',
    w1 = with_trace (trace (outside a) ++ [TempCreated (name +:+ ".mp3")])
           (with_fs ({[name +:+ ".mp3"]} ∪ fs (outside a))
              (with_n_tempfile (S (n_tempfile (outside a))) (outside a)))
    /\ process_long_audio E (name +:+ ".mp3") w1 = (Ok t, w2)
    /\ audio_job E net data a = (Ok tt, a')
    /\ session_state a'
       = <["processing" := PyBool false]>
           (<["audio_result" := PyStr t]> (assigned_progress w1 w2 (session_state a)))
    /\ (name +:+ ".mp3" ∈ fs w2)
    /\ n_safe_delete (outside a') = S (n_safe_delete w2)
    /\ trace (outside a') = trace w2 ++ evs
    /\ errors_shown evs = []
    /\ delete_warnings evs
       = (if bool_decide (name +:+ ".mp3" ∈ fs (outside a')) then 1 else 0)%nat
    /\ fs (outside a') ∖ {[name +:+ ".mp3"]} = fs w2 ∖ {[name +:+ ".mp3"]}.
Proof.
  intros Hname Hfresh Hwrite.
  destruct (audio_job_run E net data a) as (a' & Hrun & Hcase).
  unfold NamedTemporaryFile in Hcase.
  rewrite Hname, bool_decide_eq_false_2, Hwrite in Hcase by exact Hfresh.
  destruct Hcase as (t & w2 & Hjob & Hin & ->).
  destruct (delete_run_facts E (n_safe_delete w2) (name +:+ ".mp3"))
    as (Hw & _ & _ & _ & Herr & _).
  cbn zeta in Hw, Herr.
  eexists t, _, w2, (snd (delete_run E (n_safe_delete w2) (name +:+ ".mp3"))).
  eexists. split; [reflexivity|]. split; [exact Hjob|]. split; [exact Hrun|].
  unfold job_done.
  norm_visit. cbn [fs trace n_safe_delete with_trace with_fs with_n_safe_delete].
  split; [reflexivity|]. split; [exact Hin|]. split; [reflexivity|].
  split; [reflexivity|]. split; [exact Herr|].
  rewrite Hw.
  destruct (fst (delete_run E (n_safe_delete w2) (name +:+ ".mp3"))).
  - rewrite bool_decide_eq_false_2 by set_solver. split; [reflexivity|set_solver].
  - rewrite bool_decide_eq_true_2 by exact Hin. split; reflexivity.
Qed.

(** At the scenario of the specification, a first upload: the transcript of
    both chunks is stored and [progress] ends at 2/2. *)
Lemma audio_job_stores_transcript_witness :
  exists w2 a',
    audio_job studio online "RIFF" idle_visit = (Ok tt, a')
    /\ session_state a' !! "audio_result"
       = Some (PyStr (String.concat paragraph_separator ["part 0"; "part 1"]))
    /\ session_state a' !! "progress" = Some (PyFloat 2 2)
    /\ n_safe_delete (outside a') = S (n_safe_delete w2).
Proof.
  assert (Hname : tempfile_name studio (n_tempfile (outside idle_visit))
                  = inr (studio_name 0)) by reflexivity.
  assert (Hfresh : studio_name 0 +:+ ".mp3" ∉ fs (outside idle_visit))
    by apply not_elem_of_empty.
  assert (Hwrite : write_outcome online = None) by reflexivity.
  destruct (audio_job_stores_transcript studio online "RIFF" idle_visit
              (studio_name 0) Hname Hfresh Hwrite)
    as (t & w1 & w2 & evs & a' & Hw1 & Hjob & Hrun & Hss & _ & Hnd & _).
  subst w1.
  assert (Ht : t = String.concat paragraph_separator ["part 0"; "part 1"]).
  { apply (f_equal fst) in Hjob. cbn [fst] in Hjob.
    assert (Hval : fst (process_long_audio studio (studio_name 0 +:+ ".mp3")
                          (with_trace (trace (outside idle_visit)
                                       ++ [TempCreated (studio_name 0 +:+ ".mp3")])
                             (with_fs ({[studio_name 0 +:+ ".mp3"]} ∪ fs (outside idle_visit))
                                (with_n_tempfile (S (n_tempfile (outside idle_visit)))
                                   (outside idle_visit)))))
                   = Ok (String.concat paragraph_separator ["part 0"; "part 1"]))
      by (vm_compute; reflexivity).
    rewrite Hval in Hjob. injection Hjob as <-. reflexivity. }
  exists w2, a'. split; [exact Hrun|]. split; [|split; [|exact Hnd]].
  - rewrite Hss, Ht. rewrite lookup_insert_ne by discriminate. apply lookup_insert_eq.
  - rewrite Hss. apply (f_equal snd) in Hjob. cbn [snd] in Hjob. rewrite <- Hjob.
    vm_compute. reflexivity.
Defined.

(** ** The YouTube job *)

Lemma audio_filename_of_mp3 s :
  exists stem, audio_filename_of s = inr (stem +:+ ".mp3").
Proof.
  unfold audio_filename_of, rsplit1.
  destruct (cut_at_last "." s) as [[before after]|]; eexists; reflexivity.
Qed.

Lemma world_eta w :
  w = World (fs w) (trace w) (session_progress w)
        (n_tempfile w) (n_export w) (n_transcribe w) (n_safe_delete w) (exports w)
        (n_progress w).
Proof. destruct w; reflexivity. Qed.

Lemma with_fs_present p w : p ∈ fs w -> with_fs ({[p]} ∪ fs w) w = w.
Proof.
  intros Hin.
  assert (H : {[p]} ∪ fs w = fs w) by (apply leibniz_equiv; set_solver).
  unfold with_fs. rewrite H. symmetry. apply world_eta.
Qed.

Section YoutubeJob.
Variable E : Env.
Variable net : Net.

Lemma youtube_job_run video_url a :
  exists a',
    youtube_job E net video_url a = (Ok tt, a')
    /\ match extract_info net video_url with
       | inl e => a' = youtube_gave_up a e
       | inr i =>
           exists p,
             audio_filename_of (prepare_filename i) = inr p
             /\ match (if bool_decide (p ∈ fs (outside a)) then None
                       else download_outcome net video_url) with
                | Some e => a' = youtube_gave_up a e
                | None =>
                    exists t w2,
                      process_long_audio E p (with_fs ({[p]} ∪ fs (outside a)) (outside a))
                      = (Ok t, w2)
                      /\ (p ∈ fs w2)
                      /\ a' = job_done E "yt_result" p t
                                (with_fs ({[p]} ∪ fs (outside a)) (outside a)) w2
                                [Spinner "Downloading audio..."] a
                end
       end.
Proof.
  unfold youtube_gave_up, job_done.
  unfold youtube_job, bindS, try_except_finally, set_temp_path, set_state, run, run_job,
    show,
    liftS, ydl_download, get_temp_path, when, retS, st_error, emit, os_path_exists.
  norm_visit.
  destruct (extract_info net video_url) as [e|i].
  { norm_visit. eexists. split; [reflexivity|]. rewrite insert_insert_eq. reflexivity. }
  destruct (audio_filename_of_mp3 (prepare_filename i)) as [stem Hp].
  rewrite Hp. norm_visit. set (p := stem +:+ ".mp3").
  assert (Hjob : forall w1,
            fs w1 = {[p]} ∪ fs (outside a) ->
            exists t w2, process_long_audio E p w1 = (Ok t, w2) /\ p ∈ fs w2).
  { intros w1 Hfs. destruct (process_long_audio_keeps E p w1) as (t & w2 & Hrun & Hsub).
    exists t, w2. split; [exact Hrun|]. apply Hsub. rewrite Hfs. set_solver. }
  assert (Htp : truthy_str p = true) by apply truthy_str_mp3.
  destruct (decide (p ∈ fs (outside a))) as [Hcached|Hmissing].
  - rewrite bool_decide_eq_true_2 by exact Hcached. cbn [negb]. norm_visit.
    destruct (Hjob (outside a)) as (t & w2 & Hrun & Hin);
      [apply leibniz_equiv; set_solver|].
    rewrite Hrun. norm_visit. rewrite Htp. norm_visit.
    rewrite bool_decide_eq_true_2 by exact Hin. norm_visit.
    rewrite (safe_delete_present E p w2 Hin). norm_visit.
    eexists. split; [reflexivity|]. exists p. split; [reflexivity|].
    rewrite bool_decide_eq_true_2 by exact Hcached.
    exists t, w2. rewrite with_fs_present by exact Hcached.
    split; [exact Hrun|]. split; [exact Hin|].
    rewrite job_session by discriminate. reflexivity.
  - rewrite bool_decide_eq_false_2 by exact Hmissing. cbn [negb]. norm_visit.
    destruct (download_outcome net video_url) as [e|] eqn:Hdl.
    { norm_visit. eexists. split; [reflexivity|]. exists p. split; [reflexivity|].
      rewrite bool_decide_eq_false_2 by exact Hmissing.
      rewrite insert_insert_eq. reflexivity. }
    norm_visit.
    destruct (Hjob (with_fs ({[p]} ∪ fs (outside a)) (outside a)))
      as (t & w2 & Hrun & Hin); [reflexivity|].
    rewrite Hrun. norm_visit. rewrite Htp. norm_visit.
    rewrite bool_decide_eq_true_2 by exact Hin. norm_visit.
    rewrite (safe_delete_present E p w2 Hin). norm_visit.
    eexists. split; [reflexivity|]. exists p. split; [reflexivity|].
    rewrite bool_decide_eq_false_2 by exact Hmissing.
    exists t, w2. split; [exact Hrun|]. split; [exact Hin|].
    rewrite job_session by discriminate. reflexivity.
Qed.

Lemma youtube_job_session video_url a :
  exists a',
    youtube_job E net video_url a = (Ok tt, a')
    /\ page a' = page a ++ [Spinner "Downloading audio..."]
    /\ (session_state a' = <["processing" := PyBool false]> (session_state a)
        \/ exists t w1 w2,
             session_state a'
             = <["processing" := PyBool false]>
                 (<["yt_result" := PyStr t]>
                    (assigned_progress w1 w2 (session_state a)))).
Proof.
  destruct (youtube_job_run video_url a) as (a' & Hrun & Hcase).
  exists a'. split; [exact Hrun|].
  assert (Hfail : forall e, a' = youtube_gave_up a e ->
            page a' = page a ++ [Spinner "Downloading audio..."]
            /\ (session_state a' = <["processing" := PyBool false]> (session_state a)
                \/ exists t w1 w2,
                     session_state a'
                     = <["processing" := PyBool false]>
                         (<["yt_result" := PyStr t]>
                            (assigned_progress w1 w2 (session_state a))))).
  { intros e ->. split; [reflexivity|]. left. reflexivity. }
  destruct (extract_info net video_url) as [e|i]; [exact (Hfail e Hcase)|].
  destruct Hcase as (p & _ & Hcase).
  destruct (if bool_decide (p ∈ fs (outside a)) then None
            else download_outcome net video_url) as [e|]; [exact (Hfail e Hcase)|].
  destruct Hcase as (t & w2 & _ & _ & ->). split; [reflexivity|]. right.
  eexists t, _, w2. reflexivity.
Qed.

End YoutubeJob.

Lemma job_done_facts E key p t w1 w2 shown a :
  p ∈ fs w2 ->
  let a' := job_done E key p t w1 w2 shown a in
  let evs := snd (delete_run E (n_safe_delete w2) p) in
  session_state a'
  = <["processing" := PyBool false]>
      (<[key := PyStr t]> (assigned_progress w1 w2 (session_state a)))
  /\ page a' = page a ++ shown
  /\ trace (outside a') = trace w2 ++ evs
  /\ n_safe_delete (outside a') = S (n_safe_delete w2)
  /\ errors_shown evs = []
  /\ delete_warnings evs = (if bool_decide (p ∈ fs (outside a')) then 1 else 0)%nat
  /\ fs (outside a') ∖ {[p]} = fs w2 ∖ {[p]}
  /\ fs (outside a') ⊆ fs w2.
Proof.
  intros Hin. cbn zeta. unfold job_done. norm_visit.
  cbn [fs trace n_safe_delete with_trace with_fs with_n_safe_delete].
  destruct (delete_run_facts E (n_safe_delete w2) p) as (Hw & _ & _ & _ & Herr & _).
  cbn zeta in Hw, Herr.
  split; [reflexivity|]. split; [reflexivity|]. split; [reflexivity|].
  split; [reflexivity|]. split; [exact Herr|]. rewrite Hw.
  destruct (fst (delete_run E (n_safe_delete w2) p)).
  - rewrite bool_decide_eq_false_2 by set_solver.
    split; [reflexivity|]. split; set_solver.
  - rewrite bool_decide_eq_true_2 by exact Hin. split; [reflexivity|]. split; reflexivity.
Qed.

(** After a job that completed without a deletion warning, and whose file
    could be removed, the disk is as it was before the file was put there. *)
Lemma job_restores_disk E p w1 t w2 tb wb :
  process_long_audio E p w1 = (Ok t, w2) ->
  process_long_audio_body E p w1 = (Ok tb, wb) ->
  exists evs,
    trace w2 = trace w1 ++ evs
    /\ (delete_warnings evs = 0%nat -> fs w2 = fs w1).
Proof.
  intros Hrun Hbody.
  destruct (process_long_audio_disk E p w1) as (t' & w2' & evs & Hrun' & Htr & Hfs & Hsize).
  rewrite Hrun in Hrun'. injection Hrun' as <- <-.
  exists evs. split; [exact Htr|]. intros Hdw.
  pose proof (Hsize tb wb Hbody) as Hle. rewrite Hdw in Hle.
  assert (Hempty : alive_after ∅ evs = ∅).
  { apply leibniz_equiv, size_empty_inv. lia. }
  rewrite Hfs, Hempty. apply leibniz_equiv. apply (right_id ∅ (∪)).
Qed.

(** X18.  The YouTube handler (lines 195-236) never raises and always ends
    with [processing] reset to [False].  Of the session state it touches
    only [processing], [yt_result] and [progress]: [yt_result] is either
    left as it was or set to the string [process_long_audio] returned, and
    [progress] is either left as it was or holds a fraction that line 106
    assigned.  The only file the handler can remove among those that were
    there before is the audio file of the video. *)
Theorem youtube_job_always_finishes (E : Env) (net : Net) (video_url : string)
    (a : visit) :
  exists a',
    youtube_job E net video_url a = (Ok tt, a')
    /\ session_state a' !! "processing" = Some (PyBool false)
    /\ (forall key, key <> "processing" -> key <> "yt_result" -> key <> "progress" ->
          session_state a' !! key = session_state a !! key)
    /\ (session_state a' !! "yt_result" = session_state a !! "yt_result"
        \/ exists t, session_state a' !! "yt_result" = Some (PyStr t))
    /\ (session_state a' !! "progress" = session_state a !! "progress"
        \/ exists num den, session_state a' !! "progress" = Some (PyFloat num den))
    /\ (forall q, q ∈ fs (outside a) ->
          q ∈ fs (outside a')
          \/ exists i, extract_info net video_url = inr i
                       /\ audio_filename_of (prepare_filename i) = inr q).
Proof.
  destruct (youtube_job_run E net video_url a) as (a' & Hrun & Hcase).
  destruct (youtube_job_session E net video_url a) as (a'' & Hrun' & _ & Hss).
  rewrite Hrun in Hrun'. injection Hrun' as <-.
  exists a'. split; [exact Hrun|].
  destruct (handler_session_keys "yt_result" _ _ ltac:(discriminate)
              ltac:(discriminate) Hss) as (Hproc & Hother & Hres & Hprog).
  split; [exact Hproc|]. split; [exact Hother|]. split; [exact Hres|].
  split; [exact Hprog|]. clear Hss Hproc Hother Hres Hprog.
  assert (Hfail : forall e,
            a' = youtube_gave_up a e ->
            forall q, q ∈ fs (outside a) ->
              q ∈ fs (outside a')
              \/ exists i, extract_info net video_url = inr i
                           /\ audio_filename_of (prepare_filename i) = inr q).
  { intros e -> q Hq. left. exact Hq. }
  destruct (extract_info net video_url) as [e|i]; [exact (Hfail e Hcase)|].
  destruct Hcase as (p & Hp & Hcase).
  destruct (if bool_decide (p ∈ fs (outside a)) then None
            else download_outcome net video_url) as [e|]; [exact (Hfail e Hcase)|].
  destruct Hcase as (t & w2 & Hjob & Hin & ->).
  destruct (job_done_facts E "yt_result" p t
              (with_fs ({[p]} ∪ fs (outside a)) (outside a)) w2
              [Spinner "Downloading audio..."] a Hin)
    as (_ & _ & _ & _ & _ & _ & Hfs & _).
  intros q Hq. destruct (decide (q = p)) as [->|Hne]; [right; exists i; eauto|].
  left. destruct (process_long_audio_keeps E p (with_fs ({[p]} ∪ fs (outside a)) (outside a)))
    as (t' & w2' & Hjob' & Hsub).
  rewrite Hjob in Hjob'. injection Hjob' as <- <-.
  assert (Hq2 : q ∈ fs w2 ∖ {[p]}).
  { apply elem_of_difference. split; [apply Hsub; cbn [fs with_fs]; set_solver|set_solver]. }
  rewrite <- Hfs in Hq2. set_solver.
Qed.

(** X19.  Line 219 asks for no download when the audio file of the video is
    on disk already: the handler then behaves the same whatever the
    download would have done.  It transcribes the file it found, stores the
    result in [yt_result], with [progress] as [process_long_audio] left it,
    and then calls [safe_delete] on that file, so the file is gone
    afterwards or exactly one deletion warning has been shown for it. *)
Theorem youtube_job_reuses_audio_on_disk (E : Env) (net net' : Net)
    (video_url : string) (a : visit) (i : info) (p : string) :
  extract_info net video_url = inr i ->
  extract_info net' video_url = inr i ->
  audio_filename_of (prepare_filename i) = inr p ->
  p ∈ fs (outside a) ->
  exists t w2 evs a',
    process_long_audio E p (outside a) = (Ok t, w2)
    /\ youtube_job E net video_url a = (Ok tt, a')
    /\ youtube_job E net' video_url a = (Ok tt, a')
    /\ session_state a'
       = <["processing" := PyBool false]>
           (<["yt_result" := PyStr t]> (assigned_progress (outside a) w2 (session_state a)))
    /\ trace (outside a') = trace w2 ++ evs
    /\ n_safe_delete (outside a') = S (n_safe_delete w2)
    /\ errors_shown evs = []
    /\ delete_warnings evs = (if bool_decide (p ∈ fs (outside a')) then 1 else 0)%nat.
Proof.
  intros Hinfo Hinfo' Hp Hcached.
  destruct (youtube_job_run E net video_url a) as (a1 & Hrun1 & Hcase1).
  destruct (youtube_job_run E net' video_url a) as (a2 & Hrun2 & Hcase2).
  rewrite Hinfo in Hcase1. rewrite Hinfo' in Hcase2.
  destruct Hcase1 as (p1 & Hp1 & Hcase1). destruct Hcase2 as (p2 & Hp2 & Hcase2).
  rewrite Hp in Hp1, Hp2. injection Hp1 as <-. injection Hp2 as <-.
  rewrite bool_decide_eq_true_2 in Hcase1, Hcase2 by exact Hcached.
  rewrite (with_fs_present p (outside a) Hcached) in Hcase1, Hcase2.
  destruct Hcase1 as (t & w2 & Hjob & Hin & ->).
  destruct Hcase2 as (t' & w2' & Hjob' & _ & ->).
  rewrite Hjob in Hjob'. injection Hjob' as <- <-.
  destruct (job_done_facts E "yt_result" p t (outside a) w2
              [Spinner "Downloading audio..."] a Hin)
    as (Hss & _ & Htr & Hnd & Herr & Hdw & _).
  exists t, w2, (snd (delete_run E (n_safe_delete w2) p)). eexists.
  split; [exact Hjob|]. split; [exact Hrun1|]. split; [exact Hrun2|].
  split; [exact Hss|]. split; [exact Htr|]. split; [exact Hnd|].
  split; [exact Herr|exact Hdw].
Qed.

Lemma youtube_job_reuses_audio_on_disk_witness :
  exists a',
    youtube_job studio online "https://youtu.be/dQw4w9WgXcQ" audio_on_disk = (Ok tt, a')
    /\ youtube_job studio download_fails "https://youtu.be/dQw4w9WgXcQ" audio_on_disk
       = (Ok tt, a')
    /\ session_state a' !! "yt_result"
       = Some (PyStr (String.concat paragraph_separator ["part 0"; "part 1"])).
Proof.
  assert (Hinfo : extract_info online "https://youtu.be/dQw4w9WgXcQ" = inr some_video)
    by reflexivity.
  assert (Hinfo' : extract_info download_fails "https://youtu.be/dQw4w9WgXcQ"
                   = inr some_video) by reflexivity.
  assert (Hp : audio_filename_of (prepare_filename some_video)
               = inr "yt_audio_dQw4w9WgXcQ.mp3") by reflexivity.
  assert (Hcached : "yt_audio_dQw4w9WgXcQ.mp3" ∈ fs (outside audio_on_disk))
    by (apply (bool_decide_unpack _); vm_compute; exact I).
  destruct (youtube_job_reuses_audio_on_disk studio online download_fails
              "https://youtu.be/dQw4w9WgXcQ" audio_on_disk some_video
              "yt_audio_dQw4w9WgXcQ.mp3" Hinfo Hinfo' Hp Hcached)
    as (t & w2 & evs & a' & Hjob & Hrun & Hrun' & Hss & _).
  assert (Ht : t = String.concat paragraph_separator ["part 0"; "part 1"]).
  { apply (f_equal fst) in Hjob. cbn [fst] in Hjob.
    assert (Hval : fst (process_long_audio studio "yt_audio_dQw4w9WgXcQ.mp3"
                          (outside audio_on_disk))
                   = Ok (String.concat paragraph_separator ["part 0"; "part 1"]))
      by (vm_compute; reflexivity).
    rewrite Hval in Hjob. injection Hjob as <-. reflexivity. }
  exists a'. split; [exact Hrun|]. split; [exact Hrun'|].
  rewrite Hss, Ht. rewrite lookup_insert_ne by discriminate. apply lookup_insert_eq.
Defined.

(** X20.  When the video cannot be looked up, or its audio file is not on
    disk and the download fails, the handler reports
    [YouTube processing error: ...] once and stops: the handler creates and
    removes no file, [safe_delete] is not called, nothing is transcribed and
    [yt_result] stays as it was. *)
Theorem youtube_failure_is_reported (E : Env) (net : Net) (video_url : string)
    (a : visit) (e : exn) :
  (extract_info net video_url = inl e
   \/ exists i p,
        extract_info net video_url = inr i
        /\ audio_filename_of (prepare_filename i) = inr p
        /\ (p ∉ fs (outside a))
        /\ download_outcome net video_url = Some e) ->
  exists a',
    youtube_job E net video_url a = (Ok tt, a')
    /\ a' = youtube_gave_up a e
    /\ trace (outside a')
       = trace (outside a) ++ [StError ("YouTube processing error: " +:+ exn_str e)]
    /\ fs (outside a') = fs (outside a)
    /\ n_safe_delete (outside a') = n_safe_delete (outside a)
    /\ n_transcribe (outside a') = n_transcribe (outside a)
    /\ session_state a' !! "yt_result" = session_state a !! "yt_result"
    /\ session_state a' !! "processing" = Some (PyBool false).
Proof.
  intros Hwhy.
  destruct (youtube_job_run E net video_url a) as (a' & Hrun & Hcase).
  exists a'. split; [exact Hrun|].
  assert (Ha' : a' = youtube_gave_up a e).
  { destruct Hwhy as [Hinfo|(i & p & Hinfo & Hp & Hmissing & Hdl)];
      rewrite Hinfo in Hcase; [exact Hcase|].
    destruct Hcase as (p' & Hp' & Hcase). rewrite Hp in Hp'. injection Hp' as <-.
    rewrite bool_decide_eq_false_2, Hdl in Hcase by exact Hmissing. exact Hcase. }
  split; [exact Ha'|]. subst a'. unfold youtube_gave_up. norm_visit. norm_world.
  repeat (split; [reflexivity|]).
  split; [apply lookup_insert_ne; discriminate|apply lookup_insert_eq].
Qed.

Lemma youtube_failure_is_reported_witness :
  exists a',
    youtube_job studio download_fails "https://youtu.be/dQw4w9WgXcQ" idle_visit
    = (Ok tt, a')
    /\ trace (outside a') = [StError "YouTube processing error: Video unavailable"]
    /\ session_state a' !! "yt_result" = Some PyNone.
Proof.
  assert (Hwhy : extract_info download_fails "https://youtu.be/dQw4w9WgXcQ" = inl unavailable
                 \/ exists i p,
                      extract_info download_fails "https://youtu.be/dQw4w9WgXcQ" = inr i
                      /\ audio_filename_of (prepare_filename i) = inr p
                      /\ (p ∉ fs (outside idle_visit))
                      /\ download_outcome download_fails "https://youtu.be/dQw4w9WgXcQ"
                         = Some unavailable).
  { right. exists some_video, "yt_audio_dQw4w9WgXcQ.mp3".
    split; [reflexivity|]. split; [reflexivity|].
    split; [apply not_elem_of_empty|reflexivity]. }
  destruct (youtube_failure_is_reported studio download_fails
              "https://youtu.be/dQw4w9WgXcQ" idle_visit unavailable Hwhy)
    as (a' & Hrun & _ & Htr & _ & _ & _ & Hres & _).
  exists a'. split; [exact Hrun|]. split; [exact Htr|exact Hres].
Defined.

(** X21.  When the video is found, its audio file is not on disk and the
    download succeeds, the handler transcribes the downloaded file, stores
    the result in [yt_result], with [progress] as [process_long_audio] left
    it, and calls [safe_delete] on the file: it is gone afterwards or
    exactly one deletion warning has been shown for it.
    If moreover the [try] block of [process_long_audio] completed and no
    deletion warning was shown at all, the disk is exactly as before the
    click. *)
Theorem youtube_job_downloads_and_cleans_up (E : Env) (net : Net)
    (video_url : string) (a : visit) (i : info) (p : string) :
  extract_info net video_url = inr i ->
  audio_filename_of (prepare_filename i) = inr p ->
  p ∉ fs (outside a) ->
  download_outcome net video_url = None ->
  exists t w2 evsJ evsD a',
    process_long_audio E p (with_fs ({[p]} ∪ fs (outside a)) (outside a)) = (Ok t, w2)
    /\ youtube_job E net video_url a = (Ok tt, a')
    /\ session_state a'
       = <["processing" := PyBool false]>
           (<["yt_result" := PyStr t]>
              (assigned_progress (with_fs ({[p]} ∪ fs (outside a)) (outside a)) w2
                 (session_state a)))
    /\ trace w2 = trace (outside a) ++ evsJ
    /\ trace (outside a') = trace w2 ++ evsD
    /\ n_safe_delete (outside a') = S (n_safe_delete w2)
    /\ errors_shown evsD = []
    /\ delete_warnings evsD = (if bool_decide (p ∈ fs (outside a')) then 1 else 0)%nat
    /\ (forall tb wb,
          process_long_audio_body E p (with_fs ({[p]} ∪ fs (outside a)) (outside a))
          = (Ok tb, wb) ->
          delete_warnings (evsJ ++ evsD) = 0%nat ->
          fs (outside a') = fs (outside a)).
Proof.
  intros Hinfo Hp Hmissing Hdl.
  destruct (youtube_job_run E net video_url a) as (a' & Hrun & Hcase).
  rewrite Hinfo in Hcase. destruct Hcase as (p' & Hp' & Hcase).
  rewrite Hp in Hp'. injection Hp' as <-.
  rewrite bool_decide_eq_false_2, Hdl in Hcase by exact Hmissing.
  destruct Hcase as (t & w2 & Hjob & Hin & ->).
  destruct (job_done_facts E "yt_result" p t
              (with_fs ({[p]} ∪ fs (outside a)) (outside a)) w2
              [Spinner "Downloading audio..."] a Hin)
    as (Hss & _ & Htr & Hnd & Herr & Hdw & Hfs & _).
  destruct (process_long_audio_disk E p (with_fs ({[p]} ∪ fs (outside a)) (outside a)))
    as (t' & w2' & evsJ & Hjob' & HtrJ & HfsJ & Hsize).
  rewrite Hjob in Hjob'. injection Hjob' as <- <-.
  exists t, w2, evsJ, (snd (delete_run E (n_safe_delete w2) p)). eexists.
  split; [exact Hjob|]. split; [exact Hrun|]. split; [exact Hss|].
  split; [exact HtrJ|]. split; [exact Htr|]. split; [exact Hnd|].
  split; [exact Herr|]. split; [exact Hdw|].
  intros tb wb Hbody Hquiet. rewrite delete_warnings_app in Hquiet.
  destruct (job_restores_disk E p _ t w2 tb wb Hjob Hbody) as (evs & Htr2 & Hsame).
  rewrite HtrJ in Htr2. apply app_inv_head in Htr2. subst evs.
  cbn [fs with_fs] in Hsame. rewrite Hsame in Hfs by lia.
  assert (Hgone : p ∉ fs (outside (job_done E "yt_result" p t
                                     (with_fs ({[p]} ∪ fs (outside a)) (outside a)) w2
                                     [Spinner "Downloading audio..."] a))).
  { intros Hstill. rewrite bool_decide_eq_true_2 in Hdw by exact Hstill. lia. }
  apply leibniz_equiv. set_solver.
Qed.

Lemma youtube_job_downloads_and_cleans_up_witness :
  exists a',
    youtube_job studio online "https://youtu.be/dQw4w9WgXcQ" idle_visit = (Ok tt, a')
    /\ session_state a' !! "yt_result"
       = Some (PyStr (String.concat paragraph_separator ["part 0"; "part 1"]))
    /\ session_state a' !! "processing" = Some (PyBool false).
Proof.
  assert (Hinfo : extract_info online "https://youtu.be/dQw4w9WgXcQ" = inr some_video)
    by reflexivity.
  assert (Hp : audio_filename_of (prepare_filename some_video)
               = inr "yt_audio_dQw4w9WgXcQ.mp3") by reflexivity.
  assert (Hmissing : "yt_audio_dQw4w9WgXcQ.mp3" ∉ fs (outside idle_visit))
    by apply not_elem_of_empty.
  assert (Hdl : download_outcome online "https://youtu.be/dQw4w9WgXcQ" = None)
    by reflexivity.
  destruct (youtube_job_downloads_and_cleans_up studio online
              "https://youtu.be/dQw4w9WgXcQ" idle_visit some_video
              "yt_audio_dQw4w9WgXcQ.mp3" Hinfo Hp Hmissing Hdl)
    as (t & w2 & evsJ & evsD & a' & Hjob & Hrun & Hss & _).
  assert (Ht : t = String.concat paragraph_separator ["part 0"; "part 1"]).
  { apply (f_equal fst) in Hjob. cbn [fst] in Hjob.
    assert (Hval : fst (process_long_audio studio "yt_audio_dQw4w9WgXcQ.mp3"
                          (with_fs ({["yt_audio_dQw4w9WgXcQ.mp3"]} ∪ fs (outside idle_visit))
                             (outside idle_visit)))
                   = Ok (String.concat paragraph_separator ["part 0"; "part 1"]))
      by (vm_compute; reflexivity).
    rewrite Hval in Hjob. injection Hjob as <-. reflexivity. }
  exists a'. split; [exact Hrun|]. rewrite Hss, Ht.
  split; [rewrite lookup_insert_ne by discriminate|]; apply lookup_insert_eq.
Defined.

(** ** The columns *)

Lemma initialized_lookup ss key :
  initialized ss -> key ∈ session_keys -> exists v, ss !! key = Some v.
Proof.
  intros Hinit Hkey. unfold initialized in Hinit. rewrite Forall_forall in Hinit.
  exact (Hinit key Hkey).
Qed.

Lemma initialized_insert ss key v : initialized ss -> initialized (<[key := v]> ss).
Proof.
  unfold initialized. intros H. eapply Forall_impl; [exact H|]. intros k Hk.
  apply lookup_insert_is_Some'. right. exact Hk.
Qed.

Lemma initialized_after_upload_click inp ss :
  initialized ss -> initialized (after_upload_click inp ss).
Proof.
  intros H. unfold after_upload_click. destruct (upload_audio_clicked inp); [|exact H].
  repeat apply initialized_insert. exact H.
Qed.

Lemma initialized_after_url_click inp ss :
  initialized ss -> initialized (after_url_click inp ss).
Proof.
  intros H. unfold after_url_click. destruct (enter_url_clicked inp); [|exact H].
  repeat apply initialized_insert. exact H.
Qed.

Lemma get_state_present key v a :
  session_state a !! key = Some v -> get_state key a = (Ok v, a).
Proof. intros H. unfold get_state. rewrite H. reflexivity. Qed.

(** Lines 168-176 and 238-246: the stored result is offered when it is
    truthy. *)
Lemma result_tail key file_name area_label res a :
  session_state a !! key = Some res ->
  (result <- get_state key ;;
   when (truthy result)
     (data <- get_state key ;;
      show (DownloadButton "Download Transcript" data file_name) ;;;
      value <- get_state key ;;
      show (TextArea area_label value 300)))%script a
  = (Ok tt, with_page (page a ++ result_widgets file_name area_label res) a).
Proof.
  intros Hres. unfold result_widgets, bindS at 1.
  rewrite (get_state_present _ _ _ Hres).
  destruct (truthy res); unfold when, retS;
    [|rewrite app_nil_r; destruct a; reflexivity].
  unfold bindS, show, get_state. flat_visit. rewrite Hres. flat_visit. rewrite Hres.
  flat_visit. rewrite <- app_assoc. reflexivity.
Qed.

Lemma flag_lookup ss key v : ss !! key = Some v -> flag ss key = truthy v.
Proof. intros H. unfold flag. rewrite H. reflexivity. Qed.

Section Columns.
Variable E : Env.
Variable net : Net.

Lemma audio_column_run inp a :
  initialized (session_state a) ->
  let ss0 := after_upload_click inp (session_state a) in
  let head := page a ++ [Subheader "Audio File Transcription"; Button "Upload Audio File"] in
  let uploader := FileUploader "Select audio file" ["mp3"; "wav"; "m4a"] in
  exists a',
    audio_column E net inp a = (Ok tt, a')
    /\ if flag ss0 "aud_transcribe" then
         match audio_file inp with
         | Some data =>
             if flag ss0 "processing" then
               exists res,
                 ss0 !! "audio_result" = Some res
                 /\ a' = Visit ss0 (temp_path a)
                           (head ++ [uploader]
                            ++ result_widgets "audio_transcript.txt" "Transcription Result" res)
                           (outside a)
             else
               exists a2 res,
                 audio_job E net data
                   (Visit ss0 (temp_path a) (head ++ [uploader]) (outside a))
                 = (Ok tt, a2)
                 /\ session_state a2 !! "audio_result" = Some res
                 /\ a' = with_page
                           (head ++ [uploader]
                            ++ (if truthy res then [Success "Audio processing complete!"]
                                else [])
                            ++ result_widgets "audio_transcript.txt" "Transcription Result"
                                 res)
                           a2
         | None =>
             exists res,
               ss0 !! "audio_result" = Some res
               /\ a' = Visit ss0 (temp_path a)
                         (head ++ [uploader]
                          ++ result_widgets "audio_transcript.txt" "Transcription Result" res)
                         (outside a)
         end
       else a' = Visit ss0 (temp_path a) head (outside a).
Proof.
  intros Hinit. cbn zeta.
  pose proof (initialized_after_upload_click inp _ Hinit) as Hinit0.
  set (ss0 := after_upload_click inp (session_state a)) in *.
  destruct (initialized_lookup ss0 "aud_transcribe" Hinit0) as [aud Haud];
    [unfold session_keys; set_solver|].
  destruct (initialized_lookup ss0 "processing" Hinit0) as [proc Hproc];
    [unfold session_keys; set_solver|].
  destruct (initialized_lookup ss0 "audio_result" Hinit0) as [res0 Hres0];
    [unfold session_keys; set_solver|].
  rewrite (flag_lookup _ _ _ Haud), (flag_lookup _ _ _ Hproc).
  assert (Hhead : audio_column E net inp a
                  = (aud_transcribe <- get_state "aud_transcribe" ;;
                     when (truthy aud_transcribe)
                       (show (FileUploader "Select audio file" ["mp3"; "wav"; "m4a"]) ;;;
                        match audio_file inp with
                        | Some data =>
                            go <- and_not_processing true ;;
                            when go
                              (audio_job E net data ;;;
                               audio_result <- get_state "audio_result" ;;
                               when (truthy audio_result)
                                 (show (Success "Audio processing complete!")))
                        | None => retS tt
                        end ;;;
                        audio_result <- get_state "audio_result" ;;
                        when (truthy audio_result)
                          (data <- get_state "audio_result" ;;
                           show (DownloadButton "Download Transcript" data
                                   "audio_transcript.txt") ;;;
                           value <- get_state "audio_result" ;;
                           show (TextArea "Transcription Result" value 300))))%script
                      (Visit ss0 (temp_path a)
                         (page a ++ [Subheader "Audio File Transcription";
                                     Button "Upload Audio File"])
                         (outside a))).
  { unfold audio_column, st_button, show, when, set_state, retS, ss0, after_upload_click.
    unfold bindS at 1 2 3 4 5. flat_visit.
    destruct (upload_audio_clicked inp); unfold bindS at 1 2 3; flat_visit;
      rewrite <- app_assoc; reflexivity. }
  rewrite Hhead. clear Hhead.
  unfold bindS at 1. erewrite get_state_present by exact Haud.
  destruct (truthy aud); [|eexists; split; reflexivity].
  unfold when at 1. unfold bindS at 1. unfold show at 1. flat_visit.
  rewrite <- app_assoc. cbn [app].
  destruct (audio_file inp) as [data|].
  2:{ unfold bindS at 1, retS at 1.
      erewrite result_tail by exact Hres0. flat_visit.
      eexists. split; [reflexivity|]. exists res0. split; [exact Hres0|].
      rewrite <- !app_assoc. reflexivity. }
  unfold bindS at 1. unfold bindS at 1. unfold and_not_processing.
  unfold bindS at 1. erewrite get_state_present by exact Hproc. unfold retS at 1.
  destruct (truthy proc); cbn [negb]; unfold when at 1.
  { unfold retS at 1. erewrite result_tail by exact Hres0. flat_visit.
    eexists. split; [reflexivity|]. exists res0. split; [exact Hres0|].
    rewrite <- !app_assoc. reflexivity. }
  unfold bindS at 1.
  destruct (audio_job_session E net data
              (Visit ss0 (temp_path a)
                 (page a ++ [Subheader "Audio File Transcription";
                             Button "Upload Audio File";
                             FileUploader "Select audio file" ["mp3"; "wav"; "m4a"]])
                 (outside a))) as (a2 & Hjob & Hpg & Hss).
  rewrite Hjob.
  assert (Hres : exists res, session_state a2 !! "audio_result" = Some res).
  { destruct Hss as [->|(t & w1 & w2 & ->)]; cbn [session_state].
    - exists res0. rewrite lookup_insert_ne by discriminate. exact Hres0.
    - exists (PyStr t). rewrite lookup_insert_ne by discriminate. apply lookup_insert_eq. }
  destruct Hres as [res Hres].
  unfold bindS at 1. rewrite (get_state_present _ _ _ Hres).
  cbn [page] in Hpg.
  exists (with_page
            ((page a ++ [Subheader "Audio File Transcription"; Button "Upload Audio File"])
             ++ [FileUploader "Select audio file" ["mp3"; "wav"; "m4a"]]
             ++ (if truthy res then [Success "Audio processing complete!"] else [])
             ++ result_widgets "audio_transcript.txt" "Transcription Result" res) a2).
  split.
  { destruct (truthy res) eqn:Hres_t; unfold when at 1.
    - unfold show at 1. erewrite result_tail by exact Hres. flat_visit.
      rewrite Hpg, <- !app_assoc. reflexivity.
    - unfold retS at 1. rewrite (result_tail _ _ _ _ _ Hres). flat_visit.
      rewrite Hpg, <- !app_assoc. reflexivity. }
  exists a2, res. split; [reflexivity|]. split; [exact Hres|].
  rewrite <- !app_assoc. reflexivity.
Qed.

Lemma youtube_column_run inp a :
  initialized (session_state a) ->
  let ss0 := after_url_click inp (session_state a) in
  let head := page a ++ [Subheader "YouTube Video Transcription";
                         Button "Enter YouTube URL"] in
  let input := TextInput "Paste YouTube URL:" "https://www.youtube.com/watch?v=..." in
  exists a',
    youtube_column E net inp a = (outcome (video_failure net inp ss0), a')
    /\ if flag ss0 "yt_transcribe" then
         if truthy_str (url inp) then
           match video_outcome net (url inp) with
           | Some _ => a' = Visit ss0 (temp_path a) (head ++ [input]) (outside a)
           | None =>
               if transcribe_video_clicked inp && negb (flag ss0 "processing") then
                 exists a2 res,
                   youtube_job E net (url inp)
                     (Visit ss0 (temp_path a)
                        (head ++ [input; Video (url inp); Button "Transcribe Video"])
                        (outside a))
                   = (Ok tt, a2)
                   /\ session_state a2 !! "yt_result" = Some res
                   /\ a' = with_page
                             (head ++ [input; Video (url inp); Button "Transcribe Video";
                                       Spinner "Downloading audio..."]
                              ++ (if truthy res
                                  then [Success "YouTube processing complete!"] else [])
                              ++ result_widgets "youtube_transcript.txt"
                                   "YouTube Transcription" res)
                             a2
               else
                 exists res,
                   ss0 !! "yt_result" = Some res
                   /\ a' = Visit ss0 (temp_path a)
                             (head ++ [input; Video (url inp); Button "Transcribe Video"]
                              ++ result_widgets "youtube_transcript.txt"
                                   "YouTube Transcription" res)
                             (outside a)
           end
         else
           exists res,
             ss0 !! "yt_result" = Some res
             /\ a' = Visit ss0 (temp_path a)
                       (head ++ [input]
                        ++ result_widgets "youtube_transcript.txt" "YouTube Transcription"
                             res)
                       (outside a)
       else a' = Visit ss0 (temp_path a) head (outside a).
Proof.
  intros Hinit. cbn zeta.
  pose proof (initialized_after_url_click inp _ Hinit) as Hinit0.
  set (ss0 := after_url_click inp (session_state a)) in *.
  destruct (initialized_lookup ss0 "yt_transcribe" Hinit0) as [yt Hyt];
    [unfold session_keys; set_solver|].
  destruct (initialized_lookup ss0 "processing" Hinit0) as [proc Hproc];
    [unfold session_keys; set_solver|].
  destruct (initialized_lookup ss0 "yt_result" Hinit0) as [res0 Hres0];
    [unfold session_keys; set_solver|].
  unfold video_failure, outcome.
  rewrite (flag_lookup _ _ _ Hyt), (flag_lookup _ _ _ Hproc).
  assert (Hhead : youtube_column E net inp a
                  = (yt_transcribe <- get_state "yt_transcribe" ;;
                     when (truthy yt_transcribe)
                       (show (TextInput "Paste YouTube URL:"
                                "https://www.youtube.com/watch?v=...") ;;;
                        when (truthy_str (url inp))
                          (st_video net (url inp) ;;;
                           clicked <- st_button "Transcribe Video"
                                        (transcribe_video_clicked inp) ;;
                           go <- and_not_processing clicked ;;
                           when go
                             (youtube_job E net (url inp) ;;;
                              yt_result <- get_state "yt_result" ;;
                              when (truthy yt_result)
                                (show (Success "YouTube processing complete!")))) ;;;
                        yt_result <- get_state "yt_result" ;;
                        when (truthy yt_result)
                          (data <- get_state "yt_result" ;;
                           show (DownloadButton "Download Transcript" data
                                   "youtube_transcript.txt") ;;;
                           value <- get_state "yt_result" ;;
                           show (TextArea "YouTube Transcription" value 300))))%script
                      (Visit ss0 (temp_path a)
                         (page a ++ [Subheader "YouTube Video Transcription";
                                     Button "Enter YouTube URL"])
                         (outside a))).
  { unfold youtube_column, st_button, show, when, set_state, retS, ss0, after_url_click.
    unfold bindS at 1 2 3 4 5. norm_visit.
    destruct (enter_url_clicked inp); unfold bindS at 1 2 3; norm_visit;
      rewrite <- app_assoc; reflexivity. }
  rewrite Hhead. clear Hhead.
  unfold bindS at 1. erewrite get_state_present by exact Hyt.
  destruct (truthy yt); [|eexists; split; reflexivity].
  unfold when at 1. unfold bindS at 1. unfold show at 1. flat_visit.
  rewrite <- app_assoc. cbn [app].
  destruct (truthy_str (url inp)).
  2:{ unfold bindS at 1, when at 1, retS at 1.
      erewrite result_tail by exact Hres0. flat_visit.
      eexists. split; [reflexivity|]. exists res0. split; [exact Hres0|].
      rewrite <- !app_assoc. reflexivity. }
  unfold bindS at 1. unfold when at 1. unfold bindS at 1. unfold st_video at 1.
  cbn [andb].
  destruct (video_outcome net (url inp)) as [e|].
  { eexists. split; reflexivity. }
  flat_visit.
  unfold bindS at 1. unfold st_button at 1. unfold bindS at 1. unfold show at 1.
  flat_visit. unfold retS at 1. rewrite <- !app_assoc. cbn [app].
  unfold bindS at 1. unfold and_not_processing.
  assert (Hskip : forall go,
            go = false ->
            exists a',
              (let (r, a'0) :=
                 when go
                   (youtube_job E net (url inp) ;;;
                    yt_result <- get_state "yt_result" ;;
                    when (truthy yt_result)
                      (show (Success "YouTube processing complete!")))%script
                   (Visit ss0 (temp_path a)
                      (page a ++ [Subheader "YouTube Video Transcription";
                                  Button "Enter YouTube URL";
                                  TextInput "Paste YouTube URL:"
                                    "https://www.youtube.com/watch?v=...";
                                  Video (url inp); Button "Transcribe Video"])
                      (outside a)) in
               match r with
               | Ok _ =>
                   (yt_result <- get_state "yt_result" ;;
                    when (truthy yt_result)
                      (data <- get_state "yt_result" ;;
                       show (DownloadButton "Download Transcript" data
                               "youtube_transcript.txt") ;;;
                       value <- get_state "yt_result" ;;
                       show (TextArea "YouTube Transcription" value 300)))%script a'0
               | Raise e => (Raise e, a'0)
               end) = (Ok tt, a')
              /\ exists res,
                   ss0 !! "yt_result" = Some res
                   /\ a' = Visit ss0 (temp_path a)
                             ((page a ++ [Subheader "YouTube Video Transcription";
                                          Button "Enter YouTube URL"])
                              ++ [TextInput "Paste YouTube URL:"
                                    "https://www.youtube.com/watch?v=...";
                                  Video (url inp); Button "Transcribe Video"]
                              ++ result_widgets "youtube_transcript.txt"
                                   "YouTube Transcription" res)
                             (outside a)).
  { intros go ->. unfold when at 1, retS at 1.
    erewrite result_tail by exact Hres0. flat_visit.
    eexists. split; [reflexivity|]. exists res0. split; [exact Hres0|].
    rewrite <- !app_assoc. reflexivity. }
  destruct (transcribe_video_clicked inp); cbn [andb];
    [|unfold retS at 1; apply Hskip; reflexivity].
  unfold bindS at 1. erewrite get_state_present by exact Hproc. unfold retS at 1.
  destruct (truthy proc); cbn [negb]; [apply Hskip; reflexivity|]. clear Hskip.
  unfold when at 1. unfold bindS at 1.
  destruct (youtube_job_session E net (url inp)
              (Visit ss0 (temp_path a)
                 (page a ++ [Subheader "YouTube Video Transcription";
                             Button "Enter YouTube URL";
                             TextInput "Paste YouTube URL:"
                               "https://www.youtube.com/watch?v=...";
                             Video (url inp); Button "Transcribe Video"])
                 (outside a))) as (a2 & Hjob & Hpg & Hss).
  rewrite Hjob.
  assert (Hres : exists res, session_state a2 !! "yt_result" = Some res).
  { destruct Hss as [->|(t & w1 & w2 & ->)]; cbn [session_state].
    - exists res0. rewrite lookup_insert_ne by discriminate. exact Hres0.
    - exists (PyStr t). rewrite lookup_insert_ne by discriminate. apply lookup_insert_eq. }
  destruct Hres as [res Hres].
  unfold bindS at 1. rewrite (get_state_present _ _ _ Hres).
  cbn [page] in Hpg.
  exists (with_page
            ((page a ++ [Subheader "YouTube Video Transcription";
                         Button "Enter YouTube URL"])
             ++ [TextInput "Paste YouTube URL:" "https://www.youtube.com/watch?v=...";
                 Video (url inp); Button "Transcribe Video";
                 Spinner "Downloading audio..."]
             ++ (if truthy res then [Success "YouTube processing complete!"] else [])
             ++ result_widgets "youtube_transcript.txt" "YouTube Transcription" res) a2).
  split.
  { destruct (truthy res) eqn:Hres_t; unfold when at 1.
    - unfold show at 1. erewrite result_tail by exact Hres. flat_visit.
      rewrite Hpg, <- !app_assoc. reflexivity.
    - unfold retS at 1. rewrite (result_tail _ _ _ _ _ Hres). flat_visit.
      rewrite Hpg, <- !app_assoc. reflexivity. }
  exists a2, res. split; [reflexivity|]. split; [exact Hres|].
  rewrite <- !app_assoc. reflexivity.
Qed.

Lemma audio_column_effect inp a :
  initialized (session_state a) ->
  exists a',
    audio_column E net inp a = (Ok tt, a')
    /\ job_effect "audio_result" (after_upload_click inp (session_state a))
         (session_state a')
    /\ (audio_job_runs inp (session_state a) = false ->
        session_state a' = after_upload_click inp (session_state a)
        /\ outside a' = outside a).
Proof.
  intros Hinit. destruct (audio_column_run inp a Hinit) as (a' & Hrun & Hcase).
  cbn zeta in Hcase. exists a'. split; [exact Hrun|].
  unfold audio_job_runs.
  set (ss0 := after_upload_click inp (session_state a)) in *.
  assert (Hnone : forall pg, a' = Visit ss0 (temp_path a) pg (outside a) ->
            job_effect "audio_result" ss0 (session_state a')
            /\ (flag ss0 "aud_transcribe" && bool_decide (is_Some (audio_file inp))
                && negb (flag ss0 "processing") = false ->
                session_state a' = ss0 /\ outside a' = outside a)).
  { intros pg ->. split; [left; reflexivity|]. intros _. split; reflexivity. }
  destruct (flag ss0 "aud_transcribe"); [|exact (Hnone _ Hcase)].
  destruct (audio_file inp) as [data|];
    [|destruct Hcase as (res & _ & Hcase); exact (Hnone _ Hcase)].
  destruct (flag ss0 "processing");
    [destruct Hcase as (res & _ & Hcase); exact (Hnone _ Hcase)|].
  destruct Hcase as (a2 & res & Hjob & _ & ->).
  clear Hnone.
  match type of Hjob with
  | audio_job _ _ _ ?a1 = _ =>
      destruct (audio_job_session E net data a1) as (a2' & Hjob' & _ & Hss)
  end.
  rewrite Hjob' in Hjob. injection Hjob as ->. cbn [session_state] in Hss.
  split; [right; exact Hss|].
  rewrite bool_decide_eq_true_2 by eauto. cbn. discriminate.
Qed.

Lemma youtube_column_effect inp a :
  initialized (session_state a) ->
  exists a',
    youtube_column E net inp a
    = (outcome (video_failure net inp (after_url_click inp (session_state a))), a')
    /\ job_effect "yt_result" (after_url_click inp (session_state a)) (session_state a')
    /\ (youtube_job_runs inp (session_state a) = false ->
        session_state a' = after_url_click inp (session_state a)
        /\ outside a' = outside a).
Proof.
  intros Hinit. destruct (youtube_column_run inp a Hinit) as (a' & Hrun & Hcase).
  cbn zeta in Hcase. exists a'. split; [exact Hrun|].
  unfold youtube_job_runs.
  set (ss0 := after_url_click inp (session_state a)) in *.
  assert (Hnone : forall pg, a' = Visit ss0 (temp_path a) pg (outside a) ->
            job_effect "yt_result" ss0 (session_state a')
            /\ (flag ss0 "yt_transcribe" && truthy_str (url inp)
                && transcribe_video_clicked inp && negb (flag ss0 "processing") = false ->
                session_state a' = ss0 /\ outside a' = outside a)).
  { intros pg ->. split; [left; reflexivity|]. intros _. split; reflexivity. }
  destruct (flag ss0 "yt_transcribe"); [|exact (Hnone _ Hcase)].
  destruct (truthy_str (url inp));
    [|destruct Hcase as (res & _ & Hcase); exact (Hnone _ Hcase)].
  destruct (video_outcome net (url inp)) as [e|]; [exact (Hnone _ Hcase)|].
  destruct (transcribe_video_clicked inp); cbn [andb] in *;
    [|destruct Hcase as (res & _ & Hcase); exact (Hnone _ Hcase)].
  destruct (flag ss0 "processing"); cbn [negb] in *;
    [destruct Hcase as (res & _ & Hcase); exact (Hnone _ Hcase)|].
  destruct Hcase as (a2 & res & Hjob & _ & ->).
  clear Hnone.
  match type of Hjob with
  | youtube_job _ _ _ ?a1 = _ =>
      destruct (youtube_job_session E net (url inp) a1) as (a2' & Hjob' & _ & Hss)
  end.
  rewrite Hjob' in Hjob. injection Hjob as ->. cbn [session_state] in Hss.
  split; [right; exact Hss|]. discriminate.
Qed.

Lemma initialized_defaults ss : initialized (ss ∪ default_state).
Proof.
  unfold initialized, session_keys.
  assert (Hkey : forall key, is_Some (default_state !! key) ->
                     is_Some ((ss ∪ default_state) !! key)).
  { intros key Hd. destruct (ss !! key) eqn:Hk.
    - erewrite lookup_union_Some_l by exact Hk. eauto.
    - rewrite lookup_union_r by exact Hk. exact Hd. }
  repeat (constructor; [apply Hkey; rewrite default_state_lookup; cbn; eauto|]).
  constructor.
Qed.

Lemma initialized_assigned_progress w w' ss :
  initialized ss -> initialized (assigned_progress w w' ss).
Proof.
  unfold initialized. intros H. eapply Forall_impl; [exact H|]. intros k Hk.
  apply assigned_progress_is_Some. exact Hk.
Qed.

Lemma job_effect_initialized key ss0 ss' :
  initialized ss0 -> job_effect key ss0 ss' -> initialized ss'.
Proof.
  intros Hinit [->|[->|(t & w1 & w2 & ->)]]; [exact Hinit|..];
    repeat apply initialized_insert; [|apply initialized_assigned_progress]; exact Hinit.
Qed.

Lemma flag_ext ss ss' k : ss' !! k = ss !! k -> flag ss' k = flag ss k.
Proof. intros H. unfold flag. rewrite H. reflexivity. Qed.

Lemma job_effect_flag key k ss0 ss' :
  k <> "processing" -> k <> key -> k <> "progress" ->
  job_effect key ss0 ss' -> ss' !! k = ss0 !! k.
Proof.
  intros H1 H2 H3 [->|[->|(t & w1 & w2 & ->)]]; [reflexivity|..];
    rewrite !lookup_insert_ne by congruence; [reflexivity|].
  apply assigned_progress_lookup. exact H3.
Qed.

(** The mode in which the YouTube column is drawn is settled once both
    mode buttons are handled, whatever the upload handler did. *)
Lemma youtube_mode_settled inp ss s1 :
  job_effect "audio_result" (after_upload_click inp (ss ∪ default_state)) s1 ->
  flag (after_url_click inp s1) "yt_transcribe" = flag (modes_set inp ss) "yt_transcribe".
Proof.
  intros Heff. unfold modes_set, after_url_click. destruct (enter_url_clicked inp).
  - unfold flag. rewrite !(lookup_insert_ne _ "yt_result" "yt_transcribe") by discriminate.
    rewrite !lookup_insert_eq. reflexivity.
  - apply flag_ext.
    apply (job_effect_flag "audio_result"); [discriminate..|exact Heff].
Qed.

(** One run of the script, column by column: the audio column reaches its
    end, the YouTube column reaches its end or stops at the player, and the
    footer is drawn in the first case. *)
Lemma script_effect inp a :
  let a0 := Visit (session_state a ∪ default_state) None
              [Title "Audio & YouTube Video Transcription"; Columns 2] (outside a) in
  exists a1 a2,
    script E net inp (run_start a)
    = (run_outcome net inp (session_state a),
       match player_failure net inp (session_state a) with
       | Some _ => a2
       | None => with_page (page a2 ++ footer) a2
       end)
    /\ audio_column E net inp a0 = (Ok tt, a1)
    /\ youtube_column E net inp a1 = (run_outcome net inp (session_state a), a2)
    /\ initialized (session_state a1)
    /\ job_effect "audio_result"
         (after_upload_click inp (session_state a ∪ default_state)) (session_state a1)
    /\ (audio_job_runs inp (session_state a ∪ default_state) = false ->
        session_state a1 = after_upload_click inp (session_state a ∪ default_state)
        /\ outside a1 = outside a)
    /\ job_effect "yt_result" (after_url_click inp (session_state a1)) (session_state a2)
    /\ (youtube_job_runs inp (session_state a1) = false ->
        session_state a2 = after_url_click inp (session_state a1)
        /\ outside a2 = outside a1).
Proof.
  cbn zeta.
  destruct (audio_column_effect inp
              (Visit (session_state a ∪ default_state) None
                 [Title "Audio & YouTube Video Transcription"; Columns 2] (outside a))
              (initialized_defaults _)) as (a1 & Hcol1 & Heff1 & Hidle1).
  cbn [session_state outside] in Heff1, Hidle1.
  assert (Hinit1 : initialized (session_state a1)).
  { eapply job_effect_initialized; [|exact Heff1].
    apply initialized_after_upload_click, initialized_defaults. }
  destruct (youtube_column_effect inp a1 Hinit1) as (a2 & Hcol2 & Heff2 & Hidle2).
  assert (Hsame : video_failure net inp (after_url_click inp (session_state a1))
                  = player_failure net inp (session_state a)).
  { unfold player_failure, video_failure.
    rewrite (youtube_mode_settled inp (session_state a) (session_state a1) Heff1).
    reflexivity. }
  rewrite Hsame in Hcol2. fold (run_outcome net inp (session_state a)) in Hcol2.
  exists a1, a2.
  split.
  { unfold script, run_start. unfold bindS at 1. unfold show at 1. flat_visit.
    unfold bindS at 1. rewrite session_state_initialization_run. flat_visit.
    unfold bindS at 1. unfold show at 1. flat_visit. cbn [app].
    unfold bindS at 1. rewrite Hcol1.
    unfold bindS at 1. rewrite Hcol2.
    unfold run_outcome, outcome.
    destruct (player_failure net inp (session_state a)) as [e|]; [reflexivity|].
    unfold bindS, show, footer. flat_visit. rewrite <- !app_assoc. reflexivity. }
  repeat (split; [assumption || reflexivity|]). exact Hidle2.
Qed.

(** One run as Streamlit ends it. *)
Lemma rerun_effect inp a :
  let a0 := Visit (session_state a ∪ default_state) None
              [Title "Audio & YouTube Video Transcription"; Columns 2] (outside a) in
  exists a1 a2 a',
    rerun E net inp a = (Ok tt, a')
    /\ audio_column E net inp a0 = (Ok tt, a1)
    /\ session_state a' = session_state a2
    /\ outside a' = outside a2
    /\ initialized (session_state a1)
    /\ job_effect "audio_result"
         (after_upload_click inp (session_state a ∪ default_state)) (session_state a1)
    /\ (audio_job_runs inp (session_state a ∪ default_state) = false ->
        session_state a1 = after_upload_click inp (session_state a ∪ default_state)
        /\ outside a1 = outside a)
    /\ job_effect "yt_result" (after_url_click inp (session_state a1)) (session_state a2)
    /\ (youtube_job_runs inp (session_state a1) = false ->
        session_state a2 = after_url_click inp (session_state a1)
        /\ outside a2 = outside a1).
Proof.
  cbn zeta.
  destruct (script_effect inp a)
    as (a1 & a2 & Hrun & Hcol1 & _ & Hinit1 & Heff1 & Hidle1 & Heff2 & Hidle2).
  exists a1, a2. unfold rerun. rewrite Hrun. unfold run_outcome, outcome.
  destruct (player_failure net inp (session_state a)) as [e|];
    (eexists; split; [reflexivity|]; split; [exact Hcol1|];
     split; [reflexivity|]; split; [reflexivity|];
     repeat (split; [assumption|]); exact Hidle2).
Qed.

End Columns.

(** ** A run of the script *)

Lemma flag_insert_eq ss key v : flag (<[key := v]> ss) key = truthy v.
Proof. unfold flag. rewrite lookup_insert_eq. reflexivity. Qed.

Lemma flag_insert_ne ss key k v : key <> k -> flag (<[key := v]> ss) k = flag ss k.
Proof. intros H. unfold flag. rewrite lookup_insert_ne by exact H. reflexivity. Qed.

Lemma flag_defaults ss key :
  key ∈ ["aud_transcribe"; "yt_transcribe"; "processing"] ->
  flag (ss ∪ default_state) key = flag ss key.
Proof.
  intros Hkey. unfold flag. rewrite lookup_union.
  destruct (ss !! key) as [v|] eqn:Hk.
  - destruct (default_state !! key); reflexivity.
  - rewrite default_state_lookup.
    repeat (apply elem_of_cons in Hkey as [->|Hkey]; [reflexivity|]).
    apply elem_of_nil in Hkey. contradiction.
Qed.

Lemma job_effect_processing key ss0 ss' :
  key <> "processing" ->
  job_effect key ss0 ss' ->
  (flag ss0 "processing" = false -> flag ss' "processing" = false)
  /\ (ss0 !! "processing" = Some (PyBool false) ->
      ss' !! "processing" = Some (PyBool false)).
Proof.
  intros Hkey [->|[->|(t & w1 & w2 & ->)]]; [split; intros H; exact H|..];
    (split; intros _; [apply flag_insert_eq|apply lookup_insert_eq]).
Qed.

Lemma after_upload_click_lookup inp ss k :
  k <> "audio_result" -> k <> "aud_transcribe" -> k <> "yt_transcribe" ->
  after_upload_click inp ss !! k = ss !! k.
Proof.
  intros H1 H2 H3. unfold after_upload_click.
  destruct (upload_audio_clicked inp); [|reflexivity].
  rewrite !lookup_insert_ne by congruence. reflexivity.
Qed.

Lemma after_url_click_lookup inp ss k :
  k <> "yt_result" -> k <> "aud_transcribe" -> k <> "yt_transcribe" ->
  after_url_click inp ss !! k = ss !! k.
Proof.
  intros H1 H2 H3. unfold after_url_click.
  destruct (enter_url_clicked inp); [|reflexivity].
  rewrite !lookup_insert_ne by congruence. reflexivity.
Qed.

Lemma after_upload_click_one_mode inp ss :
  one_mode ss -> one_mode (after_upload_click inp ss).
Proof.
  unfold after_upload_click, one_mode.
  destruct (upload_audio_clicked inp); [intros _|intros H; exact H].
  rewrite (flag_insert_ne _ "audio_result" "yt_transcribe") by discriminate.
  rewrite (flag_insert_ne _ "aud_transcribe" "yt_transcribe") by discriminate.
  rewrite flag_insert_eq. apply andb_false_r.
Qed.

Lemma after_url_click_one_mode inp ss :
  one_mode ss -> one_mode (after_url_click inp ss).
Proof.
  unfold after_url_click, one_mode.
  destruct (enter_url_clicked inp); [intros _|intros H; exact H].
  rewrite (flag_insert_ne _ "yt_result" "aud_transcribe") by discriminate.
  rewrite (flag_insert_ne _ "yt_transcribe" "aud_transcribe") by discriminate.
  rewrite flag_insert_eq. reflexivity.
Qed.

Lemma job_effect_one_mode key ss0 ss' :
  key <> "aud_transcribe" -> key <> "yt_transcribe" ->
  job_effect key ss0 ss' -> one_mode ss0 -> one_mode ss'.
Proof.
  intros H1 H2 Heff. unfold one_mode.
  rewrite (flag_ext ss0 ss' "aud_transcribe"), (flag_ext ss0 ss' "yt_transcribe");
    [intros H; exact H|..];
    (apply (job_effect_flag key); [discriminate|congruence|discriminate|exact Heff]).
Qed.

(** ** The results are text *)

Lemma text_at_insert_eq ss key v : text_at (<[key := v]> ss) key = is_text_or_none v.
Proof. unfold text_at. rewrite lookup_insert_eq. reflexivity. Qed.

Lemma text_at_insert_ne ss key k v : key <> k -> text_at (<[key := v]> ss) k = text_at ss k.
Proof. intros H. unfold text_at. rewrite lookup_insert_ne by exact H. reflexivity. Qed.

Lemma text_at_lookup ss key v :
  text_at ss key = true -> ss !! key = Some v -> v = PyNone \/ exists t, v = PyStr t.
Proof.
  unfold text_at. intros H Hv. rewrite Hv in H.
  destruct v; try discriminate H; [left; reflexivity|right; eexists; reflexivity].
Qed.

Lemma results_are_text_insert ss key v :
  key <> "audio_result" -> key <> "yt_result" ->
  results_are_text ss -> results_are_text (<[key := v]> ss).
Proof.
  intros H1 H2 [Ha Hy]. split; rewrite text_at_insert_ne by assumption; assumption.
Qed.

Lemma results_are_text_store ss key v :
  is_text_or_none v = true -> results_are_text ss -> results_are_text (<[key := v]> ss).
Proof.
  intros Hv [Ha Hy]. split.
  - destruct (decide (key = "audio_result")) as [->|Hne];
      [rewrite text_at_insert_eq; exact Hv|rewrite text_at_insert_ne by exact Hne; exact Ha].
  - destruct (decide (key = "yt_result")) as [->|Hne];
      [rewrite text_at_insert_eq; exact Hv|rewrite text_at_insert_ne by exact Hne; exact Hy].
Qed.

Lemma results_are_text_defaults ss :
  results_are_text ss -> results_are_text (ss ∪ default_state).
Proof.
  assert (H : forall k, k = "audio_result" \/ k = "yt_result" ->
                text_at ss k = true -> text_at (ss ∪ default_state) k = true).
  { intros k Hk. unfold text_at. rewrite lookup_union.
    destruct (ss !! k) as [v|] eqn:Hv.
    - destruct (default_state !! k); intros Ht; exact Ht.
    - intros _. rewrite default_state_lookup. destruct Hk as [-> | ->]; reflexivity. }
  intros [Ha Hy]. split; apply H; auto.
Qed.

Lemma results_are_text_upload_click inp ss :
  results_are_text ss -> results_are_text (after_upload_click inp ss).
Proof.
  intros Hss. unfold after_upload_click. destruct (upload_audio_clicked inp); [|exact Hss].
  apply results_are_text_store; [reflexivity|].
  repeat (apply results_are_text_insert; [discriminate..|]). exact Hss.
Qed.

Lemma results_are_text_url_click inp ss :
  results_are_text ss -> results_are_text (after_url_click inp ss).
Proof.
  intros Hss. unfold after_url_click. destruct (enter_url_clicked inp); [|exact Hss].
  apply results_are_text_store; [reflexivity|].
  repeat (apply results_are_text_insert; [discriminate..|]). exact Hss.
Qed.

Lemma results_are_text_job key ss0 ss' :
  job_effect key ss0 ss' -> results_are_text ss0 -> results_are_text ss'.
Proof.
  intros [->|[->|(t & w1 & w2 & ->)]] Hss; [exact Hss|..].
  - apply results_are_text_insert; [discriminate..|exact Hss].
  - apply results_are_text_insert; [discriminate..|].
    apply results_are_text_store; [reflexivity|].
    destruct (assigned_progress_cases w1 w2 ss0) as [->|(num & den & ->)]; [exact Hss|].
    apply results_are_text_insert; [discriminate..|exact Hss].
Qed.

(** What two columns in a row do to the session, read off their effects. *)
Lemma columns_session inp ss s1 s2 :
  let u := after_upload_click inp (ss ∪ default_state) in
  job_effect "audio_result" u s1 ->
  (flag u "processing" = true -> s1 = u) ->
  job_effect "yt_result" (after_url_click inp s1) s2 ->
  (flag (after_url_click inp s1) "processing" = true -> s2 = after_url_click inp s1) ->
  initialized s2
  /\ flag s2 "processing" = flag ss "processing"
  /\ (one_mode ss -> one_mode s2)
  /\ (forall key, key ∉ session_keys -> s2 !! key = ss !! key)
  /\ (processing_clear ss -> s2 !! "processing" = Some (PyBool false))
  /\ (results_are_text ss -> results_are_text s2).
Proof.
  cbn zeta. set (u := after_upload_click inp (ss ∪ default_state)).
  intros Heff1 Hstuck1 Heff2 Hstuck2.
  assert (Hu : u !! "processing" = (ss ∪ default_state) !! "processing")
    by (apply after_upload_click_lookup; discriminate).
  assert (Hv : after_url_click inp s1 !! "processing" = s1 !! "processing")
    by (apply after_url_click_lookup; discriminate).
  split.
  { eapply job_effect_initialized; [|exact Heff2].
    apply initialized_after_url_click.
    eapply job_effect_initialized; [|exact Heff1].
    apply initialized_after_upload_click, initialized_defaults. }
  split.
  { assert (H1 : flag s1 "processing" = flag ss "processing").
    { rewrite <- (flag_defaults ss "processing") by set_solver.
      rewrite <- (flag_ext _ u "processing" Hu).
      destruct (flag u "processing") eqn:Hf.
      - rewrite (Hstuck1 eq_refl). exact Hf.
      - apply (job_effect_processing "audio_result" u s1); [discriminate|exact Heff1|exact Hf]. }
    rewrite <- H1, <- (flag_ext _ _ "processing" Hv).
    destruct (flag (after_url_click inp s1) "processing") eqn:Hf.
    - rewrite (Hstuck2 eq_refl). exact Hf.
    - apply (job_effect_processing "yt_result" (after_url_click inp s1) s2);
        [discriminate|exact Heff2|exact Hf]. }
  split.
  { intros Hone.
    apply (job_effect_one_mode "yt_result" (after_url_click inp s1) s2);
      [discriminate|discriminate|exact Heff2|].
    apply after_url_click_one_mode.
    apply (job_effect_one_mode "audio_result" u s1);
      [discriminate|discriminate|exact Heff1|].
    apply after_upload_click_one_mode. unfold one_mode in *.
    rewrite !flag_defaults by set_solver. exact Hone. }
  split.
  { intros key Hkey. unfold session_keys in Hkey.
    assert (Hne : key <> "yt_transcribe" /\ key <> "aud_transcribe" /\ key <> "yt_result"
                  /\ key <> "audio_result" /\ key <> "processing" /\ key <> "progress")
      by set_solver.
    destruct Hne as (N1 & N2 & N3 & N4 & N5 & N6).
    rewrite (job_effect_flag "yt_result" key _ s2 N5 N3 N6 Heff2).
    rewrite after_url_click_lookup by assumption.
    rewrite (job_effect_flag "audio_result" key _ s1 N5 N4 N6 Heff1).
    unfold u. rewrite after_upload_click_lookup by assumption.
    apply lookup_union_l. rewrite default_state_lookup.
    repeat (rewrite decide_False by assumption). reflexivity. }
  split.
  { intros Hclear.
    apply (job_effect_processing "yt_result" (after_url_click inp s1) s2);
      [discriminate|exact Heff2|].
    rewrite Hv.
    apply (job_effect_processing "audio_result" u s1); [discriminate|exact Heff1|].
    rewrite Hu. destruct Hclear as [Hnone|Hsome].
    - rewrite lookup_union_r by exact Hnone. reflexivity.
    - apply lookup_union_Some_l. exact Hsome. }
  intros Htext.
  apply (results_are_text_job "yt_result" _ _ Heff2), results_are_text_url_click.
  apply (results_are_text_job "audio_result" _ _ Heff1), results_are_text_upload_click.
  apply results_are_text_defaults. exact Htext.
Qed.

Lemma job_runs_stuck_audio inp ss :
  flag (after_upload_click inp ss) "processing" = true -> audio_job_runs inp ss = false.
Proof. intros H. unfold audio_job_runs. rewrite H. apply andb_false_r. Qed.

Lemma job_runs_stuck_youtube inp ss :
  flag (after_url_click inp ss) "processing" = true -> youtube_job_runs inp ss = false.
Proof. intros H. unfold youtube_job_runs. rewrite H. apply andb_false_r. Qed.

(** The session after the script has run, to its end or to the player. *)
Lemma script_session E net inp a :
  exists a',
    script E net inp (run_start a) = (run_outcome net inp (session_state a), a')
    /\ initialized (session_state a')
    /\ flag (session_state a') "processing" = flag (session_state a) "processing"
    /\ (one_mode (session_state a) -> one_mode (session_state a'))
    /\ (forall key, key ∉ session_keys -> session_state a' !! key = session_state a !! key)
    /\ (processing_clear (session_state a) ->
        session_state a' !! "processing" = Some (PyBool false))
    /\ (results_are_text (session_state a) -> results_are_text (session_state a')).
Proof.
  destruct (script_effect E net inp a)
    as (a1 & a2 & Hrun & _ & _ & _ & Heff1 & Hidle1 & Heff2 & Hidle2).
  eexists. split; [exact Hrun|].
  assert (Hss : forall a3, session_state a3 = session_state a2 ->
            initialized (session_state a3)
            /\ flag (session_state a3) "processing" = flag (session_state a) "processing"
            /\ (one_mode (session_state a) -> one_mode (session_state a3))
            /\ (forall key, key ∉ session_keys ->
                  session_state a3 !! key = session_state a !! key)
            /\ (processing_clear (session_state a) ->
                session_state a3 !! "processing" = Some (PyBool false))
            /\ (results_are_text (session_state a) -> results_are_text (session_state a3))).
  { intros a3 ->.
    apply (columns_session inp (session_state a) (session_state a1) (session_state a2));
      [exact Heff1| |exact Heff2|].
    - intros Hf. apply Hidle1, job_runs_stuck_audio. exact Hf.
    - intros Hf. apply Hidle2, job_runs_stuck_youtube. exact Hf. }
  destruct (player_failure net inp (session_state a)); apply Hss; reflexivity.
Qed.

(** The session after one run as Streamlit ends it. *)
Lemma rerun_session E net inp a :
  exists a',
    rerun E net inp a = (Ok tt, a')
    /\ initialized (session_state a')
    /\ flag (session_state a') "processing" = flag (session_state a) "processing"
    /\ (one_mode (session_state a) -> one_mode (session_state a'))
    /\ (forall key, key ∉ session_keys -> session_state a' !! key = session_state a !! key)
    /\ (processing_clear (session_state a) ->
        session_state a' !! "processing" = Some (PyBool false))
    /\ (results_are_text (session_state a) -> results_are_text (session_state a')).
Proof.
  destruct (script_session E net inp a) as (a' & Hrun & Hss).
  unfold rerun. rewrite Hrun. unfold run_outcome, outcome.
  destruct (player_failure net inp (session_state a)) as [e|];
    eexists; (split; [reflexivity|]); exact Hss.
Qed.

(** X22.  From a session whose two results hold [None] or a string, as the
    script leaves them, a run of the script raises at one line only,
    whatever the widgets return and the outside does: [st.video] of line
    193, reached in YouTube mode once something is typed into the URL
    field.  When the player takes what was typed, or is not reached, the run
    reaches the last line of the script.  Either way the six keys of the
    script are set afterwards and no other key has changed; the two results
    still hold [None] or a string; the truth value of [processing] is what
    it was before the run, so that a flag left set is never cleared; and
    when at most one of the two modes was on, at most one is on
    afterwards. *)
Theorem script_raises_only_at_the_player (E : Env) (net : Net) (inp : inputs)
    (a : visit) :
  results_are_text (session_state a) ->
  exists a',
    script E net inp (run_start a)
    = (match (if flag (modes_set inp (session_state a)) "yt_transcribe"
                 && truthy_str (url inp)
              then video_outcome net (url inp) else None) with
       | Some e => Raise e
       | None => Ok tt
       end, a')
    /\ Forall (fun key => is_Some (session_state a' !! key)) session_keys
    /\ results_are_text (session_state a')
    /\ flag (session_state a') "processing" = flag (session_state a) "processing"
    /\ (flag (session_state a) "aud_transcribe" && flag (session_state a) "yt_transcribe"
        = false ->
        flag (session_state a') "aud_transcribe" && flag (session_state a') "yt_transcribe"
        = false)
    /\ (forall key, key ∉ session_keys -> session_state a' !! key = session_state a !! key).
Proof.
  intros Htext.
  destruct (script_session E net inp a)
    as (a' & Hrun & Hinit & Hflag & Hone & Hother & _ & Htext').
  exists a'. split; [exact Hrun|]. split; [exact Hinit|]. split; [exact (Htext' Htext)|].
  split; [exact Hflag|]. split; [exact Hone|exact Hother].
Qed.

(** With [abc] typed in YouTube mode and a player that refuses it, the run
    stops at line 193. *)
Lemma script_raises_only_at_the_player_witness :
  exists a',
    script studio strict_player abc_typed (run_start youtube_mode_visit)
    = (Raise no_such_media, a')
    /\ flag (session_state a') "processing" = false
    /\ flag (session_state a') "aud_transcribe" && flag (session_state a') "yt_transcribe"
       = false.
Proof.
  assert (Htext : results_are_text (session_state youtube_mode_visit))
    by (split; vm_compute; reflexivity).
  destruct (script_raises_only_at_the_player studio strict_player abc_typed
              youtube_mode_visit Htext) as (a' & Hrun & _ & _ & Hflag & Hone & _).
  exists a'. split; [exact Hrun|]. split; [exact Hflag|].
  apply Hone. vm_compute. reflexivity.
Defined.

Lemma reruns_settled E : forall steps a,
  processing_clear (session_state a) ->
  one_mode (session_state a) ->
  results_are_text (session_state a) ->
  exists a',
    reruns E steps a = (Ok tt, a')
    /\ processing_clear (session_state a')
    /\ one_mode (session_state a')
    /\ results_are_text (session_state a')
    /\ (steps <> [] ->
        initialized (session_state a')
        /\ session_state a' !! "processing" = Some (PyBool false)).
Proof.
  induction steps as [|[inp net] steps IH]; intros a Hclear Hone Htext.
  - exists a. split; [reflexivity|]. split; [exact Hclear|]. split; [exact Hone|].
    split; [exact Htext|]. intros H. contradiction.
  - cbn [reruns]. unfold bindS.
    destruct (rerun_session E net inp a)
      as (a1 & Hrun & Hinit & _ & Hone1 & _ & Hproc & Htext1).
    rewrite Hrun. specialize (Hproc Hclear). specialize (Hone1 Hone).
    specialize (Htext1 Htext).
    destruct (IH a1 (or_intror Hproc) Hone1 Htext1)
      as (a' & Hruns & Hclear' & Hone' & Htext' & Hlast).
    exists a'. split; [exact Hruns|]. split; [exact Hclear'|]. split; [exact Hone'|].
    split; [exact Htext'|].
    intros _. destruct steps as [|step steps].
    + cbn [reruns] in Hruns. injection Hruns as <-. split; [exact Hinit|exact Hproc].
    + apply Hlast. discriminate.
Qed.

(** X23.  Over a whole visit, however many times the script runs, whatever
    is clicked, typed, uploaded or answered by the outside, and whether a
    run reaches the last line of the script or is ended by an exception of
    [st.video]: [processing] is [False] at the end of every run, so the
    guard [not st.session_state.processing] of lines 143 and 195 holds
    whenever it is evaluated; the two modes are never on together; and the
    two results hold [None] or a string, so that [st.download_button] is
    only ever handed a string. *)
Theorem visit_stays_settled (E : Env) (steps : list (inputs * Net)) (w : world) :
  exists a',
    reruns E steps (first_visit w) = (Ok tt, a')
    /\ flag (session_state a') "processing" = false
    /\ flag (session_state a') "aud_transcribe" && flag (session_state a') "yt_transcribe"
       = false
    /\ (steps <> [] ->
        Forall (fun key => is_Some (session_state a' !! key)) session_keys
        /\ session_state a' !! "processing" = Some (PyBool false))
    /\ (forall key v,
          key = "audio_result" \/ key = "yt_result" ->
          session_state a' !! key = Some v ->
          v = PyNone \/ exists t, v = PyStr t).
Proof.
  destruct (reruns_settled E steps (first_visit w))
    as (a' & Hrun & Hclear & Hone & Htext & Hlast).
  - left. reflexivity.
  - reflexivity.
  - split; reflexivity.
  - exists a'. split; [exact Hrun|].
    split; [|split; [exact Hone|split; [exact Hlast|]]].
    + unfold flag. destruct Hclear as [->| ->]; reflexivity.
    + destruct Htext as [Ha Hy].
      intros key v [-> | ->] Hv;
        [exact (text_at_lookup _ _ _ Ha Hv)|exact (text_at_lookup _ _ _ Hy Hv)].
Qed.

(** X24.  From a session whose two results hold [None] or a string, a run
    in which neither handler is entered leaves the outside world as it is,
    whether it reaches the last line of the script or stops at [st.video]:
    nothing is created, transcribed or deleted, and the session only
    records the mode buttons.  This is the case when the uploader is empty
    and [Transcribe Video] is not clicked, and also whenever [processing] is
    set at the start of the run, whatever is uploaded or clicked. *)
Theorem rerun_without_job (E : Env) (net : Net) (inp : inputs) (a : visit) :
  results_are_text (session_state a) ->
  (audio_file inp = None /\ transcribe_video_clicked inp = false)
  \/ flag (session_state a) "processing" = true ->
  exists a',
    script E net inp (run_start a) = (run_outcome net inp (session_state a), a')
    /\ outside a' = outside a
    /\ session_state a'
       = after_url_click inp
           (after_upload_click inp (session_state a ∪ default_state)).
Proof.
  intros _ Hwhy.
  destruct (script_effect E net inp a)
    as (a1 & a2 & Hrun & _ & _ & _ & _ & Hidle1 & _ & Hidle2).
  assert (H1 : audio_job_runs inp (session_state a ∪ default_state) = false).
  { destruct Hwhy as [[Hfile _]|Hflag].
    - unfold audio_job_runs. rewrite Hfile.
      rewrite bool_decide_eq_false_2 by (intros [x Hx]; discriminate Hx).
      rewrite andb_false_r. reflexivity.
    - apply job_runs_stuck_audio.
      rewrite (flag_ext (session_state a ∪ default_state))
        by (apply after_upload_click_lookup; discriminate).
      rewrite flag_defaults by set_solver. exact Hflag. }
  destruct (Hidle1 H1) as [Hs1 Hw1].
  assert (H2 : youtube_job_runs inp (session_state a1) = false).
  { destruct Hwhy as [[_ Hclick]|Hflag].
    - unfold youtube_job_runs. rewrite Hclick, andb_false_r. reflexivity.
    - apply job_runs_stuck_youtube.
      rewrite (flag_ext (session_state a1))
        by (apply after_url_click_lookup; discriminate).
      rewrite Hs1.
      rewrite (flag_ext (session_state a ∪ default_state))
        by (apply after_upload_click_lookup; discriminate).
      rewrite flag_defaults by set_solver. exact Hflag. }
  destruct (Hidle2 H2) as [Hs2 Hw2].
  eexists. split; [exact Hrun|].
  destruct (player_failure net inp (session_state a));
    cbn [outside session_state with_page];
    (split; [rewrite Hw2; exact Hw1|]); rewrite Hs2, Hs1; reflexivity.
Qed.

(** A file is in the uploader while [processing] was left set: the run
    reaches its last line and does nothing. *)
Lemma rerun_without_job_witness :
  exists a',
    script studio online file_chosen (run_start stuck_visit) = (Ok tt, a')
    /\ outside a' = fresh_world
    /\ session_state a' !! "processing" = Some (PyBool true)
    /\ session_state a' !! "audio_result" = Some PyNone.
Proof.
  assert (Htext : results_are_text (session_state stuck_visit))
    by (split; vm_compute; reflexivity).
  assert (Hwhy : (audio_file file_chosen = None
                  /\ transcribe_video_clicked file_chosen = false)
                 \/ flag (session_state stuck_visit) "processing" = true)
    by (right; vm_compute; reflexivity).
  destruct (rerun_without_job studio online file_chosen stuck_visit Htext Hwhy)
    as (a' & Hrun & Hw & Hss).
  assert (Hout : run_outcome online file_chosen (session_state stuck_visit) = Ok tt)
    by (vm_compute; reflexivity).
  rewrite Hout in Hrun.
  exists a'. split; [exact Hrun|]. split; [exact Hw|].
  rewrite Hss. split; vm_compute; reflexivity.
Defined.

(** X25.  In audio mode, with a file in the uploader and [processing] not
    set, every run of the script enters the upload handler on that file,
    whether or not a transcript is already stored: the file is written to a
    new temp file and transcribed again each time the script runs.  When the
    YouTube handler is not entered in the same run, the world and the
    results after the run are those the upload handler left. *)
Theorem rerun_runs_upload_handler (E : Env) (net : Net) (inp : inputs) (a : visit)
    (data : string) :
  audio_file inp = Some data ->
  flag (after_upload_click inp (session_state a ∪ default_state)) "aud_transcribe" = true ->
  flag (session_state a) "processing" = false ->
  exists a0 a1 a',
    rerun E net inp a = (Ok tt, a')
    /\ session_state a0 = after_upload_click inp (session_state a ∪ default_state)
    /\ outside a0 = outside a
    /\ audio_job E net data a0 = (Ok tt, a1)
    /\ (youtube_job_runs inp (session_state a1) = false ->
        outside a' = outside a1
        /\ session_state a' = after_url_click inp (session_state a1)).
Proof.
  intros Hfile Hmode Hflag.
  destruct (rerun_effect E net inp a)
    as (a1 & a2 & a' & Hrun & Hcol1 & Hsa' & Hwa' & _ & _ & _ & _ & Hidle2).
  destruct (audio_column_run E net inp
              (Visit (session_state a ∪ default_state) None
                 [Title "Audio & YouTube Video Transcription"; Columns 2] (outside a))
              (initialized_defaults _)) as (a1' & Hcol1' & Hcase).
  rewrite Hcol1 in Hcol1'. injection Hcol1' as <-.
  cbn zeta in Hcase. cbn [session_state outside temp_path page] in Hcase.
  rewrite Hmode, Hfile in Hcase.
  assert (Hproc : flag (after_upload_click inp (session_state a ∪ default_state))
                    "processing" = false).
  { rewrite (flag_ext (session_state a ∪ default_state))
      by (apply after_upload_click_lookup; discriminate).
    rewrite flag_defaults by set_solver. exact Hflag. }
  rewrite Hproc in Hcase. destruct Hcase as (a2' & res & Hjob & _ & Ha1).
  eexists _, a2', _. split; [exact Hrun|].
  split; [|split; [|split; [exact Hjob|]]]; [reflexivity|reflexivity|].
  intros Hyt. rewrite Hsa', Hwa'.
  assert (Hs : session_state a1 = session_state a2') by (rewrite Ha1; reflexivity).
  assert (Hw : outside a1 = outside a2') by (rewrite Ha1; reflexivity).
  rewrite Hs in Hidle2. destruct (Hidle2 Hyt) as [Hs2 Hw2].
  split; [rewrite Hw2; exact Hw|exact Hs2].
Qed.

Lemma rerun_runs_upload_handler_witness :
  exists a0 a1 a',
    rerun studio online file_chosen audio_mode_visit = (Ok tt, a')
    /\ outside a0 = fresh_world
    /\ audio_job studio online "RIFF" a0 = (Ok tt, a1)
    /\ outside a' = outside a1.
Proof.
  assert (Hfile : audio_file file_chosen = Some "RIFF") by reflexivity.
  assert (Hmode : flag (after_upload_click file_chosen
                          (session_state audio_mode_visit ∪ default_state))
                    "aud_transcribe" = true) by (vm_compute; reflexivity).
  assert (Hflag : flag (session_state audio_mode_visit) "processing" = false)
    by (vm_compute; reflexivity).
  destruct (rerun_runs_upload_handler studio online file_chosen audio_mode_visit "RIFF"
              Hfile Hmode Hflag) as (a0 & a1 & a' & Hrun & _ & Hw0 & Hjob & Hrest).
  exists a0, a1, a'. split; [exact Hrun|]. split; [exact Hw0|]. split; [exact Hjob|].
  apply Hrest. unfold youtube_job_runs. cbn [transcribe_video_clicked file_chosen].
  rewrite andb_false_r. reflexivity.
Defined.

(** ** What the page offers *)

Lemma offered_app l1 l2 : offered (l1 ++ l2) = offered l1 ++ offered l2.
Proof. unfold offered. apply omap_app. Qed.

Lemma offered_result_widgets key file_name area_label ss res :
  ss !! key = Some res ->
  offered (result_widgets file_name area_label res) = offer key file_name ss.
Proof.
  intros H. unfold offer, result_widgets. rewrite H. destruct (truthy res); reflexivity.
Qed.

Lemma audio_column_offers E net inp a :
  initialized (session_state a) ->
  exists a',
    audio_column E net inp a = (Ok tt, a')
    /\ offered (page a')
       = offered (page a)
         ++ (if flag (after_upload_click inp (session_state a)) "aud_transcribe"
             then offer "audio_result" "audio_transcript.txt" (session_state a')
             else []).
Proof.
  intros Hinit. destruct (audio_column_run E net inp a Hinit) as (a' & Hrun & Hcase).
  cbn zeta in Hcase. exists a'. split; [exact Hrun|].
  assert (Hquiet : forall res ss pg tp w,
            ss !! "audio_result" = Some res ->
            a' = Visit ss tp
                   ((page a ++ [Subheader "Audio File Transcription";
                                Button "Upload Audio File"])
                    ++ [FileUploader "Select audio file" ["mp3"; "wav"; "m4a"]]
                    ++ pg
                    ++ result_widgets "audio_transcript.txt" "Transcription Result" res)
                   w ->
            offered pg = [] ->
            offered (page a')
            = offered (page a)
              ++ offer "audio_result" "audio_transcript.txt" (session_state a')).
  { intros res ss pg tp w Hres -> Hpg. cbn [page session_state].
    rewrite !offered_app, Hpg, (offered_result_widgets "audio_result" _ _ ss res Hres).
    change (offered [Subheader "Audio File Transcription"; Button "Upload Audio File"])
      with (@nil (pyval * string)).
    change (offered [FileUploader "Select audio file" ["mp3"; "wav"; "m4a"]])
      with (@nil (pyval * string)).
    rewrite app_nil_r. reflexivity. }
  destruct (flag (after_upload_click inp (session_state a)) "aud_transcribe").
  2:{ rewrite Hcase. cbn [page]. rewrite offered_app, app_nil_r. cbn.
      rewrite app_nil_r. reflexivity. }
  destruct (audio_file inp) as [data|].
  2:{ destruct Hcase as (res & Hres & Ha'). apply (Hquiet res _ [] _ _ Hres Ha').
      reflexivity. }
  destruct (flag (after_upload_click inp (session_state a)) "processing").
  { destruct Hcase as (res & Hres & Ha'). apply (Hquiet res _ [] _ _ Hres Ha').
    reflexivity. }
  destruct Hcase as (a2 & res & _ & Hres & Ha').
  apply (Hquiet res (session_state a2)
           (if truthy res then [Success "Audio processing complete!"] else [])
           (temp_path a2) (outside a2) Hres).
  - rewrite Ha'. unfold with_page. reflexivity.
  - destruct (truthy res); reflexivity.
Qed.

(** A column that stops at the player offers nothing. *)
Lemma youtube_column_offers E net inp a :
  initialized (session_state a) ->
  exists a',
    youtube_column E net inp a
    = (outcome (video_failure net inp (after_url_click inp (session_state a))), a')
    /\ offered (page a')
       = offered (page a)
         ++ match video_failure net inp (after_url_click inp (session_state a)) with
            | Some _ => []
            | None =>
                if flag (after_url_click inp (session_state a)) "yt_transcribe"
                then offer "yt_result" "youtube_transcript.txt" (session_state a')
                else []
            end.
Proof.
  intros Hinit. destruct (youtube_column_run E net inp a Hinit) as (a' & Hrun & Hcase).
  cbn zeta in Hcase. exists a'. split; [exact Hrun|]. clear Hrun.
  assert (Hquiet : forall res ss pg tp w,
            ss !! "yt_result" = Some res ->
            a' = Visit ss tp
                   ((page a ++ [Subheader "YouTube Video Transcription";
                                Button "Enter YouTube URL"])
                    ++ pg
                    ++ result_widgets "youtube_transcript.txt" "YouTube Transcription" res)
                   w ->
            offered pg = [] ->
            offered (page a')
            = offered (page a)
              ++ offer "yt_result" "youtube_transcript.txt" (session_state a')).
  { intros res ss pg tp w Hres -> Hpg. cbn [page session_state].
    rewrite !offered_app, Hpg, (offered_result_widgets "yt_result" _ _ ss res Hres).
    change (offered [Subheader "YouTube Video Transcription"; Button "Enter YouTube URL"])
      with (@nil (pyval * string)).
    rewrite app_nil_r. reflexivity. }
  unfold video_failure.
  destruct (flag (after_url_click inp (session_state a)) "yt_transcribe"); cbn [andb].
  2:{ rewrite Hcase. cbn [page]. rewrite offered_app, app_nil_r. cbn.
      rewrite app_nil_r. reflexivity. }
  destruct (truthy_str (url inp)).
  2:{ destruct Hcase as (res & Hres & Ha').
      apply (Hquiet res _ [TextInput "Paste YouTube URL:"
                             "https://www.youtube.com/watch?v=..."] _ _ Hres Ha').
      reflexivity. }
  destruct (video_outcome net (url inp)) as [e|].
  { rewrite Hcase. cbn [page]. rewrite !offered_app, app_nil_r. cbn.
    rewrite app_nil_r. reflexivity. }
  destruct (transcribe_video_clicked inp
            && negb (flag (after_url_click inp (session_state a)) "processing")).
  2:{ destruct Hcase as (res & Hres & Ha').
      apply (Hquiet res _ [TextInput "Paste YouTube URL:"
                             "https://www.youtube.com/watch?v=...";
                           Video (url inp); Button "Transcribe Video"] _ _ Hres Ha').
      reflexivity. }
  destruct Hcase as (a2 & res & _ & Hres & Ha').
  apply (Hquiet res (session_state a2)
           ([TextInput "Paste YouTube URL:" "https://www.youtube.com/watch?v=...";
             Video (url inp); Button "Transcribe Video"; Spinner "Downloading audio..."]
            ++ (if truthy res then [Success "YouTube processing complete!"] else []))
           (temp_path a2) (outside a2) Hres).
  - rewrite Ha'. unfold with_page. rewrite <- !app_assoc. reflexivity.
  - destruct (truthy res); reflexivity.
Qed.

Lemma offer_is_text key file_name ss :
  text_at ss key = true ->
  Forall (fun o => exists t, fst o = PyStr t) (offer key file_name ss).
Proof.
  intros Hss. unfold offer. destruct (ss !! key) as [v|] eqn:Hv; [|constructor].
  destruct (truthy v) eqn:Htruthy; [|constructor].
  destruct (text_at_lookup ss key v Hss Hv) as [->|(t & ->)]; [discriminate Htruthy|].
  constructor; [exists t; reflexivity|constructor].
Qed.

(** X26.  From a session whose two results hold [None] or a string, what a
    run of the script offers for download is exactly the results stored in
    the session at the end of the run, as far as the run got: the audio
    transcript when the audio column was drawn in audio mode and
    [audio_result] is truthy, then, unless the run stopped at [st.video],
    the YouTube transcript when the YouTube column was drawn in YouTube mode
    and [yt_result] is truthy.  Nothing is offered for a result that is
    [None] or the empty string, which is what a failed job leaves, and every
    download button of the run is handed a string. *)
Theorem page_offers_stored_results (E : Env) (net : Net) (inp : inputs) (a : visit) :
  results_are_text (session_state a) ->
  exists a',
    script E net inp (run_start a) = (run_outcome net inp (session_state a), a')
    /\ offered (page a')
       = (if flag (after_upload_click inp (session_state a ∪ default_state))
               "aud_transcribe"
          then offer "audio_result" "audio_transcript.txt" (session_state a') else [])
         ++ match player_failure net inp (session_state a) with
            | Some _ => []
            | None =>
                if flag (modes_set inp (session_state a)) "yt_transcribe"
                then offer "yt_result" "youtube_transcript.txt" (session_state a')
                else []
            end
    /\ Forall (fun o => exists t, fst o = PyStr t) (offered (page a')).
Proof.
  intros Htext.
  destruct (script_effect E net inp a)
    as (a1 & a2 & Hrun & Hcol1 & Hcol2 & Hinit1 & Heff1 & Hidle1 & Heff2 & Hidle2).
  eexists. split; [exact Hrun|].
  destruct (audio_column_offers E net inp
              (Visit (session_state a ∪ default_state) None
                 [Title "Audio & YouTube Video Transcription"; Columns 2] (outside a))
              (initialized_defaults _)) as (a1' & Hcol1' & Hoff1).
  rewrite Hcol1 in Hcol1'. injection Hcol1' as <-.
  destruct (youtube_column_offers E net inp a1 Hinit1) as (a2' & Hcol2' & Hoff2).
  rewrite Hcol2 in Hcol2'. injection Hcol2' as _ <-.
  cbn [page session_state] in Hoff1.
  change (offered [Title "Audio & YouTube Video Transcription"; Columns 2])
    with (@nil (pyval * string)) in Hoff1.
  cbn [app] in Hoff1.
  assert (Hres : session_state a2 !! "audio_result" = session_state a1 !! "audio_result").
  { rewrite (job_effect_flag "yt_result" "audio_result" _ _ ltac:(discriminate)
               ltac:(discriminate) ltac:(discriminate) Heff2).
    apply after_url_click_lookup; discriminate. }
  assert (Hsame : video_failure net inp (after_url_click inp (session_state a1))
                  = player_failure net inp (session_state a)).
  { unfold player_failure, video_failure.
    rewrite (youtube_mode_settled inp (session_state a) (session_state a1) Heff1).
    reflexivity. }
  assert (Hoff : offered (page a2)
                 = (if flag (after_upload_click inp (session_state a ∪ default_state))
                         "aud_transcribe"
                    then offer "audio_result" "audio_transcript.txt" (session_state a2)
                    else [])
                   ++ match player_failure net inp (session_state a) with
                      | Some _ => []
                      | None =>
                          if flag (modes_set inp (session_state a)) "yt_transcribe"
                          then offer "yt_result" "youtube_transcript.txt" (session_state a2)
                          else []
                      end).
  { rewrite Hoff2, Hoff1, Hsame.
    rewrite (youtube_mode_settled inp (session_state a) (session_state a1) Heff1).
    f_equal.
    destruct (flag (after_upload_click inp (session_state a ∪ default_state))
                "aud_transcribe"); [|reflexivity].
    unfold offer. rewrite Hres. reflexivity. }
  assert (Hfinal : forall a3,
            session_state a3 = session_state a2 ->
            offered (page a3) = offered (page a2) ->
            offered (page a3)
            = (if flag (after_upload_click inp (session_state a ∪ default_state))
                    "aud_transcribe"
               then offer "audio_result" "audio_transcript.txt" (session_state a3)
               else [])
              ++ match player_failure net inp (session_state a) with
                 | Some _ => []
                 | None =>
                     if flag (modes_set inp (session_state a)) "yt_transcribe"
                     then offer "yt_result" "youtube_transcript.txt" (session_state a3)
                     else []
                 end
            /\ Forall (fun o => exists t, fst o = PyStr t) (offered (page a3))).
  { intros a3 Hs3 Hp3. rewrite Hp3, Hs3. split; [exact Hoff|].
    assert (Htext2 : results_are_text (session_state a2)).
    { apply (results_are_text_job "yt_result" _ _ Heff2), results_are_text_url_click.
      apply (results_are_text_job "audio_result" _ _ Heff1).
      apply results_are_text_upload_click, results_are_text_defaults. exact Htext. }
    destruct Htext2 as [Ha2 Hy2].
    rewrite Hoff. apply Forall_app. split.
    - destruct (flag (after_upload_click inp (session_state a ∪ default_state))
                  "aud_transcribe"); [|constructor].
      apply offer_is_text. exact Ha2.
    - destruct (player_failure net inp (session_state a)); [constructor|].
      destruct (flag (modes_set inp (session_state a)) "yt_transcribe"); [|constructor].
      apply offer_is_text. exact Hy2. }
  destruct (player_failure net inp (session_state a)) as [e|].
  - exact (Hfinal a2 eq_refl eq_refl).
  - apply (Hfinal (with_page (page a2 ++ footer) a2) eq_refl).
    cbn [page with_page]. rewrite offered_app. cbn [offered omap footer].
    apply app_nil_r.
Qed.

(** With a transcript stored and nothing touched, the run offers that
    transcript and nothing else. *)
Lemma page_offers_stored_results_witness :
  exists a',
    script studio online nothing_done (run_start transcribed_visit) = (Ok tt, a')
    /\ offered (page a') = [(PyStr "part 0", "audio_transcript.txt")].
Proof.
  assert (Htext : results_are_text (session_state transcribed_visit))
    by (split; vm_compute; reflexivity).
  destruct (page_offers_stored_results studio online nothing_done transcribed_visit Htext)
    as (a' & Hrun & Hoff & _).
  assert (Hout : run_outcome online nothing_done (session_state transcribed_visit) = Ok tt)
    by (vm_compute; reflexivity).
  rewrite Hout in Hrun.
  exists a'. split; [exact Hrun|].
  rewrite Hoff. apply (f_equal snd) in Hrun. cbn [snd] in Hrun. rewrite <- Hrun.
  vm_compute. reflexivity.
Defined.

(** X27.  When the upload is written to its temp file and the [try] block
    of [process_long_audio] completes, a run of the upload handler that shows
    no deletion warning leaves the disk exactly as it found it: the temp
    file of the upload and those of the chunks are all gone. *)
Theorem audio_job_cleans_up (E : Env) (net : Net) (data : string) (a : visit)
    (name tb : string) (wb : world) :
  tempfile_name E (n_tempfile (outside a)) = inr name ->
  name +:+ ".mp3" ∉ fs (outside a) ->
  write_outcome net = None ->
  process_long_audio_body E (name +:+ ".mp3")
    (with_trace (trace (outside a) ++ [TempCreated (name +:+ ".mp3")])
       (with_fs ({[name +:+ ".mp3"]} ∪ fs (outside a))
          (with_n_tempfile (S (n_tempfile (outside a))) (outside a))))
  = (Ok tb, wb) ->
  exists a' evs,
    audio_job E net data a = (Ok tt, a')
    /\ trace (outside a') = trace (outside a) ++ evs
    /\ session_state a' !! "audio_result" = Some (PyStr tb)
    /\ (delete_warnings evs = 0%nat -> fs (outside a') = fs (outside a)).
Proof.
  intros Hname Hfresh Hwrite Hbody.
  destruct (audio_job_run E net data a) as (a' & Hrun & Hcase).
  unfold NamedTemporaryFile in Hcase.
  rewrite Hname, bool_decide_eq_false_2, Hwrite in Hcase by exact Hfresh.
  destruct Hcase as (t & w2 & Hjob & Hin & ->).
  set (p := name +:+ ".mp3") in *.
  destruct (job_restores_disk E p _ t w2 tb wb Hjob Hbody) as (evsJ & HtrJ & Hsame).
  destruct (delete_run_facts E (n_safe_delete w2) p) as (Hw & _).
  cbn zeta in Hw.
  assert (Ht : t = tb).
  { rewrite process_long_audio_eq, Hbody in Hjob. injection Hjob as <- _. reflexivity. }
  eexists _, ([TempCreated p] ++ evsJ ++ snd (delete_run E (n_safe_delete w2) p)).
  split; [exact Hrun|]. unfold job_done.
  cbn [outside session_state trace fs with_trace with_fs with_n_safe_delete] in *.
  split; [rewrite HtrJ, <- !app_assoc; reflexivity|].
  split; [rewrite lookup_insert_ne by discriminate; rewrite lookup_insert_eq, Ht;
          reflexivity|].
  rewrite !delete_warnings_app, Hw. intros Hquiet.
  destruct (fst (delete_run E (n_safe_delete w2) p)); [|lia].
  rewrite Hsame by lia. apply leibniz_equiv. set_solver.
Qed.

Lemma audio_job_cleans_up_witness :
  exists a',
    audio_job studio online "RIFF" idle_visit = (Ok tt, a')
    /\ session_state a' !! "audio_result"
       = Some (PyStr (String.concat paragraph_separator ["part 0"; "part 1"]))
    /\ fs (outside a') = fs (outside idle_visit).
Proof.
  assert (Hname : tempfile_name studio (n_tempfile (outside idle_visit))
                  = inr (studio_name 0)) by reflexivity.
  assert (Hfresh : studio_name 0 +:+ ".mp3" ∉ fs (outside idle_visit))
    by apply not_elem_of_empty.
  assert (Hwrite : write_outcome online = None) by reflexivity.
  assert (Hbody :
            process_long_audio_body studio (studio_name 0 +:+ ".mp3")
              (with_trace (trace (outside idle_visit)
                           ++ [TempCreated (studio_name 0 +:+ ".mp3")])
                 (with_fs ({[studio_name 0 +:+ ".mp3"]} ∪ fs (outside idle_visit))
                    (with_n_tempfile (S (n_tempfile (outside idle_visit)))
                       (outside idle_visit))))
            = (Ok (String.concat paragraph_separator ["part 0"; "part 1"]),
               snd (process_long_audio_body studio (studio_name 0 +:+ ".mp3")
                      (with_trace (trace (outside idle_visit)
                                   ++ [TempCreated (studio_name 0 +:+ ".mp3")])
                         (with_fs ({[studio_name 0 +:+ ".mp3"]} ∪ fs (outside idle_visit))
                            (with_n_tempfile (S (n_tempfile (outside idle_visit)))
                               (outside idle_visit)))))))
    by run_result.
  destruct (audio_job_cleans_up studio online "RIFF" idle_visit (studio_name 0) _ _
              Hname Hfresh Hwrite Hbody) as (a' & evs & Hrun & Htr & Hres & Hclean).
  exists a'. split; [exact Hrun|]. split; [exact Hres|].
  apply Hclean.
  assert (Hevs : delete_warnings (drop (length (trace (outside idle_visit)))
                                    (trace (outside a'))) = 0%nat).
  { apply (f_equal snd) in Hrun. cbn [snd] in Hrun. rewrite <- Hrun.
    vm_compute. reflexivity. }
  rewrite Htr, drop_app_length in Hevs. exact Hevs.
Defined.
